(** * Fast-API-Base: upload validation pipeline and generative gateway

    A shallow embedding of [app/routes/router.py], [app/routes/gemini_api.py]
    and [app/routes/ai_routes.py].

    Conventions of the embedding.
    - Python [int] is [Z]; [len] is [Z.of_nat (length _)].
    - Python [float] is a binary64 number, kept as the rational it stands
      for: [binary64] rounds a rational to the nearest one, ties to the even
      significand.  [round(x, 2)] rounds the exact value of [x] half-to-even
      to two decimals, and [PyFloat q] stands for the float nearest to [q]
      (the one whose [repr] prints [q]).  Floats are finite: an infinity
      and a NaN are not modelled.
    - Python [str] is [string], holding the UTF-8 form of the text: [len]
      and slices count code points, not bytes.  A [str] with a lone
      surrogate has no UTF-8 form and is no [string]; the values
      [json.loads] can build with one have constructors of their own.
      [bytes] is [list byte].
    - A Python [dict] whose iteration order is observed is an association
      list in insertion order; a [dict] only used by key is a [gmap].
    - A handler is a computation in the monad [M]: it threads the [World]
      (clock readings, file reads, calls to the generative API, the state of
      the one shared gateway object) and may raise a Python exception.  The
      world changes made before an exception is raised are kept, as in
      Python.
    - Third-party libraries (Pillow, zipfile, csv, json, ElementTree, the
      generative-language client, the wall clock) are the fields of the
      class [Library]; every statement holds for all of its instances.
    - The interpreter's recursion limit is the field [recursion_room] of
      [Library]; memory is not modelled. *)

From Stdlib Require Import ZArith QArith Qabs Qround Qfield String Ascii List Lia Lqa Bool.
From Stdlib.Strings Require Import Byte.
From stdpp Require Import base option list strings gmap pretty.

Local Open Scope Z_scope.
Set Warnings "-register-all".

(* ===================================================================== *)
(** * Python values, exceptions and builtins                              *)
(* ===================================================================== *)

Module Py.

(** JSON-like Python values: what [json.loads] returns and what
    [JSONResponse] is given. *)
Inductive pyval : Type :=
| PyNone
| PyBool (b : bool)
| PyInt (n : Z)
| PyFloat (x : Q)
| PyStr (s : string)
| PyList (items : list pyval)
| PyDict (items : list (string * pyval))
(** a [str] that holds a lone surrogate, as [json.loads] builds from an
    escape such as [\ud800]: its code points *)
| PyStrSurrogate (code_points : list Z)
(** a [dict] one of whose keys is such a [str]; the keys are [PyStr] or
    [PyStrSurrogate] values, in insertion order *)
| PyDictSurrogate (items : list (pyval * pyval)).

(** [type(v).__name__] *)
Definition type_name (v : pyval) : string :=
  match v with
  | PyNone => "NoneType"
  | PyBool _ => "bool"
  | PyInt _ => "int"
  | PyFloat _ => "float"
  | PyStr _ => "str"
  | PyList _ => "list"
  | PyDict _ => "dict"
  | PyStrSurrogate _ => "str"
  | PyDictSurrogate _ => "dict"
  end.

(** Truth value of an object ([if data:]). *)
Definition truthy (v : pyval) : bool :=
  match v with
  | PyNone => false
  | PyBool b => b
  | PyInt n => negb (n =? 0)
  | PyFloat x => negb (Qeq_bool x 0)
  | PyStr s => negb (String.eqb s "")
  | PyList l => match l with [] => false | _ => true end
  | PyDict d => match d with [] => false | _ => true end
  | PyStrSurrogate l => match l with [] => false | _ => true end
  | PyDictSurrogate d => match d with [] => false | _ => true end
  end.

(** Whether [json.dumps(v, ensure_ascii=False).encode("utf-8")] succeeds:
    every [str] in [v], keys included, must have a UTF-8 form. *)
Fixpoint utf8_encodable (v : pyval) : bool :=
  match v with
  | PyStrSurrogate _ => false
  | PyList l => forallb utf8_encodable l
  | PyDict d =>
      forallb (fun kv => match kv with (_, x) => utf8_encodable x end) d
  | PyDictSurrogate d =>
      forallb (fun kv => match kv with
                         | (k, x) => utf8_encodable k && utf8_encodable x
                         end) d
  | _ => true
  end.

Definition len {A} (l : list A) : Z := Z.of_nat (length l).

(** ** Insertion-ordered dictionaries *)

Fixpoint dict_get {V} (k : string) (d : list (string * V)) : option V :=
  match d with
  | [] => None
  | (k', v) :: d' => if String.eqb k k' then Some v else dict_get k d'
  end.

(** [d[k] = v]: an existing key keeps its position, a new one goes last. *)
Fixpoint dict_set {V} (k : string) (v : V) (d : list (string * V))
  : list (string * V) :=
  match d with
  | [] => [(k, v)]
  | (k', v') :: d' =>
      if String.eqb k k' then (k, v) :: d' else (k', v') :: dict_set k v d'
  end.

Definition dict_keys {V} (d : list (string * V)) : list string := d.*1.

(** ** Exceptions *)

Inductive exn_class : Type :=
| UnicodeDecodeError
| JSONDecodeError
| BadZipFile
| ParseError
| KeyError
| ValueError
| UnicodeEncodeError
| RecursionError
| OtherException (name : string).

(** Every exception of the model is an instance of [Exception].
    [HTTPException] is FastAPI's; it carries the status the framework
    answers with. *)
Inductive exn : Type :=
| HTTPException (status_code : Z) (detail : string)
| PyExn (cls : exn_class) (msg : string).

Definition is_class (c : exn_class) (e : exn) : bool :=
  match e, c with
  | PyExn UnicodeDecodeError _, UnicodeDecodeError => true
  | PyExn JSONDecodeError _, JSONDecodeError => true
  | PyExn BadZipFile _, BadZipFile => true
  | PyExn ParseError _, ParseError => true
  | PyExn KeyError _, KeyError => true
  (* ValueError and its subclasses *)
  | PyExn ValueError _, ValueError => true
  | PyExn UnicodeDecodeError _, ValueError => true
  | PyExn JSONDecodeError _, ValueError => true
  | PyExn UnicodeEncodeError _, UnicodeEncodeError => true
  | PyExn UnicodeEncodeError _, ValueError => true
  | PyExn RecursionError _, RecursionError => true
  | _, _ => false
  end.

Definition result (A : Type) : Type := (exn + A)%type.

(** ** Strings and bytes *)

Definition lower_ascii (c : ascii) : ascii :=
  let n := nat_of_ascii c in
  if ((65 <=? n) && (n <=? 90))%nat then ascii_of_nat (n + 32) else c.

(** [str.lower] on a text of ASCII characters. *)
Fixpoint ascii_lower (s : string) : string :=
  match s with
  | EmptyString => EmptyString
  | String c s' => String (lower_ascii c) (ascii_lower s')
  end.

(** [str.isascii] *)
Fixpoint is_ascii (s : string) : bool :=
  match s with
  | EmptyString => true
  | String c s' => (nat_of_ascii c <? 128)%nat && is_ascii s'
  end.

Fixpoint rfind_from (c : ascii) (s : string) (i last : Z) : Z :=
  match s with
  | EmptyString => last
  | String a s' => rfind_from c s' (i + 1) (if Ascii.eqb a c then i else last)
  end.

(** [str.rfind] of a single character: the last index, or -1. *)
Definition rfind (c : ascii) (s : string) : Z := rfind_from c s 0 (-1).

(** [p[:i]] and [p[i:]] for [0 <= i], where [i] is the place of an ASCII
    character found by [rfind]: a number of bytes. *)
Definition str_take (i : Z) (p : string) : string :=
  substring 0 (Z.to_nat i) p.
Definition str_drop (i : Z) (p : string) : string :=
  substring (Z.to_nat i) (String.length p - Z.to_nat i) p.

(** The [while filenameIndex < dotIndex] loop of [genericpath._splitext];
    [n] is the number of iterations left. *)
Fixpoint splitext_loop (p : string) (dotIndex : Z) (n : nat)
    (filenameIndex : Z) : string * string :=
  match n with
  | O => (p, "")
  | S n' =>
      if negb (String.eqb (substring (Z.to_nat filenameIndex) 1 p) ".")
      then (str_take dotIndex p, str_drop dotIndex p)
      else splitext_loop p dotIndex n' (filenameIndex + 1)
  end.

(** [os.path.splitext] (posixpath: [sep = "/"], no [altsep]). *)
Definition splitext (p : string) : string * string :=
  let sepIndex := rfind "/" p in
  let dotIndex := rfind "." p in
  if sepIndex <? dotIndex then
    let filenameIndex := sepIndex + 1 in
    splitext_loop p dotIndex (Z.to_nat (dotIndex - filenameIndex)) filenameIndex
  else (p, "").

(** [x in xs] for a list of strings. *)
Definition str_in (x : string) (xs : list string) : bool :=
  existsb (String.eqb x) xs.

(** [sep.join(xs)] *)
Definition join (sep : string) (xs : list string) : string :=
  String.concat sep xs.

(** [bytes.startswith] *)
Fixpoint startswith (s pre : list byte) {struct pre} : bool :=
  match pre, s with
  | [], _ => true
  | p :: pre', c :: s' => Byte.eqb c p && startswith s' pre'
  | _ :: _, [] => false
  end.

(** The newline and the double quote, for multi-line literals. *)
Definition nl : string := String (ascii_of_nat 10) EmptyString.
Definition dq : string := String (ascii_of_nat 34) EmptyString.

(** A byte [10xxxxxx] continues the UTF-8 form of a code point; every
    other byte starts one. *)
Definition is_continuation (c : ascii) : bool :=
  let n := nat_of_ascii c in ((128 <=? n) && (n <? 192))%nat.

Fixpoint code_points (s : string) : nat :=
  match s with
  | EmptyString => O
  | String c s' =>
      if is_continuation c then code_points s' else S (code_points s')
  end.

(** [len(s)]: the number of code points. *)
Definition str_len (s : string) : Z := Z.of_nat (code_points s).

(** [s[:n]]: the first [n] code points. *)
Fixpoint str_prefix (n : nat) (s : string) : string :=
  match s with
  | EmptyString => EmptyString
  | String c s' =>
      if is_continuation c then String c (str_prefix n s')
      else match n with
           | O => EmptyString
           | S n' => String c (str_prefix n' s')
           end
  end.

(** [c in s] for a character. *)
Fixpoint str_contains (c : ascii) (s : string) : bool :=
  match s with
  | EmptyString => false
  | String a s' => Ascii.eqb a c || str_contains c s'
  end.

Definition hex_digit (n : nat) : ascii :=
  nth n (list_ascii_of_string "0123456789abcdef") "0"%char.

(** What [repr] writes for one character of an ASCII text quoted with
    [quote]. *)
Definition repr_char (quote c : ascii) : string :=
  let n := nat_of_ascii c in
  if Ascii.eqb c quote || Ascii.eqb c "\"%char
  then String "\"%char (String c EmptyString)
  else if (n =? 9)%nat then "\t"
  else if (n =? 10)%nat then "\n"
  else if (n =? 13)%nat then "\r"
  else if ((n <? 32) || (n =? 127))%nat
  then String "\"%char
         (String "x"%char
            (String (hex_digit (n / 16)) (String (hex_digit (n mod 16))
               EmptyString)))
  else String c EmptyString.

(** [repr(s)] for a text of ASCII characters: single quotes, unless the
    text has a single quote and no double quote. *)
Definition repr_ascii (s : string) : string :=
  let double := ascii_of_nat 34 in
  let quote :=
    if str_contains "'"%char s && negb (str_contains double s)
    then double else "'"%char in
  String quote
    (String.concat EmptyString (repr_char quote <$> list_ascii_of_string s)
     +:+ String quote EmptyString).

(** [str.startswith] and [str.endswith] *)
Definition str_startswith (s pre : string) : bool := String.prefix pre s.
Definition str_endswith (s suf : string) : bool :=
  String.prefix (String.rev suf) (String.rev s).

(** [l[lo:hi]] for [0 <= lo <= hi]. *)
Definition slice {A} (lo hi : nat) (l : list A) : list A :=
  take (hi - lo) (drop lo l).

(** ** Numbers *)

(** [a / b] on two ints where the quotient is a binary64 number as it
    stands: the code divides lengths and limits (below [2^53]) by
    [1024 * 1024]. *)
Definition truediv (a b : Z) : Q := (inject_Z a / inject_Z b)%Q.

(** Nearest integer, ties to the even one. *)
Definition round_half_even (x : Q) : Z :=
  let f := Qfloor x in
  match Qcompare (x - inject_Z f) (1 # 2) with
  | Lt => f
  | Gt => f + 1
  | Eq => if Z.even f then f else f + 1
  end.

(** [round(x, 2)] *)
Definition round2 (x : Q) : Q :=
  Qmake (round_half_even (x * inject_Z 100)) 100.

(** [2 ** k] for an integer [k] of either sign. *)
Definition pow2 (k : Z) : Q :=
  if 0 <=? k then inject_Z (2 ^ k) else (1 / inject_Z (2 ^ (- k)))%Q.

(** The place of the last bit of the 53-bit significand of [x]: the [s]
    with [2^52 <= |x| * 2^s < 2^53], at most 1074 (subnormal numbers). *)
Definition binary64_scale (x : Q) : Z :=
  let a := Qabs x in
  let s := 52 - (Z.log2 (Qnum a) - Z.log2 (Z.pos (Qden a))) in
  let s := if Qle_bool (pow2 52) (a * pow2 s) then s else s + 1 in
  Z.min s 1074.

(** The binary64 number nearest to [x], ties to the even significand.  No
    number of the program is large enough to overflow. *)
Definition binary64 (x : Q) : Q :=
  if Qeq_bool x 0 then 0%Q
  else
    let s := binary64_scale x in
    (inject_Z (round_half_even (x * pow2 s)) / pow2 s)%Q.

(** [a / b] on two ints, [x - y] and [x * y] on two floats. *)
Definition float_truediv (a b : Z) : Q :=
  binary64 (inject_Z a / inject_Z b).
Definition float_sub (x y : Q) : Q := binary64 (x - y).
Definition float_mul (x y : Q) : Q := binary64 (x * y).

End Py.
Export Py.

(* ===================================================================== *)
(** * The world the handlers run in                                       *)
(* ===================================================================== *)

Module Runtime.

(** What Pillow's [Image.open] exposes of a decoded image. *)
Record PILImage : Type := mkPILImage {
  img_format : string;
  img_mode : string;
  img_width : Z;
  img_height : Z
}.

(** An entry of [ZipFile.filelist]. *)
Record ZipInfo : Type := mkZipInfo {
  zi_filename : string;
  file_size : Z;
  compress_size : Z
}.

(** An [xml.etree.ElementTree.Element]: tag, attributes in document
    order, child elements. *)
Inductive Element : Type :=
| mkElement (tag : string) (attrib : list (string * string))
    (children : list Element).

Definition tag_of (e : Element) : string :=
  match e with mkElement t _ _ => t end.
Definition attrib_of (e : Element) : list (string * string) :=
  match e with mkElement _ a _ => a end.
Definition children_of (e : Element) : list Element :=
  match e with mkElement _ _ c => c end.

(** An item of the content list given to [generate_content]. *)
Inductive Part : Type :=
| TextPart (s : string)
| ImagePart (image : PILImage).

(** A request sent to the generative-language service. *)
Inductive NetCall : Type :=
| GenerateContent (model_name : string) (temperature : Q) (parts : list Part)
| SendMessage (model_name : string) (history : list (string * string))
    (message : string)
| EmbedContent (model_name : string) (content : string) (task_type : string).

(** What the client library hands back for a generation request:
    [response.text] raises when the candidate was blocked;
    [usage_metadata] may be missing. *)
Record GenResponse : Type := mkGenResponse {
  response_text : result string;
  usage_metadata : option (Z * Z)
}.

(** An entry of the conversation buffer. *)
Record ChatMessage : Type := mkChatMessage {
  msg_role : string;
  msg_content : string;
  msg_timestamp : string
}.

Record World : Type := mkWorld {
  clock : nat;                      (* readings of the wall clock so far *)
  reads : list string;              (* uploads read so far, by filename *)
  net : list NetCall;               (* requests sent to the remote service *)
  chat_history : list ChatMessage;  (* [self.chat_history] of the gateway *)
  temperature_pro : Q;              (* generation config of [model_pro] *)
  temperature_flash : Q             (* generation config of [model_flash] *)
}.

Definition initial_world : World :=
  mkWorld 0 [] [] [] (7 # 10) (7 # 10).

(** An [UploadFile] as the handler receives it. *)
Record UploadFile : Type := mkUploadFile {
  filename : string;
  content_type : string;
  body : result (list byte)         (* what [await file.read()] gives *)
}.

Record JSONResponse : Type := mkJSONResponse {
  status_code_of : Z;
  content : pyval
}.

(** The third-party code the handlers call. *)
Class Library : Type := {
  (** [datetime.utcnow().isoformat()] at the n-th reading of the clock *)
  utcnow_isoformat : nat -> string;
  (** [str(e)] for a FastAPI [HTTPException] *)
  str_HTTPException : Z -> string -> string;
  (** [repr] of a float, as an f-string prints it *)
  repr_float : Q -> string;
  (** [PIL.Image.open(BytesIO(b))] *)
  Image_open : list byte -> result PILImage;
  (** [zipfile.ZipFile(BytesIO(b)).filelist] *)
  ZipFile_filelist : list byte -> result (list ZipInfo);
  (** [b.decode('utf-8')] *)
  decode_utf8 : list byte -> result string;
  (** [str.splitlines] *)
  splitlines : string -> list string;
  (** [list(csv.reader(lines))] *)
  csv_reader : list string -> result (list (list string));
  (** [json.loads] *)
  json_loads : string -> result pyval;
  (** [ET.fromstring] *)
  ET_fromstring : string -> result Element;
  (** [base64.b64decode] *)
  b64decode : list byte -> result (list byte);
  (** assigning [_generation_config.temperature] on a model object *)
  set_temperature_attr : result unit;
  (** the remote service answering a generation or chat request, given the
      requests sent before it *)
  remote_generate : list NetCall -> NetCall -> result GenResponse;
  (** the remote service answering an embedding request: the value under
      ['embedding'], or the exception of the call or of the subscript *)
  remote_embed : list NetCall -> NetCall -> result (list Q);
  (** [str(v)] of a value interpolated in an f-string *)
  py_format : pyval -> string;
  (** [str.strip], [str.replace] and [str.split] of the reply text *)
  str_strip : string -> string;
  str_replace : string -> string -> string -> string;
  str_split : string -> list string;
  (** [str.lower] on a text with a character outside ASCII *)
  unicode_lower : string -> string;
  (** [repr] of a text with a character outside ASCII *)
  unicode_repr : string -> string;
  (** how many nested calls of a Python function the interpreter still
      allows where a handler runs: the recursion limit less the frames
      under the handler *)
  recursion_room : nat;
  (** [str(e)] of the [RecursionError] raised beyond that *)
  RecursionError_message : string;
  (** [str(e)] of the [UnicodeEncodeError] raised for a content with a lone
      surrogate *)
  UnicodeEncodeError_message : pyval -> string
}.

(** ** The handler monad: state and exceptions *)

Definition M (A : Type) : Type := World -> result A * World.

#[global] Instance M_ret : MRet M := fun A x w => (inr x, w).
#[global] Instance M_bind : MBind M := fun A B f m w =>
  match m w with
  | (inl e, w') => (inl e, w')
  | (inr a, w') => f a w'
  end.

#[global] Instance M_fmap : FMap M := fun A B f m w =>
  match m w with
  | (inl e, w') => (inl e, w')
  | (inr a, w') => (inr (f a), w')
  end.

Definition raise {A} (e : exn) : M A := fun w => (inl e, w).

(** A change of the world that cannot fail. *)
Definition modify (f : World -> World) : M unit := fun w => (inr tt, f w).

(** A library call that returns or raises without touching the world. *)
Definition lift {A} (r : result A) : M A := fun w => (r, w).

(** [try: body  except Exception as e: handler e] *)
Definition try_except {A} (body : M A) (handler : exn -> M A) : M A :=
  fun w =>
    match body w with
    | (inl e, w') => handler e w'
    | (inr a, w') => (inr a, w')
    end.

(** [if c: m] *)
Definition when (c : bool) (m : M unit) : M unit :=
  if c then m else mret tt.

(** [for x in xs: acc = step acc x] *)
Fixpoint for_each {A B} (step : B -> A -> M B) (acc : B) (xs : list A) : M B :=
  match xs with
  | [] => mret acc
  | x :: xs' => acc' ← step acc x; for_each step acc' xs'
  end.

Section WithLibrary.
Context `{L : Library}.

(** [str.lower] *)
Definition lower (s : string) : string :=
  if is_ascii s then ascii_lower s else unicode_lower s.

(** [repr(s)] *)
Definition repr_str (s : string) : string :=
  if is_ascii s then repr_ascii s else unicode_repr s.

(** [d[k]] on a [gmap] and on an ordered dictionary; [str(KeyError(k))] is
    the [repr] of the key. *)
Definition key_error {A} (k : string) : M A :=
  raise (PyExn KeyError (repr_str k)).

Definition getitem {V} (d : gmap string V) (k : string) : M V :=
  match d !! k with
  | Some v => mret v
  | None => key_error k
  end.

Definition getitem_ordered {V} (d : list (string * V)) (k : string) : M V :=
  match dict_get k d with
  | Some v => mret v
  | None => key_error k
  end.

(** [JSONResponse(content=...)]: Starlette renders the body when the
    response is built, [json.dumps(content, ensure_ascii=False, ...)
    .encode("utf-8")], which raises on a lone surrogate. *)
Definition JSONResponse_init (content : pyval) : result JSONResponse :=
  if utf8_encodable content then inr (mkJSONResponse 200 content)
  else inl (PyExn UnicodeEncodeError (UnicodeEncodeError_message content)).

(** [str(e)] *)
Definition str (e : exn) : string :=
  match e with
  | HTTPException s d => str_HTTPException s d
  | PyExn _ msg => msg
  end.

(** [datetime.utcnow().isoformat()] *)
Definition utcnow : M string := fun w =>
  (inr (utcnow_isoformat (clock w)),
   mkWorld (S (clock w)) (reads w) (net w) (chat_history w)
     (temperature_pro w) (temperature_flash w)).

(** [await file.read()] *)
Definition read (file : UploadFile) : M (list byte) := fun w =>
  (body file,
   mkWorld (clock w) (reads w ++ [filename file]) (net w) (chat_history w)
     (temperature_pro w) (temperature_flash w)).

End WithLibrary.

(** The status the framework answers with: a returned response keeps its
    own, a raised [HTTPException] gives its [status_code], any other
    exception is a 500. *)
Definition http_status (r : result JSONResponse) : Z :=
  match r with
  | inr resp => status_code_of resp
  | inl (HTTPException s _) => s
  | inl (PyExn _ _) => 500
  end.

End Runtime.
Export Runtime.

(* ===================================================================== *)
(** * app/routes/router.py                                                *)
(* ===================================================================== *)

Module Router.

Definition HTTP_400_BAD_REQUEST : Z := 400.
Definition HTTP_413_REQUEST_ENTITY_TOO_LARGE : Z := 413.
Definition HTTP_500_INTERNAL_SERVER_ERROR : Z := 500.

Definition MAX_FILE_SIZE : gmap string Z :=
  list_to_map
    [ ("image", 10 * 1024 * 1024);
      ("video", 100 * 1024 * 1024);
      ("zip", 50 * 1024 * 1024);
      ("pdf", 20 * 1024 * 1024);
      ("excel", 15 * 1024 * 1024);
      ("csv", 10 * 1024 * 1024);
      ("word", 15 * 1024 * 1024);
      ("audio", 30 * 1024 * 1024);
      ("json", 5 * 1024 * 1024);
      ("xml", 5 * 1024 * 1024) ].

Definition ALLOWED_EXTENSIONS : list (string * list string) :=
  [ ("image", [".jpg"; ".jpeg"; ".png"; ".gif"]);
    ("video", [".mp4"; ".avi"; ".mov"; ".mkv"]);
    ("zip", [".zip"]);
    ("pdf", [".pdf"]);
    ("excel", [".xlsx"; ".xls"]);
    ("csv", [".csv"]);
    ("word", [".docx"; ".doc"]);
    ("audio", [".mp3"; ".wav"; ".ogg"]);
    ("json", [".json"]);
    ("xml", [".xml"]) ].

Definition validate_file_size (file_content : list byte) (file_type : string)
  : bool :=
  len file_content <=? default (5 * 1024 * 1024) (MAX_FILE_SIZE !! file_type).

Section Handlers.
Context `{L : Library}.

Definition validate_file_extension (filename : string) (file_type : string)
  : bool :=
  let ext := lower (splitext filename).2 in
  str_in ext (default [] (dict_get file_type ALLOWED_EXTENSIONS)).

(** [round(len(contents) / (1024 * 1024), 2)] *)
Definition size_mb (contents : list byte) : Q :=
  round2 (truediv (len contents) (1024 * 1024)).

(** The ratio reported for a ZIP entry:
    [round((1 - compress_size / file_size) * 100, 2) if file_size > 0 else 0],
    each operation rounding to binary64.  The sign of a zero is not kept. *)
Definition compression_ratio (info : ZipInfo) : pyval :=
  if 0 <? file_size info
  then PyFloat
         (round2
            (float_mul
               (float_sub 1
                  (float_truediv (compress_size info) (file_size info)))
               (inject_Z 100)))
  else PyInt 0.

(** The dictionary appended to [file_list] for one ZIP entry. *)
Definition zip_entry (info : ZipInfo) : pyval :=
  PyDict [ ("filename", PyStr (zi_filename info));
           ("size_bytes", PyInt (file_size info));
           ("compressed_size", PyInt (compress_size info));
           ("compression_ratio", compression_ratio info) ].

(** [count_elements], local to [upload_xml]: [count] starts at 1 and every
    child adds its own count.  Each level of nesting is one more call on
    the interpreter's stack; [room] is the number of calls still allowed,
    and the call that has none raises [RecursionError]. *)
Fixpoint count_elements (room : nat) (element : Element) : result Z :=
  match room with
  | O => inl (PyExn RecursionError RecursionError_message)
  | S room' =>
      match element with
      | mkElement _ _ children =>
          fold_left
            (fun count child =>
               match count with
               | inl e => inl e
               | inr n =>
                   match count_elements room' child with
                   | inl e => inl e
                   | inr c => inr (n + c)
                   end
               end)
            children (inr 1)
      end
  end.

Definition generate_response (success : bool) (message : string)
    (data : option pyval) : M JSONResponse :=
  timestamp ← utcnow;
  let response :=
    [ ("success", PyBool success);
      ("message", PyStr message);
      ("timestamp", PyStr timestamp) ] in
  let response :=
    match data with
    | Some d => if truthy d then dict_set "data" d response else response
    | None => response
    end in
  lift (JSONResponse_init (PyDict response)).

(** The two gates every single-file endpoint opens with, as the source
    writes them out in each handler. *)
Definition too_large_detail (file_type : string) : M string :=
  limit ← getitem MAX_FILE_SIZE file_type;
  mret ("Archivo demasiado grande. Máximo: "
        +:+ repr_float (truediv limit (1024 * 1024)) +:+ "MB").

Definition formats_detail (file_type : string) : M string :=
  exts ← getitem_ordered ALLOWED_EXTENSIONS file_type;
  mret ("Formato no permitido. Use: " +:+ join ", " exts).

Definition upload_image (file : UploadFile) : M JSONResponse :=
  try_except
    (when (negb (validate_file_extension (filename file) "image"))
       (detail ← formats_detail "image";
        raise (HTTPException HTTP_400_BAD_REQUEST detail));;
     contents ← read file;
     when (negb (validate_file_size contents "image"))
       (detail ← too_large_detail "image";
        raise (HTTPException HTTP_413_REQUEST_ENTITY_TOO_LARGE detail));;
     image ← lift (Image_open contents);
     let image_info := PyDict
       [ ("filename", PyStr (filename file));
         ("format", PyStr (img_format image));
         ("mode", PyStr (img_mode image));
         ("width", PyInt (img_width image));
         ("height", PyInt (img_height image));
         ("size_bytes", PyInt (len contents));
         ("size_mb", PyFloat (size_mb contents)) ] in
     generate_response true "Imagen procesada exitosamente" (Some image_info))
    (fun e =>
       raise (HTTPException HTTP_500_INTERNAL_SERVER_ERROR
                ("Error al procesar imagen: " +:+ str e))).

Definition upload_video (file : UploadFile) : M JSONResponse :=
  try_except
    (when (negb (validate_file_extension (filename file) "video"))
       (detail ← formats_detail "video";
        raise (HTTPException HTTP_400_BAD_REQUEST detail));;
     contents ← read file;
     when (negb (validate_file_size contents "video"))
       (detail ← too_large_detail "video";
        raise (HTTPException HTTP_413_REQUEST_ENTITY_TOO_LARGE detail));;
     let video_info := PyDict
       [ ("filename", PyStr (filename file));
         ("content_type", PyStr (content_type file));
         ("size_bytes", PyInt (len contents));
         ("size_mb", PyFloat (size_mb contents)) ] in
     generate_response true "Video cargado exitosamente" (Some video_info))
    (fun e =>
       raise (HTTPException HTTP_500_INTERNAL_SERVER_ERROR
                ("Error al procesar video: " +:+ str e))).

Definition upload_zip (file : UploadFile) : M JSONResponse :=
  try_except
    (when (negb (validate_file_extension (filename file) "zip"))
       (raise (HTTPException HTTP_400_BAD_REQUEST
                 "Solo se permiten archivos .zip"));;
     contents ← read file;
     when (negb (validate_file_size contents "zip"))
       (detail ← too_large_detail "zip";
        raise (HTTPException HTTP_413_REQUEST_ENTITY_TOO_LARGE detail));;
     filelist ← lift (ZipFile_filelist contents);
     let file_list := zip_entry <$> filelist in
     let zip_info := PyDict
       [ ("filename", PyStr (filename file));
         ("total_files", PyInt (len file_list));
         ("size_mb", PyFloat (size_mb contents));
         ("files", PyList file_list) ] in
     generate_response true "Archivo ZIP procesado exitosamente"
       (Some zip_info))
    (fun e =>
       if is_class BadZipFile e then
         raise (HTTPException HTTP_400_BAD_REQUEST
                  "Archivo ZIP corrupto o inválido")
       else
         raise (HTTPException HTTP_500_INTERNAL_SERVER_ERROR
                  ("Error al procesar ZIP: " +:+ str e))).

Definition PDF_SIGNATURE : list byte := [x25; x50; x44; x46].

Definition upload_pdf (file : UploadFile) : M JSONResponse :=
  try_except
    (when (negb (validate_file_extension (filename file) "pdf"))
       (raise (HTTPException HTTP_400_BAD_REQUEST
                 "Solo se permiten archivos .pdf"));;
     contents ← read file;
     when (negb (validate_file_size contents "pdf"))
       (detail ← too_large_detail "pdf";
        raise (HTTPException HTTP_413_REQUEST_ENTITY_TOO_LARGE detail));;
     when (negb (startswith contents PDF_SIGNATURE))
       (raise (HTTPException HTTP_400_BAD_REQUEST
                 "El archivo no es un PDF válido"));;
     let pdf_info := PyDict
       [ ("filename", PyStr (filename file));
         ("size_bytes", PyInt (len contents));
         ("size_mb", PyFloat (size_mb contents));
         ("is_valid", PyBool true) ] in
     generate_response true "PDF cargado exitosamente" (Some pdf_info))
    (fun e =>
       raise (HTTPException HTTP_500_INTERNAL_SERVER_ERROR
                ("Error al procesar PDF: " +:+ str e))).

Definition upload_excel (file : UploadFile) : M JSONResponse :=
  try_except
    (when (negb (validate_file_extension (filename file) "excel"))
       (detail ← formats_detail "excel";
        raise (HTTPException HTTP_400_BAD_REQUEST detail));;
     contents ← read file;
     when (negb (validate_file_size contents "excel"))
       (detail ← too_large_detail "excel";
        raise (HTTPException HTTP_413_REQUEST_ENTITY_TOO_LARGE detail));;
     let excel_info := PyDict
       [ ("filename", PyStr (filename file));
         ("size_bytes", PyInt (len contents));
         ("size_mb", PyFloat (size_mb contents));
         ("extension", PyStr (splitext (filename file)).2) ] in
     generate_response true "Archivo Excel cargado exitosamente"
       (Some excel_info))
    (fun e =>
       raise (HTTPException HTTP_500_INTERNAL_SERVER_ERROR
                ("Error al procesar Excel: " +:+ str e))).

Definition upload_csv (file : UploadFile) : M JSONResponse :=
  try_except
    (when (negb (validate_file_extension (filename file) "csv"))
       (raise (HTTPException HTTP_400_BAD_REQUEST
                 "Solo se permiten archivos .csv"));;
     contents ← read file;
     when (negb (validate_file_size contents "csv"))
       (detail ← too_large_detail "csv";
        raise (HTTPException HTTP_413_REQUEST_ENTITY_TOO_LARGE detail));;
     text_content ← lift (decode_utf8 contents);
     rows ← lift (csv_reader (splitlines text_content));
     let headers := match rows with [] => [] | row :: _ => row end in
     let as_row (row : list string) := PyList (PyStr <$> row) in
     let csv_info := PyDict
       [ ("filename", PyStr (filename file));
         ("size_bytes", PyInt (len contents));
         ("size_mb", PyFloat (size_mb contents));
         ("total_rows", PyInt (len rows));
         ("total_columns", PyInt (len headers));
         ("columns", as_row headers);
         ("preview_rows",
           PyList (as_row <$> (if 1 <? len rows then slice 1 6 rows else []))) ] in
     generate_response true "CSV procesado exitosamente" (Some csv_info))
    (fun e =>
       if is_class UnicodeDecodeError e then
         raise (HTTPException HTTP_400_BAD_REQUEST
                  "El archivo CSV tiene una codificación no válida. Use UTF-8")
       else
         raise (HTTPException HTTP_500_INTERNAL_SERVER_ERROR
                  ("Error al procesar CSV: " +:+ str e))).

Definition upload_word (file : UploadFile) : M JSONResponse :=
  try_except
    (when (negb (validate_file_extension (filename file) "word"))
       (detail ← formats_detail "word";
        raise (HTTPException HTTP_400_BAD_REQUEST detail));;
     contents ← read file;
     when (negb (validate_file_size contents "word"))
       (detail ← too_large_detail "word";
        raise (HTTPException HTTP_413_REQUEST_ENTITY_TOO_LARGE detail));;
     let word_info := PyDict
       [ ("filename", PyStr (filename file));
         ("size_bytes", PyInt (len contents));
         ("size_mb", PyFloat (size_mb contents));
         ("extension", PyStr (splitext (filename file)).2) ] in
     generate_response true "Documento Word cargado exitosamente"
       (Some word_info))
    (fun e =>
       raise (HTTPException HTTP_500_INTERNAL_SERVER_ERROR
                ("Error al procesar documento Word: " +:+ str e))).

Definition upload_audio (file : UploadFile) : M JSONResponse :=
  try_except
    (when (negb (validate_file_extension (filename file) "audio"))
       (detail ← formats_detail "audio";
        raise (HTTPException HTTP_400_BAD_REQUEST detail));;
     contents ← read file;
     when (negb (validate_file_size contents "audio"))
       (detail ← too_large_detail "audio";
        raise (HTTPException HTTP_413_REQUEST_ENTITY_TOO_LARGE detail));;
     let audio_info := PyDict
       [ ("filename", PyStr (filename file));
         ("content_type", PyStr (content_type file));
         ("size_bytes", PyInt (len contents));
         ("size_mb", PyFloat (size_mb contents));
         ("extension", PyStr (splitext (filename file)).2) ] in
     generate_response true "Archivo de audio cargado exitosamente"
       (Some audio_info))
    (fun e =>
       raise (HTTPException HTTP_500_INTERNAL_SERVER_ERROR
                ("Error al procesar audio: " +:+ str e))).

(** The type-specific part of [json_info]: [list(json_data.keys())] and
    its length for a [dict], the length for a [list]. *)
Definition json_structure (json_data : pyval) : list (string * pyval) :=
  match json_data with
  | PyDict d =>
      [ ("keys", PyList (PyStr <$> dict_keys d));
        ("key_count", PyInt (len (dict_keys d))) ]
  | PyDictSurrogate d =>
      [ ("keys", PyList d.*1);
        ("key_count", PyInt (len d.*1)) ]
  | PyList l => [ ("array_length", PyInt (len l)) ]
  | _ => []
  end.

Definition upload_json (file : UploadFile) : M JSONResponse :=
  try_except
    (when (negb (validate_file_extension (filename file) "json"))
       (raise (HTTPException HTTP_400_BAD_REQUEST
                 "Solo se permiten archivos .json"));;
     contents ← read file;
     when (negb (validate_file_size contents "json"))
       (detail ← too_large_detail "json";
        raise (HTTPException HTTP_413_REQUEST_ENTITY_TOO_LARGE detail));;
     json_data ←
       try_except
         (text ← lift (decode_utf8 contents); lift (json_loads text))
         (fun e =>
            if is_class JSONDecodeError e then
              raise (HTTPException HTTP_400_BAD_REQUEST
                       ("JSON inválido: " +:+ str e))
            else raise e);
     let data_type := type_name json_data in
     let json_info :=
       [ ("filename", PyStr (filename file));
         ("size_bytes", PyInt (len contents));
         ("size_mb", PyFloat (size_mb contents));
         ("data_type", PyStr data_type);
         ("is_valid", PyBool true) ] in
     let json_info :=
       fold_left (fun d kv => dict_set kv.1 kv.2 d)
         (json_structure json_data) json_info in
     generate_response true "JSON procesado exitosamente"
       (Some (PyDict json_info)))
    (fun e =>
       if is_class UnicodeDecodeError e then
         raise (HTTPException HTTP_400_BAD_REQUEST
                  "El archivo JSON tiene una codificación no válida. Use UTF-8")
       else
         raise (HTTPException HTTP_500_INTERNAL_SERVER_ERROR
                  ("Error al procesar JSON: " +:+ str e))).

Definition upload_xml (file : UploadFile) : M JSONResponse :=
  try_except
    (when (negb (validate_file_extension (filename file) "xml"))
       (raise (HTTPException HTTP_400_BAD_REQUEST
                 "Solo se permiten archivos .xml"));;
     contents ← read file;
     when (negb (validate_file_size contents "xml"))
       (detail ← too_large_detail "xml";
        raise (HTTPException HTTP_413_REQUEST_ENTITY_TOO_LARGE detail));;
     root ←
       try_except
         (text ← lift (decode_utf8 contents); lift (ET_fromstring text))
         (fun e =>
            if is_class ParseError e then
              raise (HTTPException HTTP_400_BAD_REQUEST
                       ("XML inválido: " +:+ str e))
            else raise e);
     total_elements ← lift (count_elements recursion_room root);
     let xml_info := PyDict
       [ ("filename", PyStr (filename file));
         ("size_bytes", PyInt (len contents));
         ("size_mb", PyFloat (size_mb contents));
         ("root_tag", PyStr (tag_of root));
         ("total_elements", PyInt total_elements);
         ("root_attributes",
           PyDict (prod_map id PyStr <$> attrib_of root));
         ("is_valid", PyBool true) ] in
     generate_response true "XML procesado exitosamente" (Some xml_info))
    (fun e =>
       if is_class UnicodeDecodeError e then
         raise (HTTPException HTTP_400_BAD_REQUEST
                  "El archivo XML tiene una codificación no válida. Use UTF-8")
       else
         raise (HTTPException HTTP_500_INTERNAL_SERVER_ERROR
                  ("Error al procesar XML: " +:+ str e))).

Definition get_upload_info : M JSONResponse :=
  supported ←
    for_each
      (fun acc item =>
         limit ← getitem MAX_FILE_SIZE item.1;
         mret (dict_set item.1
                 (PyDict [ ("extensions", PyList (PyStr <$> item.2));
                           ("max_size_mb",
                             PyFloat (truediv limit (1024 * 1024))) ])
                 acc))
      [] ALLOWED_EXTENSIONS;
  generate_response true "Información de tipos de archivos soportados"
    (Some (PyDict [ ("supported_types", PyDict supported) ])).

(** The [for ftype, extensions in ALLOWED_EXTENSIONS.items()] search of the
    batch endpoint: the first category listing [ext], or [None]. *)
Fixpoint find_file_type (ext : string) (table : list (string * list string))
  : option string :=
  match table with
  | [] => None
  | (ftype, extensions) :: table' =>
      if str_in ext extensions then Some ftype else find_file_type ext table'
  end.

(** [not file_type] *)
Definition not_file_type (file_type : option string) : bool :=
  match file_type with
  | None => true
  | Some s => String.eqb s ""
  end.

Definition item_failed (name error : string) : pyval :=
  PyDict [ ("filename", PyStr name);
           ("success", PyBool false);
           ("error", PyStr error) ].

Definition item_ok (name file_type : string) (contents : list byte) : pyval :=
  PyDict [ ("filename", PyStr name);
           ("success", PyBool true);
           ("file_type", PyStr file_type);
           ("size_mb", PyFloat (size_mb contents)) ].

(** One iteration of the batch loop: [results] with one more entry. *)
Definition process_file (results : list pyval) (file : UploadFile)
  : M (list pyval) :=
  try_except
    (let ext := lower (splitext (filename file)).2 in
     contents ← read file;
     let file_type := find_file_type ext ALLOWED_EXTENSIONS in
     if not_file_type file_type then
       mret (results ++ [item_failed (filename file)
                           "Tipo de archivo no soportado"])
     else
       let file_type := default "" file_type in
       if negb (validate_file_size contents file_type) then
         detail ← too_large_detail file_type;
         mret (results ++ [item_failed (filename file) detail])
       else
         mret (results ++ [item_ok (filename file) file_type contents]))
    (fun e => mret (results ++ [item_failed (filename file) (str e)])).

Definition upload_multiple_files (files : list UploadFile) : M JSONResponse :=
  when (10 <? len files)
    (raise (HTTPException HTTP_400_BAD_REQUEST
              "Máximo 10 archivos por solicitud"));;
  results ← for_each process_file [] files;
  generate_response true
    ("Procesados " +:+ pretty (len results) +:+ " archivos")
    (Some (PyDict [ ("results", PyList results) ])).

End Handlers.

End Router.

(* ===================================================================== *)
(** * app/routes/gemini_api.py                                            *)
(* ===================================================================== *)

Module Gemini.

(** [GEMINI_MODELS], in the order it is written. *)
Definition GEMINI_MODELS : list (string * string) :=
  [ ("pro", "gemini-1.5-pro-latest");
    ("flash", "gemini-1.5-flash-latest");
    ("vision", "gemini-1.5-pro-latest") ].

(** The gateway object.  Its mutable fields ([chat_history] and the
    generation configuration of its two models) live in the [World]. *)
Record GeminiAPI : Type := mkGeminiAPI { api_key : string }.

(** [self.model_pro] and [self.model_flash]. *)
Inductive ModelRef : Type := model_pro | model_flash.

Definition model_name (m : ModelRef) : string :=
  match m with
  | model_pro => "gemini-1.5-pro-latest"
  | model_flash => "gemini-1.5-flash-latest"
  end.

(** [self.model_pro if model == "pro" else self.model_flash] *)
Definition select_model (model : string) : ModelRef :=
  if String.eqb model "pro" then model_pro else model_flash.

Definition message_dict (m : ChatMessage) : pyval :=
  PyDict [ ("role", PyStr (msg_role m));
           ("content", PyStr (msg_content m));
           ("timestamp", PyStr (msg_timestamp m)) ].

Section Methods.
Context `{L : Library}.

(** ** Operations on the world *)

Definition get_history : M (list ChatMessage) := fun w =>
  (inr (chat_history w), w).

Definition set_history (h : list ChatMessage) : M unit :=
  modify (fun w =>
    mkWorld (clock w) (reads w) (net w) h (temperature_pro w)
      (temperature_flash w)).

Definition temperature_of (m : ModelRef) (w : World) : Q :=
  match m with
  | model_pro => temperature_pro w
  | model_flash => temperature_flash w
  end.

(** [selected_model._generation_config.temperature = temperature] *)
Definition set_temperature (m : ModelRef) (temperature : Q) : M unit :=
  lift set_temperature_attr;;
  modify (fun w =>
    match m with
    | model_pro =>
        mkWorld (clock w) (reads w) (net w) (chat_history w) temperature
          (temperature_flash w)
    | model_flash =>
        mkWorld (clock w) (reads w) (net w) (chat_history w)
          (temperature_pro w) temperature
    end).

(** A request to the remote service: it is recorded in [net], and the
    service answers or the client library raises. *)
Definition send {A} (answer : list NetCall → NetCall → result A)
    (call : NetCall) : M A := fun w =>
  (answer (net w) call,
   mkWorld (clock w) (reads w) (net w ++ [call]) (chat_history w)
     (temperature_pro w) (temperature_flash w)).

(** [m.generate_content(parts)] on one of the two models of the object *)
Definition generate_content (m : ModelRef) (parts : list Part)
  : M GenResponse := fun w =>
  send remote_generate (GenerateContent (model_name m) (temperature_of m w) parts) w.

(** ** The failure envelope *)

(** [except Exception as e: return {"success": False, ...}] *)
Definition failure (e : exn) : M pyval :=
  timestamp ← utcnow;
  mret (PyDict [ ("success", PyBool false);
                 ("error", PyStr (str e));
                 ("timestamp", PyStr timestamp) ]).

(** [try: body  except Exception as e: return {...}] *)
Definition guarded (body : M pyval) : M pyval := try_except body failure.

Definition tokens (response : GenResponse) (pick : Z * Z → Z) : pyval :=
  match usage_metadata response with
  | Some counts => PyInt (pick counts)
  | None => PyNone
  end.

(** ** The constructor *)

(** [GeminiAPI(api_key)]; [environ] is [os.getenv("GOOGLE_API_KEY")]. *)
Definition init (api_key environ : option string) : M GeminiAPI :=
  let key :=
    match api_key with
    | Some k => if String.eqb k "" then environ else Some k
    | None => environ
    end in
  match key with
  | Some k =>
      if String.eqb k "" then
        raise (PyExn ValueError
                 ("API key no proporcionada. Usa el parámetro api_key o "
                  +:+ "establece la variable de entorno GOOGLE_API_KEY"))
      else
        (* two fresh models with the default configuration, no history *)
        modify (fun w =>
          mkWorld (clock w) (reads w) (net w) [] (7 # 10) (7 # 10));;
        mret (mkGeminiAPI k)
  | None =>
      raise (PyExn ValueError
               ("API key no proporcionada. Usa el parámetro api_key o "
                +:+ "establece la variable de entorno GOOGLE_API_KEY"))
  end.

(** ** 1. Text *)

(** The [try] block of [analyze_text]. *)
Definition analyze_text_try (self : GeminiAPI) (text model : string)
    (temperature : Q)
  : M pyval :=
  let selected_model := select_model model in
  when (negb (Qeq_bool temperature (7 # 10)))
    (set_temperature selected_model temperature);;
  response ← generate_content selected_model [TextPart text];
  response_text ← lift (response_text response);
  model_used ← getitem_ordered GEMINI_MODELS model;
  timestamp ← utcnow;
  mret (PyDict
    [ ("success", PyBool true);
      ("response", PyStr response_text);
      ("model_used", PyStr model_used);
      ("prompt_tokens", tokens response fst);
      ("completion_tokens", tokens response snd);
      ("timestamp", PyStr timestamp) ]).

Definition analyze_text (self : GeminiAPI) (text model : string)
    (temperature : Q)
  : M pyval :=
  guarded (analyze_text_try self text model temperature).

(** ** 2. Chat *)

Definition append_message (role content : string) : M unit :=
  timestamp ← utcnow;
  history ← get_history;
  set_history (history ++ [mkChatMessage role content timestamp]).

(** The [try] block of [chat]. *)
Definition chat_try (self : GeminiAPI) (message model : string)
    (clear_history : bool)
  : M pyval :=
  when clear_history (set_history []);;
  let selected_model := select_model model in
  history ← get_history;
  response ←
    send remote_generate
      (SendMessage (model_name selected_model)
         ((λ msg, (msg_role msg, msg_content msg)) <$> history) message);
  append_message "user" message;;
  reply ← lift (response_text response);
  append_message "model" reply;;
  response_text ← lift (response_text response);
  history ← get_history;
  model_used ← getitem_ordered GEMINI_MODELS model;
  timestamp ← utcnow;
  mret (PyDict
    [ ("success", PyBool true);
      ("response", PyStr response_text);
      ("history_length", PyInt (len history));
      ("model_used", PyStr model_used);
      ("timestamp", PyStr timestamp) ]).

Definition chat (self : GeminiAPI) (message model : string)
    (clear_history : bool)
  : M pyval :=
  guarded (chat_try self message model clear_history).

Definition get_chat_history (self : GeminiAPI) : M (list pyval) :=
  history ← get_history;
  mret (message_dict <$> history).

Definition clear_chat_history (self : GeminiAPI) : M pyval :=
  history ← get_history;
  let messages_cleared := len history in
  set_history [];;
  timestamp ← utcnow;
  mret (PyDict
    [ ("success", PyBool true);
      ("messages_cleared", PyInt messages_cleared);
      ("timestamp", PyStr timestamp) ]).

(** ** 3. Images *)

Definition image_size (image : PILImage) : string :=
  pretty (img_width image) +:+ "x" +:+ pretty (img_height image).

(** The [try] block of [analyze_image]. *)
Definition analyze_image_try (self : GeminiAPI) (image_data : list byte)
    (prompt image_format : string)
  : M pyval :=
  image_bytes ←
    (if String.eqb image_format "base64" then lift (b64decode image_data)
     else mret image_data);
  image ← lift (Image_open image_bytes);
  response ← generate_content model_pro [TextPart prompt; ImagePart image];
  analysis ← lift (response_text response);
  timestamp ← utcnow;
  mret (PyDict
    [ ("success", PyBool true);
      ("analysis", PyStr analysis);
      ("image_size", PyStr (image_size image));
      ("image_format", PyStr (img_format image));
      ("prompt_used", PyStr prompt);
      ("timestamp", PyStr timestamp) ]).

Definition analyze_image (self : GeminiAPI) (image_data : list byte)
    (prompt image_format : string)
  : M pyval :=
  guarded (analyze_image_try self image_data prompt image_format).

(** The [try] block of [compare_images]. *)
Definition compare_images_try (self : GeminiAPI)
    (image1_data image2_data : list byte) (comparison_prompt : string)
  : M pyval :=
  image1 ← lift (Image_open image1_data);
  image2 ← lift (Image_open image2_data);
  response ←
    generate_content model_pro
      [TextPart comparison_prompt; ImagePart image1; ImagePart image2];
  comparison ← lift (response_text response);
  timestamp ← utcnow;
  mret (PyDict
    [ ("success", PyBool true);
      ("comparison", PyStr comparison);
      ("image1_size", PyStr (image_size image1));
      ("image2_size", PyStr (image_size image2));
      ("timestamp", PyStr timestamp) ]).

Definition compare_images (self : GeminiAPI)
    (image1_data image2_data : list byte) (comparison_prompt : string)
  : M pyval :=
  guarded (compare_images_try self image1_data image2_data comparison_prompt).

(** ** 4. Documents *)

Definition document_prompts (document_text : string) : list (string * string) :=
  [ ("summary",
      "Resume el siguiente documento de forma concisa:" +:+ nl +:+ nl
      +:+ document_text);
    ("key_points",
      "Extrae los puntos clave del siguiente documento:" +:+ nl +:+ nl
      +:+ document_text);
    ("sentiment",
      "Analiza el sentimiento y tono del siguiente documento:" +:+ nl +:+ nl
      +:+ document_text);
    ("entities",
      "Identifica las entidades principales (personas, lugares, organizaciones) en el siguiente documento:"
      +:+ nl +:+ nl +:+ document_text) ].

(** The [try] block of [analyze_document]. *)
Definition analyze_document_try (self : GeminiAPI)
    (document_text analysis_type : string)
  : M pyval :=
  let prompts := document_prompts document_text in
  summary ← getitem_ordered prompts "summary";
  let prompt := default summary (dict_get analysis_type prompts) in
  response ← generate_content model_pro [TextPart prompt];
  result ← lift (response_text response);
  timestamp ← utcnow;
  mret (PyDict
    [ ("success", PyBool true);
      ("analysis_type", PyStr analysis_type);
      ("result", PyStr result);
      ("document_length", PyInt (str_len document_text));
      ("timestamp", PyStr timestamp) ]).

Definition analyze_document (self : GeminiAPI)
    (document_text analysis_type : string)
  : M pyval :=
  guarded (analyze_document_try self document_text analysis_type).

(** ** 5. Structured extraction *)

(** [schema.items()]: only a dictionary has them.  The items of one with
    a lone surrogate in a key go into a prompt that the client library
    cannot encode: it raises before anything is sent. *)
Definition items (schema : pyval) : M (list (string * pyval)) :=
  match schema with
  | PyDict d => mret d
  | PyDictSurrogate _ =>
      raise (PyExn UnicodeEncodeError (UnicodeEncodeError_message schema))
  | _ =>
      raise (PyExn (OtherException "AttributeError")
               ("'" +:+ type_name schema
                +:+ "' object has no attribute 'items'"))
  end.

Definition extraction_prompt (schema_description text : string) : string :=
  nl +:+ "Extrae la siguiente información del texto y devuélvela en formato JSON:"
  +:+ nl +:+ nl +:+ schema_description +:+ nl +:+ nl
  +:+ "Texto:" +:+ nl +:+ text +:+ nl +:+ nl
  +:+ "Responde SOLO con el JSON, sin texto adicional." +:+ nl.

(** The [try] block of [extract_structured_data]. *)
Definition extract_structured_data_try (self : GeminiAPI) (text : string)
    (schema : pyval)
  : M pyval :=
  fields ← items schema;
  let schema_description :=
    join nl ((λ kv, "- " +:+ kv.1 +:+ ": " +:+ py_format kv.2) <$> fields) in
  let prompt := extraction_prompt schema_description text in
  response ← generate_content model_pro [TextPart prompt];
  extracted_data ←
    try_except
      (reply ← lift (response_text response);
       lift (json_loads
               (str_replace "```" ""
                  (str_replace "```json" "" (str_strip reply)))))
      (fun e =>
         if is_class JSONDecodeError e then
           reply ← lift (response_text response);
           mret (PyDict [ ("raw_response", PyStr reply) ])
         else raise e);
  timestamp ← utcnow;
  mret (PyDict
    [ ("success", PyBool true);
      ("extracted_data", extracted_data);
      ("schema_used", schema);
      ("timestamp", PyStr timestamp) ]).

Definition extract_structured_data (self : GeminiAPI) (text : string)
    (schema : pyval)
  : M pyval :=
  guarded (extract_structured_data_try self text schema).

(** ** 6. Sentiment *)

Definition sentiment_prompt (text : string) (detailed : bool) : string :=
  if detailed then
    nl +:+ "Analiza el sentimiento del siguiente texto y proporciona:" +:+ nl
    +:+ "1. Sentimiento general (positivo/negativo/neutral)" +:+ nl
    +:+ "2. Score de confianza (0-100)" +:+ nl
    +:+ "3. Emociones detectadas" +:+ nl
    +:+ "4. Aspectos específicos y su sentimiento" +:+ nl +:+ nl
    +:+ "Texto: " +:+ text +:+ nl +:+ nl
    +:+ "Responde en formato JSON." +:+ nl
  else
    nl +:+ "Analiza el sentimiento del siguiente texto." +:+ nl
    +:+ "Responde solo con: " +:+ dq +:+ "positivo" +:+ dq +:+ ", "
    +:+ dq +:+ "negativo" +:+ dq +:+ " o " +:+ dq +:+ "neutral" +:+ dq
    +:+ nl +:+ nl
    +:+ "Texto: " +:+ text +:+ nl.

(** The [try] block of [analyze_sentiment]. *)
Definition analyze_sentiment_try (self : GeminiAPI) (text : string)
    (detailed : bool)
  : M pyval :=
  let prompt := sentiment_prompt text detailed in
  response ← generate_content model_flash [TextPart prompt];
  sentiment_analysis ← lift (response_text response);
  timestamp ← utcnow;
  mret (PyDict
    [ ("success", PyBool true);
      ("sentiment_analysis", PyStr sentiment_analysis);
      ("text_length", PyInt (str_len text));
      ("detailed", PyBool detailed);
      ("timestamp", PyStr timestamp) ]).

Definition analyze_sentiment (self : GeminiAPI) (text : string)
    (detailed : bool)
  : M pyval :=
  guarded (analyze_sentiment_try self text detailed).

(** ** 7. Embeddings *)

(** [text[:100] + "..." if len(text) > 100 else text] *)
Definition text_preview (text : string) : string :=
  if 100 <? str_len text then str_prefix 100 text +:+ "..." else text.

(** One iteration of the loop over [texts]. *)
Definition embed_one (task_type : string) (embeddings : list pyval)
    (text : string) : M (list pyval) :=
  embedding ←
    send remote_embed (EmbedContent "models/embedding-001" text task_type);
  mret (embeddings ++
          [ PyDict [ ("text", PyStr (text_preview text));
                     ("embedding", PyList (PyFloat <$> embedding));
                     ("dimensions", PyInt (len embedding)) ] ]).

(** The [try] block of [generate_embeddings]. *)
Definition generate_embeddings_try (self : GeminiAPI) (texts : list string)
    (task_type : string)
  : M pyval :=
  embeddings ← for_each (embed_one task_type) [] texts;
  timestamp ← utcnow;
  mret (PyDict
    [ ("success", PyBool true);
      ("embeddings", PyList embeddings);
      ("total_texts", PyInt (len texts));
      ("task_type", PyStr task_type);
      ("timestamp", PyStr timestamp) ]).

Definition generate_embeddings (self : GeminiAPI) (texts : list string)
    (task_type : string)
  : M pyval :=
  guarded (generate_embeddings_try self texts task_type).

(** ** 8. Translation *)

Definition translation_prompt (text target_language source_language : string)
  : string :=
  if String.eqb source_language "auto" then
    "Traduce el siguiente texto a " +:+ target_language +:+ ":"
    +:+ nl +:+ nl +:+ text
  else
    "Traduce el siguiente texto de " +:+ source_language +:+ " a "
    +:+ target_language +:+ ":" +:+ nl +:+ nl +:+ text.

(** The [try] block of [translate_text]. *)
Definition translate_text_try (self : GeminiAPI)
    (text target_language source_language : string)
  : M pyval :=
  let prompt := translation_prompt text target_language source_language in
  response ← generate_content model_flash [TextPart prompt];
  translated_text ← lift (response_text response);
  timestamp ← utcnow;
  mret (PyDict
    [ ("success", PyBool true);
      ("original_text", PyStr text);
      ("translated_text", PyStr translated_text);
      ("source_language", PyStr source_language);
      ("target_language", PyStr target_language);
      ("timestamp", PyStr timestamp) ]).

Definition translate_text (self : GeminiAPI)
    (text target_language source_language : string)
  : M pyval :=
  guarded (translate_text_try self text target_language source_language).

(** ** 9. Summaries *)

Definition length_instructions : list (string * string) :=
  [ ("short", "muy breve (2-3 oraciones)");
    ("medium", "moderado (1 párrafo)");
    ("long", "detallado (2-3 párrafos)") ].

Definition summary_prompt (text summary_length : string) (bullet_points : bool)
  : string :=
  let format_instruction :=
    if bullet_points then "en formato de puntos clave"
    else "en formato de párrafo" in
  nl +:+ "Resume el siguiente texto de forma "
  +:+ default "moderada" (dict_get summary_length length_instructions)
  +:+ " " +:+ nl +:+ format_instruction +:+ ":" +:+ nl +:+ nl
  +:+ text +:+ nl.

(** The [try] block of [summarize_text]. *)
Definition summarize_text_try (self : GeminiAPI)
    (text summary_length : string) (bullet_points : bool)
  : M pyval :=
  let prompt := summary_prompt text summary_length bullet_points in
  response ← generate_content model_pro [TextPart prompt];
  summary ← lift (response_text response);
  timestamp ← utcnow;
  mret (PyDict
    [ ("success", PyBool true);
      ("summary", PyStr summary);
      ("original_length", PyInt (str_len text));
      ("summary_length_type", PyStr summary_length);
      ("bullet_points", PyBool bullet_points);
      ("timestamp", PyStr timestamp) ]).

Definition summarize_text (self : GeminiAPI) (text summary_length : string)
    (bullet_points : bool)
  : M pyval :=
  guarded (summarize_text_try self text summary_length bullet_points).

(** ** 10. Creative content *)

Definition type_instructions : list (string * string) :=
  [ ("story", "Escribe una historia creativa sobre:");
    ("poem", "Escribe un poema sobre:");
    ("article", "Escribe un artículo informativo sobre:");
    ("code", "Genera código para:");
    ("general", "") ].

(** The [try] block of [generate_creative_content]. *)
Definition generate_creative_content_try (self : GeminiAPI)
    (prompt content_type : string) (temperature : Q)
  : M pyval :=
  let full_prompt :=
    default "" (dict_get content_type type_instructions) +:+ " " +:+ prompt in
  pro ← getitem_ordered GEMINI_MODELS "pro";
  (* a model object of its own, with the caller's temperature *)
  response ←
    send remote_generate
      (GenerateContent pro temperature [TextPart full_prompt]);
  content ← lift (response_text response);
  timestamp ← utcnow;
  mret (PyDict
    [ ("success", PyBool true);
      ("content", PyStr content);
      ("content_type", PyStr content_type);
      ("temperature", PyFloat temperature);
      ("prompt_used", PyStr prompt);
      ("timestamp", PyStr timestamp) ]).

Definition generate_creative_content (self : GeminiAPI)
    (prompt content_type : string) (temperature : Q)
  : M pyval :=
  guarded (generate_creative_content_try self prompt content_type temperature).

(** ** 11. Grammar *)

Definition grammar_prompt (text language : string) : string :=
  nl +:+ "Revisa el siguiente texto en " +:+ language +:+ " y proporciona:" +:+ nl
  +:+ "1. Texto corregido" +:+ nl
  +:+ "2. Lista de errores encontrados" +:+ nl
  +:+ "3. Sugerencias de mejora" +:+ nl +:+ nl
  +:+ "Texto original:" +:+ nl +:+ text +:+ nl +:+ nl
  +:+ "Responde en formato JSON con las claves: "
  +:+ dq +:+ "texto_corregido" +:+ dq +:+ ", " +:+ dq +:+ "errores" +:+ dq
  +:+ ", " +:+ dq +:+ "sugerencias" +:+ dq +:+ nl.

(** The [try] block of [check_grammar]. *)
Definition check_grammar_try (self : GeminiAPI) (text language : string)
  : M pyval :=
  let prompt := grammar_prompt text language in
  response ← generate_content model_pro [TextPart prompt];
  result ← lift (response_text response);
  timestamp ← utcnow;
  mret (PyDict
    [ ("success", PyBool true);
      ("result", PyStr result);
      ("original_text", PyStr text);
      ("language", PyStr language);
      ("timestamp", PyStr timestamp) ]).

Definition check_grammar (self : GeminiAPI) (text language : string)
  : M pyval :=
  guarded (check_grammar_try self text language).

(** ** 12. Tabular data *)

Definition tabular_prompt (data_text analysis_request : string) : string :=
  nl +:+ "Analiza los siguientes datos y responde la pregunta:" +:+ nl +:+ nl
  +:+ "Datos:" +:+ nl +:+ data_text +:+ nl +:+ nl
  +:+ "Pregunta/Análisis solicitado:" +:+ nl +:+ analysis_request +:+ nl.

(** The [try] block of [analyze_tabular_data]. *)
Definition analyze_tabular_data_try (self : GeminiAPI)
    (data_text analysis_request : string)
  : M pyval :=
  let prompt := tabular_prompt data_text analysis_request in
  response ← generate_content model_pro [TextPart prompt];
  analysis ← lift (response_text response);
  timestamp ← utcnow;
  mret (PyDict
    [ ("success", PyBool true);
      ("analysis", PyStr analysis);
      ("data_length", PyInt (str_len data_text));
      ("request", PyStr analysis_request);
      ("timestamp", PyStr timestamp) ]).

Definition analyze_tabular_data (self : GeminiAPI)
    (data_text analysis_request : string)
  : M pyval :=
  guarded (analyze_tabular_data_try self data_text analysis_request).

(** ** Module-level helpers *)

Definition create_gemini_client (api_key environ : option string)
  : M GeminiAPI :=
  init api_key environ.

Definition list_available_models : list (string * string) := GEMINI_MODELS.

End Methods.

End Gemini.

(* ===================================================================== *)
(** * app/routes/ai_routes.py                                             *)
(* ===================================================================== *)

Module AiRoutes.

Import Gemini.

Definition HTTP_503_SERVICE_UNAVAILABLE : Z := 503.

Section Routes.
Context `{L : Library}.

(** The module-level initialisation:
    [try: gemini_client = GeminiAPI()  except ValueError: gemini_client = None].
    Another exception would escape and the import would fail. *)
Definition make_client (environ : option string) : M (option GeminiAPI) :=
  try_except
    (client ← init None environ; mret (Some client))
    (fun e => if is_class ValueError e then mret None else raise e).

(** [gemini_client], as the process holds it once it has started. *)
Definition client_at_start (environ : option string) : option GeminiAPI :=
  match (make_client environ initial_world).1 with
  | inr client => client
  | inl _ => None
  end.

Variable gemini_client : option GeminiAPI.

Definition check_gemini_available : M unit :=
  match gemini_client with
  | None =>
      raise (HTTPException HTTP_503_SERVICE_UNAVAILABLE
               "Servicio de IA no disponible. Configure GOOGLE_API_KEY")
  | Some _ => mret tt
  end.

(** [gemini_client.method(...)]: an attribute of [None] cannot be taken. *)
Definition client (method : string) : M GeminiAPI :=
  match gemini_client with
  | Some c => mret c
  | None =>
      raise (PyExn (OtherException "AttributeError")
               ("'NoneType' object has no attribute '" +:+ method +:+ "'"))
  end.

(** The response of a handler that answers with a 200 and [content]. *)
Definition json_response (content : pyval) : JSONResponse :=
  mkJSONResponse 200 content.

Definition analyze_text_endpoint (text model : string) (temperature : Q)
  : M JSONResponse :=
  check_gemini_available;;
  self ← client "analyze_text";
  result ← analyze_text self text model temperature;
  lift (JSONResponse_init result).

Definition chat_endpoint (message model : string) (clear_history : bool)
  : M JSONResponse :=
  check_gemini_available;;
  self ← client "chat";
  result ← chat self message model clear_history;
  lift (JSONResponse_init result).

Definition get_chat_history_endpoint : M JSONResponse :=
  check_gemini_available;;
  self ← client "get_chat_history";
  history ← get_chat_history self;
  lift (JSONResponse_init
          (PyDict [ ("success", PyBool true);
                    ("history", PyList history);
                    ("total_messages", PyInt (len history)) ])).

Definition clear_chat_history_endpoint : M JSONResponse :=
  check_gemini_available;;
  self ← client "clear_chat_history";
  result ← clear_chat_history self;
  lift (JSONResponse_init result).

Definition analyze_image_endpoint (file : UploadFile) (prompt : string)
  : M JSONResponse :=
  check_gemini_available;;
  when (negb (str_startswith (content_type file) "image/"))
    (raise (HTTPException 400 "El archivo debe ser una imagen"));;
  contents ← read file;
  self ← client "analyze_image";
  result ← analyze_image self contents prompt "bytes";
  lift (JSONResponse_init result).

Definition compare_images_endpoint (image1 image2 : UploadFile)
    (comparison_prompt : string) : M JSONResponse :=
  check_gemini_available;;
  when (negb (str_startswith (content_type image1) "image/")
        || negb (str_startswith (content_type image2) "image/"))
    (raise (HTTPException 400 "Ambos archivos deben ser imágenes"));;
  image1_data ← read image1;
  image2_data ← read image2;
  self ← client "compare_images";
  result ← compare_images self image1_data image2_data comparison_prompt;
  lift (JSONResponse_init result).

Definition analyze_document_endpoint (file : UploadFile) (analysis_type : string)
  : M JSONResponse :=
  check_gemini_available;;
  try_except
    (contents ← read file;
     text ← lift (decode_utf8 contents);
     self ← client "analyze_document";
     result ← analyze_document self text analysis_type;
     lift (JSONResponse_init result))
    (fun e =>
       if is_class UnicodeDecodeError e then
         raise (HTTPException 400
                  "No se pudo decodificar el archivo. Use codificación UTF-8")
       else raise e).

Definition extract_structured_data_endpoint (file : UploadFile)
    (schema : string) : M JSONResponse :=
  check_gemini_available;;
  try_except
    (schema_dict ← lift (json_loads schema);
     contents ← read file;
     text ← lift (decode_utf8 contents);
     self ← client "extract_structured_data";
     result ← extract_structured_data self text schema_dict;
     lift (JSONResponse_init result))
    (fun e =>
       if is_class JSONDecodeError e then
         raise (HTTPException 400 "Schema inválido. Use formato JSON válido")
       else if is_class UnicodeDecodeError e then
         raise (HTTPException 400 "No se pudo decodificar el archivo")
       else raise e).

Definition analyze_csv_endpoint (file : UploadFile) (question : string)
  : M JSONResponse :=
  check_gemini_available;;
  when (negb (str_endswith (filename file) ".csv"))
    (raise (HTTPException 400 "El archivo debe ser un CSV"));;
  try_except
    (contents ← read file;
     data_text ← lift (decode_utf8 contents);
     self ← client "analyze_tabular_data";
     result ← analyze_tabular_data self data_text question;
     lift (JSONResponse_init result))
    (fun e =>
       if is_class UnicodeDecodeError e then
         raise (HTTPException 400 "Error al leer el archivo CSV")
       else raise e).

Definition analyze_sentiment_endpoint (text : string) (detailed : bool)
  : M JSONResponse :=
  check_gemini_available;;
  self ← client "analyze_sentiment";
  result ← analyze_sentiment self text detailed;
  lift (JSONResponse_init result).

Definition translate_endpoint (text target_language source_language : string)
  : M JSONResponse :=
  check_gemini_available;;
  self ← client "translate_text";
  result ← translate_text self text target_language source_language;
  lift (JSONResponse_init result).

Definition summarize_endpoint (text summary_length : string)
    (bullet_points : bool) : M JSONResponse :=
  check_gemini_available;;
  self ← client "summarize_text";
  result ← summarize_text self text summary_length bullet_points;
  lift (JSONResponse_init result).

Definition grammar_check_endpoint (text language : string) : M JSONResponse :=
  check_gemini_available;;
  self ← client "check_grammar";
  result ← check_grammar self text language;
  lift (JSONResponse_init result).

Definition generate_content_endpoint (prompt content_type : string)
    (temperature : Q) : M JSONResponse :=
  check_gemini_available;;
  self ← client "generate_creative_content";
  result ← generate_creative_content self prompt content_type temperature;
  lift (JSONResponse_init result).

Definition generate_embeddings_endpoint (texts : list string)
    (task_type : string) : M JSONResponse :=
  check_gemini_available;;
  self ← client "generate_embeddings";
  result ← generate_embeddings self texts task_type;
  lift (JSONResponse_init result).

Definition combined_image_analysis (file : UploadFile) (ai_prompt : string)
  : M JSONResponse :=
  check_gemini_available;;
  when (negb (str_startswith (content_type file) "image/"))
    (raise (HTTPException 400 "El archivo debe ser una imagen"));;
  contents ← read file;
  image ← lift (Image_open contents);
  let file_info := PyDict
    [ ("filename", PyStr (filename file));
      ("format", PyStr (img_format image));
      ("size", PyStr (image_size image));
      ("size_mb", PyFloat (Router.size_mb contents)) ] in
  self ← client "analyze_image";
  ai_result ← analyze_image self contents ai_prompt "bytes";
  timestamp ← utcnow;
  lift (JSONResponse_init
          (PyDict [ ("success", PyBool true);
                    ("file_info", file_info);
                    ("ai_analysis", ai_result);
                    ("timestamp", PyStr timestamp) ])).

Definition combined_document_analysis (file : UploadFile)
    (analysis_type : string) : M JSONResponse :=
  check_gemini_available;;
  try_except
    (contents ← read file;
     text ← lift (decode_utf8 contents);
     let file_info := PyDict
       [ ("filename", PyStr (filename file));
         ("size_mb", PyFloat (Router.size_mb contents));
         ("character_count", PyInt (str_len text));
         ("word_count", PyInt (len (str_split text))) ] in
     self ← client "analyze_document";
     ai_result ← analyze_document self text analysis_type;
     timestamp ← utcnow;
     lift (JSONResponse_init
             (PyDict [ ("success", PyBool true);
                       ("file_info", file_info);
                       ("ai_analysis", ai_result);
                       ("timestamp", PyStr timestamp) ])))
    (fun e =>
       if is_class UnicodeDecodeError e then
         raise (HTTPException 400 "Error al decodificar el archivo")
       else raise e).

Definition list_models : M JSONResponse :=
  timestamp ← utcnow;
  mret (json_response
          (PyDict [ ("success", PyBool true);
                    ("models", PyDict (prod_map id PyStr <$> GEMINI_MODELS));
                    ("timestamp", PyStr timestamp) ])).

Definition gemini_status : M JSONResponse :=
  timestamp ← utcnow;
  mret (json_response
          (PyDict [ ("success", PyBool true);
                    ("gemini_available",
                      PyBool (match gemini_client with
                              | Some _ => true
                              | None => false
                              end));
                    ("timestamp", PyStr timestamp) ])).

End Routes.

End AiRoutes.

(* ===================================================================== *)
(** * main.py                                                             *)
(* ===================================================================== *)

Module Main.

Section Endpoints.
Context `{L : Library}.

(** [gemini_client] as [health_check] imports it from [ai_routes]. *)
Variable gemini_client : option Gemini.GeminiAPI.

Definition health_check : M pyval :=
  let gemini_available :=
    match gemini_client with
    | Some _ => true
    | None => false
    end in
  timestamp ← utcnow;
  mret (PyDict
    [ ("status", PyStr "healthy");
      ("services",
        PyDict [ ("api", PyStr "operational");
                 ("file_processing", PyStr "operational");
                 ("gemini_ai",
                   PyStr (if gemini_available then "operational"
                          else "unavailable")) ]);
      ("timestamp", PyStr timestamp) ]).

Definition get_version : pyval :=
  PyDict
    [ ("version", PyStr "2.0.0");
      ("release_date", PyStr "2024");
      ("features",
        PyList (PyStr <$>
          [ "File upload and processing (10 types)";
            "Google Gemini AI integration";
            "Image analysis with Vision";
            "Document analysis and extraction";
            "Text processing and generation";
            "Chat with memory";
            "Combined file + AI endpoints" ])) ].

End Endpoints.

End Main.

(* ===================================================================== *)
(** * Reading responses, and a library to run the handlers on             *)
(* ===================================================================== *)

Module Observe.

(** [v[k]] on a response dictionary. *)
Definition field (k : string) (v : pyval) : option pyval :=
  match v with
  | PyDict d => dict_get k d
  | _ => None
  end.

(** [response["data"][k]] of a returned response. *)
Definition data_field (k : string) (r : result JSONResponse) : option pyval :=
  match r with
  | inr resp => field "data" (content resp) ≫= field k
  | inl _ => None
  end.

(** The ten single-file routes [POST /files/upload/{category}]. *)
Inductive category : Type :=
| Image | Video | Zip | Pdf | Excel | Csv | Word | Audio | Json | Xml.

Definition all_categories : list category :=
  [Image; Video; Zip; Pdf; Excel; Csv; Word; Audio; Json; Xml].

(** The key under which the route's handler consults the two tables. *)
Definition key (c : category) : string :=
  match c with
  | Image => "image" | Video => "video" | Zip => "zip" | Pdf => "pdf"
  | Excel => "excel" | Csv => "csv" | Word => "word" | Audio => "audio"
  | Json => "json" | Xml => "xml"
  end.

(** The route table of the file router. *)
Definition upload `{Library} (c : category) : UploadFile -> M JSONResponse :=
  match c with
  | Image => Router.upload_image
  | Video => Router.upload_video
  | Zip => Router.upload_zip
  | Pdf => Router.upload_pdf
  | Excel => Router.upload_excel
  | Csv => Router.upload_csv
  | Word => Router.upload_word
  | Audio => Router.upload_audio
  | Json => Router.upload_json
  | Xml => Router.upload_xml
  end.

(** A CSV row as it appears in a response. *)
Definition py_row (row : list string) : pyval := PyList (PyStr <$> row).

(** A payload of [n] zero bytes. *)
Definition zeros (n : Z) : list byte := replicate (Z.to_nat n) x00.

(** The exact percentage saved by compressing a ZIP entry. *)
Definition saved_percent (info : ZipInfo) : Q :=
  ((1 - inject_Z (compress_size info) / inject_Z (file_size info))
   * inject_Z 100)%Q.

(** The sizes the ZIP format can record: 64-bit unsigned numbers. *)
Definition zip_sizes (info : ZipInfo) : Prop :=
  0 <= compress_size info < 2 ^ 64 ∧ 0 <= file_size info < 2 ^ 64.


(** The address of a node: the child indices on the way down from the
    root.  [paths e] lists the addresses of all nodes of [e], the root
    first, then each child's subtree in turn. *)
Fixpoint paths (e : Element) : list (list nat) :=
  match e with
  | mkElement _ _ children =>
      [] :: (fix go (i : nat) (cs : list Element) : list (list nat) :=
               match cs with
               | [] => []
               | c :: cs' => (cons i <$> paths c) ++ go (S i) cs'
               end) 0%nat children
  end.






(** Whether the keys of a parsed JSON document have a UTF-8 form: those
    of a mapping without a lone surrogate in a key do, and a document that
    is no mapping has no keys. *)
Definition keys_encodable (json_data : pyval) : bool :=
  match json_data with
  | PyDictSurrogate d => forallb utf8_encodable d.*1
  | _ => true
  end.

(** The category the search of the batch endpoint files an upload
    under. *)
Definition batch_category `{Library} (file : UploadFile) : option string :=
  Router.find_file_type (lower (splitext (filename file)).2)
    Router.ALLOWED_EXTENSIONS.

(** ** The batch endpoint, as the specification describes it *)

(** The registered categories: each extension with the category it
    belongs to. *)
Definition registered_extensions : list (string * string) :=
  [ (".jpg", "image"); (".jpeg", "image"); (".png", "image");
    (".gif", "image");
    (".mp4", "video"); (".avi", "video"); (".mov", "video");
    (".mkv", "video");
    (".zip", "zip");
    (".pdf", "pdf");
    (".xlsx", "excel"); (".xls", "excel");
    (".csv", "csv");
    (".docx", "word"); (".doc", "word");
    (".mp3", "audio"); (".wav", "audio"); (".ogg", "audio");
    (".json", "json");
    (".xml", "xml") ].

(** The byte limit of each category, in megabytes. *)
Definition limit_megabytes : list (string * Z) :=
  [ ("image", 10); ("video", 100); ("zip", 50); ("pdf", 20); ("excel", 15);
    ("csv", 10); ("word", 15); ("audio", 30); ("json", 5); ("xml", 5) ].

(** The extension of an upload's name, lower-cased. *)
Definition suffix `{Library} (file : UploadFile) : string :=
  lower (splitext (filename file)).2.

(** The category an upload resolves to, by its extension. *)
Definition resolved_category `{Library} (file : UploadFile) : option string :=
  dict_get (suffix file) registered_extensions.

(** Whether [contents] fits the limit of [category]. *)
Definition fits (contents : list byte) (category : string) : bool :=
  len contents <=? default 0 (dict_get category limit_megabytes) * 1024 * 1024.

(** Whether a file of a batch can be read, resolves to a category and
    fits its limit. *)
Definition accepted `{Library} (file : UploadFile) : bool :=
  match body file, resolved_category file with
  | inr contents, Some category => fits contents category
  | _, _ => false
  end.

(** The entry of one file of a batch, looking at that file alone: for a
    file without a category, the unsupported entry; for a file that fits
    the limit of its category, [{filename, success: true, file_type,
    size_mb}]; for any other, [{filename, success: false, error}]. *)
Definition batch_entry `{Library} (file : UploadFile) (item : pyval) : Prop :=
  match body file with
  | inl e =>
      item = PyDict [ ("filename", PyStr (filename file));
                      ("success", PyBool false);
                      ("error", PyStr (str e)) ]
  | inr contents =>
      match resolved_category file with
      | None =>
          item = PyDict [ ("filename", PyStr (filename file));
                          ("success", PyBool false);
                          ("error", PyStr "Tipo de archivo no soportado") ]
      | Some category =>
          if fits contents category then
            item = PyDict [ ("filename", PyStr (filename file));
                            ("success", PyBool true);
                            ("file_type", PyStr category);
                            ("size_mb",
                              PyFloat
                                (round2 (inject_Z (len contents)
                                         / inject_Z (1024 * 1024)))) ]
          else
            ∃ error,
              item = PyDict [ ("filename", PyStr (filename file));
                              ("success", PyBool false);
                              ("error", PyStr error) ]
      end
  end.

(** Two uploads that differ at most in the bytes of their payloads: same
    name, and payloads of the same length (or the same failure to read). *)
Definition same_shape (file1 file2 : UploadFile) : Prop :=
  filename file1 = filename file2
  ∧ match body file1, body file2 with
    | inr contents1, inr contents2 => length contents1 = length contents2
    | inl e1, inl e2 => e1 = e2
    | _, _ => False
    end.

(** The world after the uploads [names] have been read. *)
Definition after_reads (names : list string) (w : World) : World :=
  mkWorld (clock w) (reads w ++ names) (net w) (chat_history w)
    (temperature_pro w) (temperature_flash w).

(** The categories whose route looks at the name and the size only. *)
Definition content_free (c : category) : bool :=
  match c with
  | Video | Excel | Word | Audio => true
  | _ => false
  end.

(** The categories whose route decodes the payload as UTF-8 text. *)
Definition textual (c : category) : bool :=
  match c with
  | Csv | Json | Xml => true
  | _ => false
  end.

(** The world after one more reading of the clock. *)
Definition tick (w : World) : World :=
  mkWorld (S (clock w)) (reads w) (net w) (chat_history w)
    (temperature_pro w) (temperature_flash w).

(** ** The generative gateway *)

(** A call of a public method of the gateway object. *)
Inductive gateway_call : Type :=
| CallAnalyzeText (text model : string) (temperature : Q)
| CallChat (message model : string) (clear_history : bool)
| CallGetChatHistory
| CallClearChatHistory
| CallAnalyzeImage (image_data : list byte) (prompt image_format : string)
| CallCompareImages (image1_data image2_data : list byte) (prompt : string)
| CallAnalyzeDocument (document_text analysis_type : string)
| CallExtractStructuredData (text : string) (schema : pyval)
| CallAnalyzeSentiment (text : string) (detailed : bool)
| CallGenerateEmbeddings (texts : list string) (task_type : string)
| CallTranslateText (text target_language source_language : string)
| CallSummarizeText (text summary_length : string) (bullet_points : bool)
| CallGenerateCreativeContent (prompt content_type : string) (temperature : Q)
| CallCheckGrammar (text language : string)
| CallAnalyzeTabularData (data_text analysis_request : string).

(** The [try] block of a method; [get_chat_history] and
    [clear_chat_history] have none: the whole method stands for it. *)
Definition attempt `{Library} (self : Gemini.GeminiAPI) (call : gateway_call)
  : M pyval :=
  match call with
  | CallAnalyzeText text model temperature =>
      Gemini.analyze_text_try self text model temperature
  | CallChat message model clear_history =>
      Gemini.chat_try self message model clear_history
  | CallGetChatHistory => PyList <$> Gemini.get_chat_history self
  | CallClearChatHistory => Gemini.clear_chat_history self
  | CallAnalyzeImage image_data prompt image_format =>
      Gemini.analyze_image_try self image_data prompt image_format
  | CallCompareImages image1_data image2_data prompt =>
      Gemini.compare_images_try self image1_data image2_data prompt
  | CallAnalyzeDocument document_text analysis_type =>
      Gemini.analyze_document_try self document_text analysis_type
  | CallExtractStructuredData text schema =>
      Gemini.extract_structured_data_try self text schema
  | CallAnalyzeSentiment text detailed =>
      Gemini.analyze_sentiment_try self text detailed
  | CallGenerateEmbeddings texts task_type =>
      Gemini.generate_embeddings_try self texts task_type
  | CallTranslateText text target_language source_language =>
      Gemini.translate_text_try self text target_language source_language
  | CallSummarizeText text summary_length bullet_points =>
      Gemini.summarize_text_try self text summary_length bullet_points
  | CallGenerateCreativeContent prompt content_type temperature =>
      Gemini.generate_creative_content_try self prompt content_type
        temperature
  | CallCheckGrammar text language =>
      Gemini.check_grammar_try self text language
  | CallAnalyzeTabularData data_text analysis_request =>
      Gemini.analyze_tabular_data_try self data_text analysis_request
  end.

(** The calls whose first fallible step is the request to the remote
    service: what a method does before it (setting a temperature, opening
    an image, reading the items of the schema) goes through, and there is
    a request to make. *)
Definition reaches_service `{Library} (call : gateway_call) : Prop :=
  match call with
  | CallAnalyzeText _ _ temperature =>
      Qeq_bool temperature (7 # 10) = true ∨ set_temperature_attr = inr tt
  | CallAnalyzeImage image_data _ image_format =>
      ∃ image_bytes image,
        (if String.eqb image_format "base64" then b64decode image_data
         else inr image_data) = inr image_bytes
        ∧ Image_open image_bytes = inr image
  | CallCompareImages image1_data image2_data _ =>
      ∃ image1 image2,
        Image_open image1_data = inr image1
        ∧ Image_open image2_data = inr image2
  | CallExtractStructuredData _ schema => ∃ d, schema = PyDict d
  | CallGenerateEmbeddings texts _ => texts ≠ []
  | CallGetChatHistory | CallClearChatHistory => False
  | _ => True
  end.

(** The remote service refuses every request with [e]. *)
Definition service_down `{Library} (e : exn) : Prop :=
  (∀ log call, remote_generate log call = inl e)
  ∧ (∀ log call, remote_embed log call = inl e).

Definition invoke `{Library} (self : Gemini.GeminiAPI) (call : gateway_call)
  : M pyval :=
  match call with
  | CallAnalyzeText text model temperature =>
      Gemini.analyze_text self text model temperature
  | CallChat message model clear_history =>
      Gemini.chat self message model clear_history
  | CallGetChatHistory => PyList <$> Gemini.get_chat_history self
  | CallClearChatHistory => Gemini.clear_chat_history self
  | CallAnalyzeImage image_data prompt image_format =>
      Gemini.analyze_image self image_data prompt image_format
  | CallCompareImages image1_data image2_data prompt =>
      Gemini.compare_images self image1_data image2_data prompt
  | CallAnalyzeDocument document_text analysis_type =>
      Gemini.analyze_document self document_text analysis_type
  | CallExtractStructuredData text schema =>
      Gemini.extract_structured_data self text schema
  | CallAnalyzeSentiment text detailed =>
      Gemini.analyze_sentiment self text detailed
  | CallGenerateEmbeddings texts task_type =>
      Gemini.generate_embeddings self texts task_type
  | CallTranslateText text target_language source_language =>
      Gemini.translate_text self text target_language source_language
  | CallSummarizeText text summary_length bullet_points =>
      Gemini.summarize_text self text summary_length bullet_points
  | CallGenerateCreativeContent prompt content_type temperature =>
      Gemini.generate_creative_content self prompt content_type temperature
  | CallCheckGrammar text language => Gemini.check_grammar self text language
  | CallAnalyzeTabularData data_text analysis_request =>
      Gemini.analyze_tabular_data self data_text analysis_request
  end.

(** Every method but the accessor of the conversation buffer answers with
    an envelope. *)
Definition answers_with_envelope (call : gateway_call) : bool :=
  match call with
  | CallGetChatHistory => false
  | _ => true
  end.

Definition is_success_envelope (v : pyval) : Prop :=
  field "success" v = Some (PyBool true)
  ∧ ∃ timestamp, field "timestamp" v = Some (PyStr timestamp).

Definition failure_envelope (error timestamp : string) : pyval :=
  PyDict [ ("success", PyBool false);
           ("error", PyStr error);
           ("timestamp", PyStr timestamp) ].

Definition is_failure_envelope (v : pyval) : Prop :=
  ∃ error timestamp, v = failure_envelope error timestamp.

(** A call that came back with a failure envelope. *)
Definition is_failure_envelope_of (r : result pyval) : Prop :=
  ∃ v, r = inr v ∧ is_failure_envelope v.

(** [m] never returns a value outside [P]. *)
Definition returns {A} (P : A → Prop) (m : M A) : Prop :=
  ∀ w a w', m w = (inr a, w') → P a.

(** [m] never raises an exception outside [E]. *)
Definition raises {A} (E : exn → Prop) (m : M A) : Prop :=
  ∀ w e w', m w = (inl e, w') → E e.

(** What a response returned by the route of category [c] tells about
    the upload [file]. *)
Definition passed `{Library} (c : category) (file : UploadFile)
    (resp : JSONResponse) : Prop :=
  status_code_of resp = 200
  ∧ field "success" (content resp) = Some (PyBool true)
  ∧ Router.validate_file_extension (filename file) (key c) = true
  ∧ ∃ contents, body file = inr contents
      ∧ Router.validate_file_size contents (key c) = true
      ∧ field "data" (content resp) ≫= field "filename"
        = Some (PyStr (filename file))
      ∧ field "data" (content resp) ≫= field "size_bytes"
        = match c with
          | Zip => None
          | _ => Some (PyInt (len contents))
          end.

(** The exceptions a single-file route can leave with. *)
Definition rejection (c : category) (e : exn) : Prop :=
  match e with
  | HTTPException s _ =>
      s = 500 ∨ (s = 400 ∧ (c = Zip ∨ c = Csv ∨ c = Json ∨ c = Xml))
  | PyExn _ _ => False
  end.

(** ** The routes under [/ai] *)

Inductive ai_request : Type :=
| AnalyzeText (text model : string) (temperature : Q)
| Chat (message model : string) (clear_history : bool)
| GetChatHistory
| ClearChatHistory
| AnalyzeImage (file : UploadFile) (prompt : string)
| CompareImages (image1 image2 : UploadFile) (comparison_prompt : string)
| AnalyzeDocument (file : UploadFile) (analysis_type : string)
| ExtractStructuredData (file : UploadFile) (schema : string)
| AnalyzeCsv (file : UploadFile) (question : string)
| Sentiment (text : string) (detailed : bool)
| Translate (text target_language source_language : string)
| Summarize (text summary_length : string) (bullet_points : bool)
| GrammarCheck (text language : string)
| GenerateContentRequest (prompt content_type : string) (temperature : Q)
| Embeddings (texts : list string) (task_type : string)
| CombinedImageAnalysis (file : UploadFile) (ai_prompt : string)
| CombinedDocumentAnalysis (file : UploadFile) (analysis_type : string)
| ListModels
| GeminiStatus.

Definition path (request : ai_request) : string :=
  match request with
  | AnalyzeText _ _ _ => "/ai/analyze-text"
  | Chat _ _ _ => "/ai/chat"
  | GetChatHistory => "/ai/chat/history"
  | ClearChatHistory => "/ai/chat/history"
  | AnalyzeImage _ _ => "/ai/analyze-image"
  | CompareImages _ _ _ => "/ai/compare-images"
  | AnalyzeDocument _ _ => "/ai/analyze-document"
  | ExtractStructuredData _ _ => "/ai/extract-structured-data"
  | AnalyzeCsv _ _ => "/ai/analyze-csv"
  | Sentiment _ _ => "/ai/sentiment"
  | Translate _ _ _ => "/ai/translate"
  | Summarize _ _ _ => "/ai/summarize"
  | GrammarCheck _ _ => "/ai/grammar-check"
  | GenerateContentRequest _ _ _ => "/ai/generate-content"
  | Embeddings _ _ => "/ai/embeddings"
  | CombinedImageAnalysis _ _ => "/ai/combined/image-analysis"
  | CombinedDocumentAnalysis _ _ => "/ai/combined/document-analysis"
  | ListModels => "/ai/models"
  | GeminiStatus => "/ai/status"
  end.

(** The route table of the AI router. *)
Definition serve `{Library} (gemini_client : option Gemini.GeminiAPI)
    (request : ai_request) : M JSONResponse :=
  match request with
  | AnalyzeText text model temperature =>
      AiRoutes.analyze_text_endpoint gemini_client text model temperature
  | Chat message model clear_history =>
      AiRoutes.chat_endpoint gemini_client message model clear_history
  | GetChatHistory => AiRoutes.get_chat_history_endpoint gemini_client
  | ClearChatHistory => AiRoutes.clear_chat_history_endpoint gemini_client
  | AnalyzeImage file prompt =>
      AiRoutes.analyze_image_endpoint gemini_client file prompt
  | CompareImages image1 image2 comparison_prompt =>
      AiRoutes.compare_images_endpoint gemini_client image1 image2
        comparison_prompt
  | AnalyzeDocument file analysis_type =>
      AiRoutes.analyze_document_endpoint gemini_client file analysis_type
  | ExtractStructuredData file schema =>
      AiRoutes.extract_structured_data_endpoint gemini_client file schema
  | AnalyzeCsv file question =>
      AiRoutes.analyze_csv_endpoint gemini_client file question
  | Sentiment text detailed =>
      AiRoutes.analyze_sentiment_endpoint gemini_client text detailed
  | Translate text target_language source_language =>
      AiRoutes.translate_endpoint gemini_client text target_language
        source_language
  | Summarize text summary_length bullet_points =>
      AiRoutes.summarize_endpoint gemini_client text summary_length
        bullet_points
  | GrammarCheck text language =>
      AiRoutes.grammar_check_endpoint gemini_client text language
  | GenerateContentRequest prompt content_type temperature =>
      AiRoutes.generate_content_endpoint gemini_client prompt content_type
        temperature
  | Embeddings texts task_type =>
      AiRoutes.generate_embeddings_endpoint gemini_client texts task_type
  | CombinedImageAnalysis file ai_prompt =>
      AiRoutes.combined_image_analysis gemini_client file ai_prompt
  | CombinedDocumentAnalysis file analysis_type =>
      AiRoutes.combined_document_analysis gemini_client file analysis_type
  | ListModels => AiRoutes.list_models
  | GeminiStatus => AiRoutes.gemini_status gemini_client
  end.

(** The routes that ask for the gateway before anything else; the two
    information routes do not. *)
Definition checks_gateway (request : ai_request) : bool :=
  match request with
  | ListModels | GeminiStatus => false
  | _ => true
  end.

(** The routes whose handler only passes form fields to the gateway. *)
Definition form_only (request : ai_request) : bool :=
  match request with
  | AnalyzeText _ _ _ | Chat _ _ _ | ClearChatHistory | Sentiment _ _
  | Translate _ _ _ | Summarize _ _ _ | GrammarCheck _ _
  | GenerateContentRequest _ _ _ | Embeddings _ _ => true
  | _ => false
  end.

(** The gateway call such a route makes with its form fields. *)
Definition forwarded (request : ai_request) : option gateway_call :=
  match request with
  | AnalyzeText text model temperature =>
      Some (CallAnalyzeText text model temperature)
  | Chat message model clear_history =>
      Some (CallChat message model clear_history)
  | ClearChatHistory => Some CallClearChatHistory
  | Sentiment text detailed => Some (CallAnalyzeSentiment text detailed)
  | Translate text target_language source_language =>
      Some (CallTranslateText text target_language source_language)
  | Summarize text summary_length bullet_points =>
      Some (CallSummarizeText text summary_length bullet_points)
  | GrammarCheck text language => Some (CallCheckGrammar text language)
  | GenerateContentRequest prompt content_type temperature =>
      Some (CallGenerateCreativeContent prompt content_type temperature)
  | Embeddings texts task_type =>
      Some (CallGenerateEmbeddings texts task_type)
  | _ => None
  end.

(** The conversation a chat call starts from. *)
Definition chat_base (clear_history : bool) (w : World) : list ChatMessage :=
  if clear_history then [] else chat_history w.

(** The request a chat call sends. *)
Definition chat_request (message model : string) (clear_history : bool)
    (w : World) : NetCall :=
  SendMessage (Gemini.model_name (Gemini.select_model model))
    ((λ msg, (msg_role msg, msg_content msg)) <$> chat_base clear_history w)
    message.

(** The request made for one text of an embedding call. *)
Definition embed_request (task_type text : string) : NetCall :=
  EmbedContent "models/embedding-001" text task_type.

(** [not os.getenv("GOOGLE_API_KEY")]: unset, or set to the empty string. *)
Definition credential_absent (environ : option string) : bool :=
  match environ with
  | None => true
  | Some k => String.eqb k ""
  end.

End Observe.
Export Observe.

(** A small deterministic library: enough to run every handler on concrete
    inputs.  Text is ASCII, a CSV line is split at its commas, three JSON
    documents, two XML documents and one archive are known to the parsers,
    and the remote service echoes. *)
Module Demo.

Definition ascii_of_byte_opt (b : byte) : option ascii :=
  let a := ascii_of_byte b in
  if (nat_of_ascii a <? 128)%nat then Some a else None.

Fixpoint decode_ascii (bs : list byte) : option string :=
  match bs with
  | [] => Some EmptyString
  | b :: bs' =>
      a ← ascii_of_byte_opt b; s ← decode_ascii bs'; Some (String a s)
  end.

Definition encode (s : string) : list byte := list_byte_of_string s.

Fixpoint split_at (sep : ascii) (s : string) (cur : string) : list string :=
  match s with
  | EmptyString => [String.rev cur]
  | String c s' =>
      if Ascii.eqb c sep then String.rev cur :: split_at sep s' EmptyString
      else split_at sep s' (String c cur)
  end.

Definition newline : ascii := ascii_of_nat 10.

Definition lines (s : string) : list string :=
  match s with
  | EmptyString => []
  | _ => split_at newline s EmptyString
  end.

Definition doc_object : string :=
  "{" +:+ dq +:+ "a" +:+ dq +:+ ":1," +:+ dq +:+ "b" +:+ dq +:+ ":2}".
Definition doc_array : string := "[1,2,3]".
Definition doc_xml : string := "<r id='7'><a><b/></a><c/></r>".

(** [{"\ud800":1}]: an object whose one key is a lone surrogate, written
    as an escape. *)
Definition doc_surrogate : string :=
  "{" +:+ dq +:+ "\ud800" +:+ dq +:+ ":1}".

Fixpoint repeat_string (n : nat) (s : string) : string :=
  match n with
  | O => EmptyString
  | S n' => s +:+ repeat_string n' s
  end.

(** [n] elements [a], each inside the one before. *)
Definition nested_xml (n : nat) : string :=
  repeat_string n "<a>" +:+ repeat_string n "</a>".

Fixpoint nested_tree (n : nat) : Element :=
  match n with
  | O => mkElement "a" [] []
  | S n' => mkElement "a" [] [nested_tree n']
  end.

Definition same_bytes (a b : list byte) : bool :=
  (length a =? length b)%nat
  && forallb (λ p, Byte.eqb p.1 p.2) (zip a b).

Definition tree : Element :=
  mkElement "r" [("id", "7")]
    [ mkElement "a" [] [ mkElement "b" [] [] ]; mkElement "c" [] [] ].

Definition archive : list ZipInfo :=
  [ mkZipInfo "half.txt" 100 50; mkZipInfo "empty.txt" 0 0;
    mkZipInfo "third.bin" 3 1; mkZipInfo "notes.log" 160 67 ].

(** A ZIP file with these four entries: the central directory (one
    46-byte header and a name per entry) and the end-of-directory record.
    [zipfile] lists an archive from these alone. *)
Definition archive_bytes : list byte :=
  [x50; x4b; x01; x02; x14; x00; x14; x00; x00; x00; x08; x00; x00; x00;
   x21; x00; x00; x00; x00; x00; x32; x00; x00; x00; x64; x00; x00; x00;
   x08; x00; x00; x00; x00; x00; x00; x00; x00; x00; x00; x00; x00; x00;
   x00; x00; x00; x00; x68; x61; x6c; x66; x2e; x74; x78; x74; x50; x4b;
   x01; x02; x14; x00; x14; x00; x00; x00; x00; x00; x00; x00; x21; x00;
   x00; x00; x00; x00; x00; x00; x00; x00; x00; x00; x00; x00; x09; x00;
   x00; x00; x00; x00; x00; x00; x00; x00; x00; x00; x00; x00; x00; x00;
   x00; x00; x65; x6d; x70; x74; x79; x2e; x74; x78; x74; x50; x4b; x01;
   x02; x14; x00; x14; x00; x00; x00; x08; x00; x00; x00; x21; x00; x00;
   x00; x00; x00; x01; x00; x00; x00; x03; x00; x00; x00; x09; x00; x00;
   x00; x00; x00; x00; x00; x00; x00; x00; x00; x00; x00; x00; x00; x00;
   x00; x74; x68; x69; x72; x64; x2e; x62; x69; x6e; x50; x4b; x01; x02;
   x14; x00; x14; x00; x00; x00; x08; x00; x00; x00; x21; x00; x00; x00;
   x00; x00; x43; x00; x00; x00; xa0; x00; x00; x00; x09; x00; x00; x00;
   x00; x00; x00; x00; x00; x00; x00; x00; x00; x00; x00; x00; x00; x00;
   x6e; x6f; x74; x65; x73; x2e; x6c; x6f; x67; x50; x4b; x05; x06; x00;
   x00; x00; x00; x04; x00; x04; x00; xdb; x00; x00; x00; x00; x00; x00;
   x00; x00; x00].

#[export] Instance library : Library := {|
  utcnow_isoformat n := "2024-01-01T00:00:" +:+ pretty n;
  str_HTTPException s d := pretty s +:+ ": " +:+ d;
  repr_float q := pretty (Qfloor q) +:+ ".0";
  Image_open _ :=
    inl (PyExn (OtherException "UnidentifiedImageError")
           "cannot identify image file");
  ZipFile_filelist bs :=
    if same_bytes bs archive_bytes then inr archive
    else inl (PyExn BadZipFile "File is not a zip file");
  decode_utf8 bs :=
    match decode_ascii bs with
    | Some s => inr s
    | None => inl (PyExn UnicodeDecodeError "invalid start byte")
    end;
  splitlines := lines;
  csv_reader ls := inr ((fun l => split_at "," l EmptyString) <$> ls);
  json_loads s :=
    if String.eqb s doc_object
    then inr (PyDict [("a", PyInt 1); ("b", PyInt 2)])
    else if String.eqb s doc_array
    then inr (PyList [PyInt 1; PyInt 2; PyInt 3])
    else if String.eqb s doc_surrogate
    then inr (PyDictSurrogate [(PyStrSurrogate [55296], PyInt 1)])
    else inl (PyExn JSONDecodeError "Expecting value");
  ET_fromstring s :=
    if String.eqb s doc_xml then inr tree
    else if String.eqb s (nested_xml 1100) then inr (nested_tree 1099)
    else inl (PyExn ParseError "syntax error");
  b64decode bs := inr bs;
  set_temperature_attr :=
    inl (PyExn (OtherException "AttributeError")
           "'dict' object has no attribute 'temperature'");
  remote_generate _ call :=
    match call with
    | GenerateContent _ _ (TextPart s :: _) =>
        inr (mkGenResponse (inr s) (Some (1, 1)))
    | SendMessage _ _ s => inr (mkGenResponse (inr s) None)
    | _ => inl (PyExn (OtherException "InvalidArgument") "empty request")
    end;
  remote_embed _ _ := inr [(1 # 2)%Q; (1 # 4)%Q];
  py_format v := match v with PyStr s => s | _ => type_name v end;
  str_strip s := s;
  str_replace _ _ s := s;
  str_split s := split_at " " s EmptyString;
  unicode_lower s := s;
  unicode_repr s := "'" +:+ s +:+ "'";
  recursion_room := 1000;
  RecursionError_message := "maximum recursion depth exceeded";
  UnicodeEncodeError_message _ :=
    "'utf-8' codec can't encode character: surrogates not allowed"
|}.

Definition table_text : string :=
  "name,qty" +:+ String newline "nut,3" +:+ String newline "bolt,4".

(** A library whose parsers and whose remote service refuse everything. *)
Definition failing : Library := {|
  utcnow_isoformat n := "2024-01-01T00:00:" +:+ pretty n;
  str_HTTPException s d := pretty s +:+ ": " +:+ d;
  repr_float q := pretty (Qfloor q) +:+ ".0";
  Image_open _ :=
    inl (PyExn (OtherException "UnidentifiedImageError")
           "cannot identify image file");
  ZipFile_filelist _ := inl (PyExn BadZipFile "File is not a zip file");
  decode_utf8 _ := inl (PyExn UnicodeDecodeError "invalid start byte");
  splitlines := lines;
  csv_reader _ := inl (PyExn (OtherException "Error") "line contains NUL");
  json_loads _ := inl (PyExn JSONDecodeError "Expecting value");
  ET_fromstring _ := inl (PyExn ParseError "syntax error");
  b64decode _ := inl (PyExn (OtherException "Error") "Incorrect padding");
  set_temperature_attr :=
    inl (PyExn (OtherException "AttributeError")
           "'dict' object has no attribute 'temperature'");
  remote_generate _ _ :=
    inl (PyExn (OtherException "ServiceUnavailable") "503 upstream");
  remote_embed _ _ :=
    inl (PyExn (OtherException "ServiceUnavailable") "503 upstream");
  py_format v := type_name v;
  str_strip s := s;
  str_replace _ _ s := s;
  str_split s := [s];
  unicode_lower s := s;
  unicode_repr s := "'" +:+ s +:+ "'";
  recursion_room := 1000;
  RecursionError_message := "maximum recursion depth exceeded";
  UnicodeEncodeError_message _ :=
    "'utf-8' codec can't encode character: surrogates not allowed"
|}.

(** A library whose remote service answers every request with a blocked
    candidate: reading the text of the response raises. *)
Definition blocked : Library := {|
  utcnow_isoformat n := "2024-01-01T00:00:" +:+ pretty n;
  str_HTTPException s d := pretty s +:+ ": " +:+ d;
  repr_float q := pretty (Qfloor q) +:+ ".0";
  Image_open _ :=
    inl (PyExn (OtherException "UnidentifiedImageError")
           "cannot identify image file");
  ZipFile_filelist _ := inl (PyExn BadZipFile "File is not a zip file");
  decode_utf8 _ := inl (PyExn UnicodeDecodeError "invalid start byte");
  splitlines := lines;
  csv_reader ls := inr ((fun l => [l]) <$> ls);
  json_loads _ := inl (PyExn JSONDecodeError "Expecting value");
  ET_fromstring _ := inl (PyExn ParseError "syntax error");
  b64decode bs := inr bs;
  set_temperature_attr :=
    inl (PyExn (OtherException "AttributeError")
           "'dict' object has no attribute 'temperature'");
  remote_generate _ _ :=
    inr (mkGenResponse
           (inl (PyExn ValueError "response.text requires a valid Part"))
           None);
  remote_embed _ _ := inr [];
  py_format v := type_name v;
  str_strip s := s;
  str_replace _ _ s := s;
  str_split s := [s];
  unicode_lower s := s;
  unicode_repr s := "'" +:+ s +:+ "'";
  recursion_room := 1000;
  RecursionError_message := "maximum recursion depth exceeded";
  UnicodeEncodeError_message _ :=
    "'utf-8' codec can't encode character: surrogates not allowed"
|}.

Definition file (name : string) (text : string) : UploadFile :=
  mkUploadFile name "application/octet-stream" (inr (encode text)).

End Demo.

(** Unfolds the monad operations of a handler and computes, leaving the
    gates and the inspectors folded. *)
Ltac run :=
  unfold try_except, when, raise, lift, read, utcnow, getitem,
    getitem_ordered, key_error, mbind, mret, M_bind, M_ret in *;
  cbn -[Router.validate_file_size Router.validate_file_extension startswith
        Router.size_mb Router.count_elements Router.compression_ratio
        Router.zip_entry Router.find_file_type lower splitext slice len
        Z.add Z.mul Z.ltb] in *.

(* ===================================================================== *)
(** * Rendering a response                                                *)
(* ===================================================================== *)

Section Rendering.
Context `{L : Library}.

(** A content without a lone surrogate is rendered: the response is
    built, with status 200. *)
Lemma JSONResponse_init_encodable (content : pyval) :
  utf8_encodable content = true →
  JSONResponse_init content = inr (mkJSONResponse 200 content).
Proof. intros Hok. unfold JSONResponse_init. by rewrite Hok. Qed.

Lemma JSONResponse_init_surrogate (content : pyval) :
  utf8_encodable content = false →
  JSONResponse_init content
  = inl (PyExn UnicodeEncodeError (UnicodeEncodeError_message content)).
Proof. intros Hno. unfold JSONResponse_init. by rewrite Hno. Qed.

(** Texts can be rendered, and so can rows of texts. *)
Lemma encodable_strs (l : list string) :
  forallb utf8_encodable (PyStr <$> l) = true.
Proof. induction l as [|s l IH]; [reflexivity | exact IH]. Qed.

Lemma encodable_rows (rows : list (list string)) :
  forallb utf8_encodable ((λ row, PyList (PyStr <$> row)) <$> rows) = true.
Proof.
  induction rows as [|row rows IH]; [reflexivity|].
  cbn [fmap list_fmap forallb utf8_encodable].
  fold (fmap PyStr row). rewrite encodable_strs. exact IH.
Qed.

End Rendering.

Create Rewrite HintDb render.
#[global] Hint Rewrite @encodable_strs @encodable_rows : render.

(** Builds the response of a handler whose content holds texts and
    numbers only. *)
Ltac renders :=
  rewrite JSONResponse_init_encodable
    by (cbn [utf8_encodable forallb andb]; autorewrite with render;
        reflexivity).

(** Unfolds the operations of a gateway method and projects the world. *)
Ltac gateway :=
  unfold Gemini.guarded, try_except, when, Gemini.generate_content,
    Gemini.send, Gemini.append_message, Gemini.get_history,
    Gemini.set_history, Gemini.set_temperature, modify, lift, utcnow,
    getitem_ordered, key_error, raise, Gemini.failure, mbind, mret, M_bind,
    M_ret in *;
  cbv beta iota zeta;
  cbn [fst snd clock reads net chat_history temperature_pro
       temperature_flash].

(* ===================================================================== *)
(** * The upload pipeline: size and extension gates                       *)
(* ===================================================================== *)

Section RouterGates.
Context `{L : Library}.

Import Router.

(** Each of the ten routes has a size limit and an extension list. *)
Lemma size_limit_known (c : category) :
  ∃ limit, MAX_FILE_SIZE !! key c = Some limit.
Proof. destruct c; vm_compute; eauto. Qed.

Lemma extensions_known (c : category) :
  ∃ exts, dict_get (key c) ALLOWED_EXTENSIONS = Some exts.
Proof. destruct c; vm_compute; eauto. Qed.

(** A filename outside the category's extension list: the 400 raised by the
    gate is caught by the handler's own [except Exception] and leaves as a
    500, on each of the ten routes. *)
Lemma upload_bad_extension_status (c : category) (file : UploadFile) (w : World) :
  validate_file_extension (filename file) (key c) = false →
  http_status (upload c file w).1 = 500 ∧ (upload c file w).2 = w.
Proof.
  intros Hext.
  destruct c; cbn [key upload] in *;
    unfold upload_image, upload_video, upload_zip, upload_pdf, upload_excel,
      upload_csv, upload_word, upload_audio, upload_json, upload_xml,
      formats_detail;
    rewrite Hext; run; cbn; auto.
Qed.

(** A payload above the category's limit, under an accepted name: the 413
    is caught the same way and leaves as a 500. *)
Lemma upload_too_large_status (c : category) (file : UploadFile)
    (contents : list byte) (w : World) :
  validate_file_extension (filename file) (key c) = true →
  body file = inr contents →
  validate_file_size contents (key c) = false →
  http_status (upload c file w).1 = 500.
Proof.
  intros Hext Hbody Hsize.
  destruct c; cbn [key upload] in *;
    unfold upload_image, upload_video, upload_zip, upload_pdf, upload_excel,
      upload_csv, upload_word, upload_audio, upload_json, upload_xml,
      too_large_detail;
    rewrite Hext; run; rewrite Hbody, Hsize; cbn; auto.
Qed.

(** A document the JSON parser refuses: the 400 raised in the inner
    [except json.JSONDecodeError] is still inside the outer [try], and
    leaves as a 500 as well. *)
Lemma upload_json_malformed_status (file : UploadFile) (contents : list byte)
    (text msg : string) (w : World) :
  validate_file_extension (filename file) "json" = true →
  body file = inr contents →
  validate_file_size contents "json" = true →
  decode_utf8 contents = inr text →
  json_loads text = inl (PyExn JSONDecodeError msg) →
  http_status (upload_json file w).1 = 500.
Proof.
  intros Hext Hbody Hsize Hdec Hjson. unfold upload_json.
  rewrite Hext. run. rewrite Hbody, Hsize. run. rewrite Hdec. run.
  rewrite Hjson. reflexivity.
Qed.

(** Undecodable bytes are refused with the 400 of the handler's
    [except UnicodeDecodeError] clause, which is raised outside the [try]. *)
Lemma upload_json_encoding_status (file : UploadFile) (contents : list byte)
    (msg : string) (w : World) :
  validate_file_extension (filename file) "json" = true →
  body file = inr contents →
  validate_file_size contents "json" = true →
  decode_utf8 contents = inl (PyExn UnicodeDecodeError msg) →
  http_status (upload_json file w).1 = 400.
Proof.
  intros Hext Hbody Hsize Hdec. unfold upload_json.
  rewrite Hext. run. rewrite Hbody, Hsize. run. rewrite Hdec. reflexivity.
Qed.

End RouterGates.

(** [os.path.splitext] on a few names: the last dot of the last path
    component starts the extension, leading dots do not. *)
Example splitext_examples :
  splitext "report.final.PDF" = ("report.final", ".PDF")
  ∧ splitext ".bashrc" = (".bashrc", EmptyString)
  ∧ splitext "..pdf" = ("..pdf", EmptyString)
  ∧ splitext "backup.d/notes" = ("backup.d/notes", EmptyString)
  ∧ splitext "backup/.hidden.txt" = ("backup/.hidden", ".txt").
Proof. by vm_compute. Qed.

(** The extension gate compares the lower-cased suffix. *)
Example validate_file_extension_examples (L : Library) :
  Router.validate_file_extension "PHOTO.JPG" "image" = true
  ∧ Router.validate_file_extension "photo.jpg" "video" = false
  ∧ Router.validate_file_extension "photo" "image" = false
  ∧ Router.validate_file_extension "photo.jpg" "picture" = false.
Proof. by vm_compute. Qed.

(** A name without a suffix passes no extension gate. *)
Lemma validate_file_extension_no_suffix (L : Library)
    (filename file_type : string) :
  (splitext filename).2 = EmptyString →
  Router.validate_file_extension filename file_type = false.
Proof.
  intros Hext. unfold Router.validate_file_extension. rewrite Hext.
  unfold Router.ALLOWED_EXTENSIONS, lower.
  cbn [is_ascii ascii_lower dict_get].
  repeat (destruct (String.eqb file_type _); [reflexivity|]).
  reflexivity.
Qed.

(** C10. [validate_file_size] returns for every payload and every string;
    for a key that is not in [MAX_FILE_SIZE] the answer is whether the
    payload has at most 5 * 1024 * 1024 bytes. *)
Theorem validate_file_size_unknown_key (file_content : list byte)
    (file_type : string) :
  Router.MAX_FILE_SIZE !! file_type = None →
  (Router.validate_file_size file_content file_type = true
   ↔ len file_content <= 5 * 1024 * 1024).
Proof.
  intros Hkey. unfold Router.validate_file_size. rewrite Hkey. cbn [default].
  apply Z.leb_le.
Qed.

Lemma validate_file_size_unknown_key_witness :
  Router.validate_file_size [x25; x50] "text" = true
  ↔ len [x25; x50] <= 5 * 1024 * 1024.
Proof.
  apply (validate_file_size_unknown_key [x25; x50] "text").
  vm_compute. reflexivity.
Defined.

Section RouterFailures.
Context `{L : Library}.

Import Router.

Lemma len_zeros (n : Z) : 0 <= n → len (zeros n) = n.
Proof.
  intros Hn. unfold len, zeros. rewrite length_replicate. lia.
Qed.

Lemma zeros_too_large (c : category) (n limit : Z) :
  MAX_FILE_SIZE !! key c = Some limit → limit < n →
  validate_file_size (zeros n) (key c) = false.
Proof.
  intros Hlimit Hlt. unfold validate_file_size. rewrite Hlimit. unfold default, id. cbn [from_option].
  assert (0 <= limit) by (destruct c; vm_compute in Hlimit; simplify_eq; lia).
  rewrite len_zeros by lia. apply Z.leb_gt. lia.
Qed.

End RouterFailures.

(** C1. What the single-file routes answer when a gate fails: a text file
    posted to [/files/upload/image] and a JSON file one byte above its
    5 MB limit both get status 500, where the handlers construct a 400 and
    a 413. *)
Theorem upload_gate_failures_answer_500 :
  ∀ (L : Library) (w : World),
    http_status
      (upload Image (mkUploadFile "notes.txt" "text/plain" (inr [])) w).1 = 500
    ∧ http_status
        (upload Json
           (mkUploadFile "big.json" "application/json"
              (inr (zeros (5 * 1024 * 1024 + 1)))) w).1 = 500.
Proof.
  intros L w. split.
  - apply upload_bad_extension_status. vm_compute. reflexivity.
  - eapply upload_too_large_status.
    + vm_compute. reflexivity.
    + reflexivity.
    + eapply (zeros_too_large Json); [vm_compute; reflexivity | lia].
Qed.

(* ===================================================================== *)
(** * PDF: the signature check                                            *)
(* ===================================================================== *)

Section RouterPdf.
Context `{L : Library}.

Import Router.

Lemma byte_eqb_eq (x y : byte) : Byte.eqb x y = true ↔ x = y.
Proof. split; [apply byte_dec_bl | apply byte_dec_lb]. Qed.

(** [startswith] looks at the first [length pre] bytes only. *)
Lemma startswith_app (pre rest : list byte) : startswith (pre ++ rest) pre = true.
Proof.
  induction pre as [|p pre IH]; [done|].
  cbn. rewrite IH, andb_true_r. by apply byte_eqb_eq.
Qed.

Lemma startswith_take (s pre : list byte) :
  startswith s pre = true ↔ take (length pre) s = pre.
Proof.
  revert s. induction pre as [|p pre IH]; intros s; cbn.
  - by rewrite take_0.
  - destruct s as [|c s]; cbn; [split; done|].
    rewrite andb_true_iff, IH, byte_eqb_eq.
    split; [intros [-> ->]; done | intros [= -> ->]; done].
Qed.

(** An accepted, small enough upload that starts with [%PDF] is answered
    200 with [is_valid] true, whatever follows the signature. *)
Lemma upload_pdf_signature_accepted (file : UploadFile) (contents : list byte)
    (w : World) :
  validate_file_extension (filename file) "pdf" = true →
  body file = inr contents →
  validate_file_size contents "pdf" = true →
  startswith contents PDF_SIGNATURE = true →
  http_status (upload_pdf file w).1 = 200
  ∧ data_field "is_valid" (upload_pdf file w).1 = Some (PyBool true).
Proof.
  intros Hext Hbody Hsize Hsig. unfold upload_pdf, generate_response.
  rewrite Hext. run. rewrite Hbody, Hsize. run. rewrite Hsig. run. auto.
Qed.

(** Without the signature, the 400 raised by the check is caught by the
    handler's [except Exception] and re-raised as a 500. *)
Lemma upload_pdf_signature_missing (file : UploadFile) (contents : list byte)
    (w : World) :
  validate_file_extension (filename file) "pdf" = true →
  body file = inr contents →
  validate_file_size contents "pdf" = true →
  startswith contents PDF_SIGNATURE = false →
  (upload_pdf file w).1 =
    inl (HTTPException 500
           ("Error al procesar PDF: "
            +:+ str (HTTPException 400 "El archivo no es un PDF válido"))).
Proof.
  intros Hext Hbody Hsize Hsig. unfold upload_pdf.
  rewrite Hext. run. rewrite Hbody, Hsize. run. rewrite Hsig. run.
  reflexivity.
Qed.

End RouterPdf.

(** C9. [/files/upload/pdf] on two five-byte payloads named [report.pdf]:
    [%PDF] followed by a zero byte is answered 200 with [is_valid] true;
    [hello] is answered with status 500, the handler's 400 "El archivo no
    es un PDF válido" having been caught and wrapped. *)
Theorem upload_pdf_signature_check :
  ∀ (L : Library) (w : World),
    let pdf := mkUploadFile "report.pdf" "application/pdf"
                 (inr [x25; x50; x44; x46; x00]) in
    let txt := mkUploadFile "report.pdf" "application/pdf"
                 (inr [x68; x65; x6c; x6c; x6f]) in
    (http_status (Router.upload_pdf pdf w).1 = 200
     ∧ data_field "is_valid" (Router.upload_pdf pdf w).1 = Some (PyBool true))
    ∧ (Router.upload_pdf txt w).1 =
        inl (HTTPException 500
               ("Error al procesar PDF: "
                +:+ str_HTTPException 400 "El archivo no es un PDF válido"))
    ∧ http_status (Router.upload_pdf txt w).1 = 500.
Proof.
  intros L w pdf txt.
  assert (Hext : Router.validate_file_extension "report.pdf" "pdf" = true)
    by (vm_compute; reflexivity).
  split; [|split].
  - by apply (upload_pdf_signature_accepted pdf [x25; x50; x44; x46; x00]).
  - by apply (upload_pdf_signature_missing txt [x68; x65; x6c; x6c; x6f]).
  - by rewrite (upload_pdf_signature_missing txt [x68; x65; x6c; x6c; x6f]).
Qed.

(* ===================================================================== *)
(** * ZIP: the ratio reported for an entry                                *)
(* ===================================================================== *)

Section Rounding.
Local Open Scope Q_scope.

Lemma round_half_even_bounds (x : Q) :
  x - (1 # 2) <= inject_Z (round_half_even x)
  ∧ inject_Z (round_half_even x) <= x + (1 # 2).
Proof.
  unfold round_half_even.
  pose proof (Qfloor_le x) as Hlo. pose proof (Qlt_floor x) as Hhi.
  rewrite inject_Z_plus in Hhi. change (inject_Z 1) with 1 in Hhi.
  destruct (Qcompare (x - inject_Z (Qfloor x)) (1 # 2)) eqn:Hcmp.
  - apply Qeq_alt in Hcmp.
    destruct (Z.even (Qfloor x)); rewrite ?inject_Z_plus;
      change (inject_Z 1) with 1; split; lra.
  - apply Qlt_alt in Hcmp. split; lra.
  - apply Qgt_alt in Hcmp. rewrite inject_Z_plus.
    change (inject_Z 1) with 1. split; lra.
Qed.

(** [round(x, 2)] is within half a hundredth of [x]. *)
Lemma round2_bounds (x : Q) :
  x - (1 # 200) <= round2 x ∧ round2 x <= x + (1 # 200).
Proof.
  destruct (round_half_even_bounds (x * inject_Z 100)) as [Hlo Hhi].
  assert (Hr : round2 x == inject_Z (round_half_even (x * inject_Z 100)) / 100)
    by (unfold round2; apply Qmake_Qdiv).
  rewrite Hr. clear Hr.
  set (r := inject_Z (round_half_even (x * inject_Z 100))) in *.
  change (inject_Z 100) with 100 in *.
  split.
  - apply Qle_shift_div_l; [reflexivity | lra].
  - apply Qle_shift_div_r; [reflexivity | lra].
Qed.

(** A value with at most two decimals is left as it is. *)
Lemma round2_hundredths (n : Z) : round2 (n # 100) == n # 100.
Proof.
  unfold round2.
  assert (Hx : (n # 100) * inject_Z 100 == inject_Z n).
  { rewrite (Qmake_Qdiv n 100). change (inject_Z (Z.pos 100)) with (inject_Z 100).
    field. }
  assert (Hr : round_half_even ((n # 100) * inject_Z 100) = n).
  { unfold round_half_even.
    assert (Hf : Qfloor ((n # 100) * inject_Z 100) = n).
    { rewrite Hx. apply Qfloor_Z. }
    rewrite Hf.
    assert (Hc : Qcompare ((n # 100) * inject_Z 100 - inject_Z n) (1 # 2) = Lt).
    { apply (proj1 (Qlt_alt _ _)). rewrite Hx. lra. }
    by rewrite Hc. }
  by rewrite Hr.
Qed.


(** ** Binary64 rounding *)

Lemma pow2_nonneg_exponent (k : Z) : (0 <= k)%Z → pow2 k = inject_Z (2 ^ k).
Proof. intros Hk. unfold pow2. by destruct (Z.leb_spec 0 k); [|lia]. Qed.

(** A number of magnitude at most 128 has its last significand bit at
    [2^-45] or below. *)
Lemma binary64_scale_small (x : Q) :
  ¬ x == 0 → -(128) <= x → x <= 128 → (45 <= binary64_scale x)%Z.
Proof.
  intros Hx Hlo Hhi. unfold binary64_scale. cbv zeta.
  apply Z.min_glb; [|lia].
  destruct x as [n d]. cbn [Qabs Qnum Qden].
  assert (Hn : (0 < Z.abs n)%Z).
  { destruct (Z.eq_dec n 0%Z) as [->|]; [|lia]. by destruct Hx. }
  assert (Hle : (Z.abs n <= Z.pos d * 2 ^ 7)%Z).
  { unfold Qle in Hlo, Hhi. cbn in Hlo, Hhi. lia. }
  assert (Hlog : (Z.log2 (Z.abs n) <= 7 + Z.log2 (Z.pos d))%Z).
  { rewrite <- Z.log2_mul_pow2 by lia. by apply Z.log2_le_mono. }
  destruct (Qle_bool _ _); lia.
Qed.

(** Rounding a number of magnitude at most 128 to binary64 moves it by at
    most [2^-46]. *)
Lemma binary64_near (x : Q) :
  -(128) <= x → x <= 128 →
  binary64 x - x <= 1 # 70368744177664
  ∧ x - binary64 x <= 1 # 70368744177664.
Proof.
  intros Hlo Hhi. unfold binary64.
  destruct (Qeq_bool x 0) eqn:Hzero.
  - apply Qeq_bool_iff in Hzero. split; lra.
  - assert (Hx : ¬ x == 0).
    { intros H0. apply Qeq_bool_iff in H0. congruence. }
    pose proof (binary64_scale_small x Hx Hlo Hhi) as Hs.
    set (s := binary64_scale x) in *. cbv zeta.
    rewrite (pow2_nonneg_exponent s) by lia.
    assert (Hp : inject_Z (2 ^ 45) <= inject_Z (2 ^ s)).
    { rewrite <- Zle_Qle. apply Z.pow_le_mono_r; lia. }
    set (p := inject_Z (2 ^ s)) in *.
    change (inject_Z (2 ^ 45)) with 35184372088832 in Hp.
    destruct (round_half_even_bounds (x * p)) as [Hdown Hup].
    set (m := inject_Z (round_half_even (x * p))) in *.
    assert (Hpos : 0 < p) by lra.
    assert (Hhigh : m / p <= x + (1 # 70368744177664)).
    { apply Qle_shift_div_r; [exact Hpos|]. lra. }
    assert (Hlow : x - (1 # 70368744177664) <= m / p).
    { apply Qle_shift_div_l; [exact Hpos|]. lra. }
    split; lra.
Qed.

(** The percentage as the three float operations compute it, for an entry
    that did not grow, is within [201 * 2^-46] of the exact one. *)
Lemma float_percentage_near (c u : Z) :
  (0 <= c <= u)%Z → (0 < u)%Z →
  let exact := (1 - inject_Z c / inject_Z u) * inject_Z 100 in
  let computed :=
    float_mul (float_sub 1 (float_truediv c u)) (inject_Z 100) in
  computed - exact <= 1 # 274877906944
  ∧ exact - computed <= 1 # 274877906944.
Proof.
  intros Hc Hu exact computed. subst exact computed.
  unfold float_mul, float_sub, float_truediv.
  set (x := inject_Z c / inject_Z u).
  assert (Hx : 0 <= x ∧ x <= 1).
  { subst x. assert (0 < inject_Z u) by (rewrite <- (Zlt_Qlt 0); lia).
    split.
    - apply Qle_shift_div_l; [done|]. rewrite Qmult_0_l.
      rewrite <- (Zle_Qle 0). lia.
    - apply Qle_shift_div_r; [done|]. rewrite Qmult_1_l.
      rewrite <- Zle_Qle. lia. }
  destruct Hx as [Hx0 Hx1].
  destruct (binary64_near x) as [H1a H1b]; [lra | lra |].
  set (f1 := binary64 x) in *.
  destruct (binary64_near (1 - f1)) as [H2a H2b]; [lra | lra |].
  set (f2 := binary64 (1 - f1)) in *.
  change (inject_Z 100) with 100.
  destruct (binary64_near (f2 * 100)) as [H3a H3b]; [lra | lra |].
  set (f3 := binary64 (f2 * 100)) in *.
  split; lra.
Qed.

End Rounding.

Section RouterZip.
Context `{L : Library}.

Import Router.

Lemma compression_ratio_empty (info : ZipInfo) :
  file_size info <= 0 → compression_ratio info = PyInt 0.
Proof.
  intros Hz. unfold compression_ratio.
  destruct (Z.ltb_spec 0 (file_size info)); [lia | reflexivity].
Qed.

Lemma compression_ratio_nonempty (info : ZipInfo) :
  0 < file_size info →
  compression_ratio info
  = PyFloat
      (round2
         (float_mul
            (float_sub 1 (float_truediv (compress_size info) (file_size info)))
            (inject_Z 100))).
Proof.
  intros Hz. unfold compression_ratio.
  destruct (Z.ltb_spec 0 (file_size info)); [reflexivity | lia].
Qed.

(** The entries of an archive are numbers and names: they can be
    rendered. *)
Lemma zip_entries_encodable (filelist : list ZipInfo) :
  forallb utf8_encodable (zip_entry <$> filelist) = true.
Proof.
  induction filelist as [|info filelist IH]; [reflexivity|].
  cbn [fmap list_fmap forallb]. fold (fmap zip_entry filelist).
  rewrite IH, andb_true_r. unfold zip_entry, compression_ratio.
  by destruct (0 <? file_size info).
Qed.

Lemma upload_zip_files (file : UploadFile) (contents : list byte)
    (filelist : list ZipInfo) (w : World) :
  validate_file_extension (filename file) "zip" = true →
  body file = inr contents →
  validate_file_size contents "zip" = true →
  ZipFile_filelist contents = inr filelist →
  http_status (upload_zip file w).1 = 200
  ∧ data_field "files" (upload_zip file w).1
    = Some (PyList (zip_entry <$> filelist)).
Proof.
  intros Hext Hbody Hsize Hzip.
  unfold upload_zip, generate_response, JSONResponse_init.
  rewrite Hext. run. rewrite Hbody, Hsize. run. rewrite Hzip. run.
  rewrite zip_entries_encodable. auto.
Qed.

End RouterZip.

(** C4 (as amended).  For every entry of a ZIP upload that passes the gates
    and opens, the reported [compression_ratio] is the integer 0 when the
    entry's uncompressed size is 0; otherwise it is the percentage
    [(1 - compressed/uncompressed) * 100], each of its three operations
    rounded to binary64, rounded to two decimals.  For an entry that did
    not grow, that is within [0.005 + 2^-38] of the exact percentage. *)
Theorem upload_zip_compression_ratio (L : Library) (file : UploadFile)
    (contents : list byte) (filelist : list ZipInfo) (w : World) :
  Router.validate_file_extension (filename file) "zip" = true →
  body file = inr contents →
  Router.validate_file_size contents "zip" = true →
  ZipFile_filelist contents = inr filelist →
  Forall zip_sizes filelist →
  ∃ entries : list pyval,
    data_field "files" (Router.upload_zip file w).1 = Some (PyList entries)
    ∧ length entries = length filelist
    ∧ ∀ (i : nat) (info : ZipInfo), filelist !! i = Some info →
        ∃ entry, entries !! i = Some entry
          ∧ (file_size info = 0 →
             field "compression_ratio" entry = Some (PyInt 0))
          ∧ (0 < file_size info →
             ∃ r : Q, field "compression_ratio" entry = Some (PyFloat r)
               ∧ r = round2
                       (float_mul
                          (float_sub 1
                             (float_truediv (compress_size info)
                                (file_size info)))
                          (inject_Z 100))
               ∧ (compress_size info <= file_size info →
                  (saved_percent info - (1 # 200) - (1 # 274877906944) <= r)%Q
                  ∧ (r <= saved_percent info + (1 # 200)
                          + (1 # 274877906944))%Q)).
Proof.
  intros Hext Hbody Hsize Hzip Hsizes.
  destruct (upload_zip_files file contents filelist w Hext Hbody Hsize Hzip)
    as [_ Hfiles].
  exists (Router.zip_entry <$> filelist). split; [exact Hfiles|].
  split; [apply length_fmap|].
  intros i info Hi. exists (Router.zip_entry info).
  split; [by rewrite list_lookup_fmap, Hi|].
  split.
  - intros Hz. cbn. rewrite compression_ratio_empty by lia. reflexivity.
  - intros Hz. eexists.
    split; [cbn; by rewrite compression_ratio_nonempty|].
    split; [reflexivity|]. intros Hle.
    eapply Forall_lookup_1 in Hsizes as [[Hc _] _]; [|exact Hi].
    destruct (float_percentage_near (compress_size info) (file_size info))
      as [Hup Hdown]; [lia | lia |].
    cbv zeta in Hup, Hdown. fold (saved_percent info) in Hup, Hdown.
    match goal with
    | |- context [round2 ?f] =>
        destruct (round2_bounds f) as [Hlo Hhi]; set (computed := f) in *
    end.
    split; lra.
Qed.

Lemma upload_zip_compression_ratio_witness :
  let file := mkUploadFile "backup.zip" "application/zip"
                (inr Demo.archive_bytes) in
  ∃ entries : list pyval,
    data_field "files"
      (Router.upload_zip (L := Demo.library) file initial_world).1
    = Some (PyList entries)
    ∧ length entries = length Demo.archive
    ∧ ∀ (i : nat) (info : ZipInfo), Demo.archive !! i = Some info →
        ∃ entry, entries !! i = Some entry
          ∧ (file_size info = 0 →
             field "compression_ratio" entry = Some (PyInt 0))
          ∧ (0 < file_size info →
             ∃ r : Q, field "compression_ratio" entry = Some (PyFloat r)
               ∧ r = round2
                       (float_mul
                          (float_sub 1
                             (float_truediv (compress_size info)
                                (file_size info)))
                          (inject_Z 100))
               ∧ (compress_size info <= file_size info →
                  (saved_percent info - (1 # 200) - (1 # 274877906944) <= r)%Q
                  ∧ (r <= saved_percent info + (1 # 200)
                          + (1 # 274877906944))%Q)).
Proof.
  apply (upload_zip_compression_ratio Demo.library
           (mkUploadFile "backup.zip" "application/zip"
              (inr Demo.archive_bytes))
           Demo.archive_bytes Demo.archive initial_world).
  - vm_compute. reflexivity.
  - reflexivity.
  - vm_compute. reflexivity.
  - vm_compute. reflexivity.
  - unfold Demo.archive, zip_sizes. repeat constructor; cbn; lia.
Defined.

(** C4, as stated, fails: an entry of 100 bytes stored in 50 is reported
    with ratio 50, not 1 - 50/100. *)
Lemma upload_zip_ratio_is_a_percentage :
  ∃ (entry : pyval) (r : Q),
    data_field "files"
      (Router.upload_zip (L := Demo.library)
         (mkUploadFile "backup.zip" "application/zip"
            (inr Demo.archive_bytes)) initial_world).1
    ≫= (λ files, match files with PyList l => l !! 0%nat | _ => None end)
    = Some entry
    ∧ field "filename" entry = Some (PyStr "half.txt")
    ∧ field "size_bytes" entry = Some (PyInt 100)
    ∧ field "compressed_size" entry = Some (PyInt 50)
    ∧ field "compression_ratio" entry = Some (PyFloat r)
    ∧ (r == 50)%Q
    ∧ ¬ (r == 1 - inject_Z 50 / inject_Z 100)%Q.
Proof.
  eexists _, _. split; [vm_compute; reflexivity|].
  repeat split; try (vm_compute; congruence).
Qed.

(** The entry of 160 bytes stored in 67: the exact percentage is 58.125,
    the three float operations give a little more, and the ratio reported
    is 58.13, not the 58.12 that rounding the exact value would give. *)
Example upload_zip_ratio_is_computed_in_binary64 :
  let info := mkZipInfo "notes.log" 160 67 in
  (saved_percent info == 58125 # 1000)%Q
  ∧ (round2 (saved_percent info) == 5812 # 100)%Q
  ∧ ∃ r, Router.compression_ratio info = PyFloat r ∧ (r == 5813 # 100)%Q.
Proof.
  split; [by vm_compute|]. split; [by vm_compute|].
  eexists. split; [reflexivity|]. by vm_compute.
Qed.

(* ===================================================================== *)
(** * CSV: row total and preview                                          *)
(* ===================================================================== *)

Section RouterCsv.
Context `{L : Library}.

Import Router.

(** [rows[1:6] if len(rows) > 1 else []] on a table with a header row. *)
Lemma preview_slice {A} (header : A) (data_rows : list A) :
  (if 1 <? len (header :: data_rows) then slice 1 6 (header :: data_rows)
   else []) = take 5 data_rows.
Proof.
  unfold slice, len. cbn [length drop Nat.sub].
  destruct data_rows as [|row rest]; [reflexivity|].
  destruct (Z.ltb_spec 1 (Z.of_nat (S (length (row :: rest))))) as [_|Hle].
  - reflexivity.
  - cbn [length] in Hle. lia.
Qed.

Lemma upload_csv_info (file : UploadFile) (contents : list byte)
    (text : string) (rows : list (list string)) (w : World) :
  validate_file_extension (filename file) "csv" = true →
  body file = inr contents →
  validate_file_size contents "csv" = true →
  decode_utf8 contents = inr text →
  csv_reader (splitlines text) = inr rows →
  let r := (upload_csv file w).1 in
  http_status r = 200
  ∧ data_field "total_rows" r = Some (PyInt (len rows))
  ∧ data_field "columns" r
    = Some (py_row (match rows with [] => [] | row :: _ => row end))
  ∧ data_field "preview_rows" r
    = Some (PyList (py_row <$> (if 1 <? len rows then slice 1 6 rows else []))).
Proof.
  intros Hext Hbody Hsize Hdec Hcsv. unfold upload_csv, generate_response.
  rewrite Hext. run. rewrite Hbody, Hsize. run. rewrite Hdec. run.
  rewrite Hcsv. run. renders. auto.
Qed.

End RouterCsv.

(** C6. A CSV upload that passes the gates, decodes and parses into a
    header row followed by [R] data rows reports [total_rows = R + 1], the
    header as [columns], and as preview the first [min(R, 5)] data rows:
    entry [i] of the preview is row [i + 1] of the file, so the header is
    never part of it. *)
Theorem upload_csv_rows_and_preview (L : Library) (file : UploadFile)
    (contents : list byte) (text : string) (header : list string)
    (data_rows : list (list string)) (w : World) :
  Router.validate_file_extension (filename file) "csv" = true →
  body file = inr contents →
  Router.validate_file_size contents "csv" = true →
  decode_utf8 contents = inr text →
  csv_reader (splitlines text) = inr (header :: data_rows) →
  let r := (Router.upload_csv file w).1 in
  data_field "total_rows" r = Some (PyInt (len data_rows + 1))
  ∧ data_field "columns" r = Some (py_row header)
  ∧ ∃ preview : list (list string),
      data_field "preview_rows" r = Some (PyList (py_row <$> preview))
      ∧ preview = take 5 data_rows
      ∧ len preview = Z.min (len data_rows) 5
      ∧ ∀ (i : nat) (row : list string), preview !! i = Some row →
          (header :: data_rows) !! S i = Some row.
Proof.
  intros Hext Hbody Hsize Hdec Hcsv r.
  destruct (upload_csv_info file contents text (header :: data_rows) w
              Hext Hbody Hsize Hdec Hcsv) as (_ & Htotal & Hcols & Hprev).
  fold r in Htotal, Hcols, Hprev.
  split; [|split; [exact Hcols|]].
  - rewrite Htotal. do 2 f_equal. unfold len. cbn [length]. lia.
  - exists (take 5 data_rows). rewrite preview_slice in Hprev.
    split; [exact Hprev|]. split; [reflexivity|]. split.
    + unfold len. rewrite length_take. lia.
    + intros i row Hi. cbn. by apply lookup_take_Some in Hi as [? _].
Qed.

Lemma upload_csv_rows_and_preview_witness :
  let r := (Router.upload_csv (L := Demo.library)
              (Demo.file "stock.csv" Demo.table_text) initial_world).1 in
  let data_rows := [["nut"; "3"]; ["bolt"; "4"]] in
  data_field "total_rows" r = Some (PyInt (len data_rows + 1))
  ∧ data_field "columns" r = Some (py_row ["name"; "qty"])
  ∧ ∃ preview : list (list string),
      data_field "preview_rows" r = Some (PyList (py_row <$> preview))
      ∧ preview = take 5 data_rows
      ∧ len preview = Z.min (len data_rows) 5
      ∧ ∀ (i : nat) (row : list string), preview !! i = Some row →
          (["name"; "qty"] :: data_rows) !! S i = Some row.
Proof.
  apply (upload_csv_rows_and_preview Demo.library
           (Demo.file "stock.csv" Demo.table_text)
           (Demo.encode Demo.table_text) Demo.table_text).
  - vm_compute. reflexivity.
  - reflexivity.
  - vm_compute. reflexivity.
  - vm_compute. reflexivity.
  - vm_compute. reflexivity.
Defined.

(* ===================================================================== *)
(** * XML: element count and root attributes                              *)
(* ===================================================================== *)

Section ElementTrees.










End ElementTrees.

Section RouterXml.
Context `{L : Library}.

Import Router.






End RouterXml.




(** The tree of four elements [<r id='7'><a><b/></a><c/></r>] is counted
    as 4, and its root attributes are reported as [{id: 7}]. *)
Example upload_xml_four_elements :
  let r := (Router.upload_xml (L := Demo.library)
              (Demo.file "doc.xml" Demo.doc_xml) initial_world).1 in
  data_field "total_elements" r = Some (PyInt 4)
  ∧ data_field "root_attributes" r = Some (PyDict [("id", PyStr "7")])
  ∧ paths Demo.tree = [[]; [0]; [0; 0]; [1]]%nat.
Proof. vm_compute. auto. Qed.

(* ===================================================================== *)
(** * JSON: keys of a mapping, length of a sequence                       *)
(* ===================================================================== *)

Section RouterJson.
Context `{L : Library}.

Import Router.

Lemma dict_get_is_Some {V} (k : string) (d : list (string * V)) :
  is_Some (dict_get k d) ↔ k ∈ dict_keys d.
Proof.
  unfold dict_keys. induction d as [|[k' v] d IH]; cbn.
  - split; [by intros [] | by intros ?%elem_of_nil].
  - rewrite elem_of_cons, <- IH. destruct (String.eqb_spec k k').
    + split; [by left | by eauto].
    + split; [by right | by intros [|]].
Qed.

(** The reply to a JSON upload that passes the gates, decodes and parses
    into a document whose keys can be rendered: the five common fields,
    then those of [json_structure]. *)
Lemma upload_json_info (file : UploadFile) (contents : list byte)
    (text : string) (json_data : pyval) (w : World) :
  validate_file_extension (filename file) "json" = true →
  body file = inr contents →
  validate_file_size contents "json" = true →
  decode_utf8 contents = inr text →
  json_loads text = inr json_data →
  keys_encodable json_data = true →
  ∃ resp, (upload_json file w).1 = inr resp
    ∧ status_code_of resp = 200
    ∧ field "data" (content resp) =
        Some (PyDict
                (fold_left (λ d kv, dict_set kv.1 kv.2 d)
                   (json_structure json_data)
                   [ ("filename", PyStr (filename file));
                     ("size_bytes", PyInt (len contents));
                     ("size_mb", PyFloat (size_mb contents));
                     ("data_type", PyStr (type_name json_data));
                     ("is_valid", PyBool true) ])).
Proof.
  intros Hext Hbody Hsize Hdec Hjson Hkeys.
  unfold upload_json, generate_response.
  rewrite Hext. run. rewrite Hbody, Hsize. run. rewrite Hdec. run.
  rewrite Hjson. run.
  destruct json_data; run;
    (rewrite ?JSONResponse_init_encodable
       by (cbn [utf8_encodable forallb andb]; autorewrite with render;
           rewrite ?Hkeys; reflexivity));
    eexists; (split; [reflexivity|]); by split.
Qed.

(** A mapping with a lone surrogate in a key parses, but its keys cannot
    be rendered: [JSONResponse] raises inside the handler's [try], and the
    upload is answered with a 500. *)
Lemma upload_json_unencodable (file : UploadFile) (contents : list byte)
    (text : string) (json_data : pyval) (w : World) :
  validate_file_extension (filename file) "json" = true →
  body file = inr contents →
  validate_file_size contents "json" = true →
  decode_utf8 contents = inr text →
  json_loads text = inr json_data →
  keys_encodable json_data = false →
  ∃ content,
    (upload_json file w).1
    = inl (HTTPException 500
             ("Error al procesar JSON: "
              +:+ UnicodeEncodeError_message content)).
Proof.
  intros Hext Hbody Hsize Hdec Hjson Hkeys.
  unfold upload_json, generate_response.
  rewrite Hext. run. rewrite Hbody, Hsize. run. rewrite Hdec. run.
  rewrite Hjson. run.
  destruct json_data; try discriminate. run.
  rewrite JSONResponse_init_surrogate
    by (cbn [utf8_encodable forallb andb]; by rewrite Hkeys).
  eexists. reflexivity.
Qed.

End RouterJson.

(** C8 (as amended).  A JSON upload that passes the gates, decodes and
    parses: when the top-level value is a mapping whose keys have no lone
    surrogate, [keys] lists its keys, which are exactly the keys the
    mapping has a value for, and [key_count] is their number; when it is a
    sequence, [array_length] is its number of elements.  A mapping with a
    lone surrogate in a key is answered with a 500. *)
Theorem upload_json_keys_and_length (L : Library) (file : UploadFile)
    (contents : list byte) (text : string) (json_data : pyval) (w : World) :
  Router.validate_file_extension (filename file) "json" = true →
  body file = inr contents →
  Router.validate_file_size contents "json" = true →
  decode_utf8 contents = inr text →
  json_loads text = inr json_data →
  let r := (Router.upload_json file w).1 in
  match json_data with
  | PyDict d =>
      data_field "keys" r = Some (PyList (PyStr <$> dict_keys d))
      ∧ data_field "key_count" r = Some (PyInt (len (dict_keys d)))
      ∧ ∀ k, k ∈ dict_keys d ↔ is_Some (dict_get k d)
  | PyList l => data_field "array_length" r = Some (PyInt (len l))
  | PyDictSurrogate d =>
      if forallb utf8_encodable d.*1
      then data_field "keys" r = Some (PyList d.*1)
           ∧ data_field "key_count" r = Some (PyInt (len d))
      else http_status r = 500 ∧ data_field "keys" r = None
  | _ => True
  end.
Proof.
  intros Hext Hbody Hsize Hdec Hjson r.
  destruct (keys_encodable json_data) eqn:Hkeys.
  - destruct (upload_json_info file contents text json_data w
                Hext Hbody Hsize Hdec Hjson Hkeys) as (resp & Hr & _ & Hdata).
    subst r. rewrite Hr. unfold data_field. rewrite Hdata.
    destruct json_data as [| | | | |l|d| |d]; try exact I.
    + reflexivity.
    + cbn. split; [reflexivity|]. split; [reflexivity|].
      intros k. symmetry. apply dict_get_is_Some.
    + cbn [keys_encodable] in Hkeys. rewrite Hkeys. cbn.
      split; [reflexivity|]. unfold len. by rewrite length_fmap.
  - destruct (upload_json_unencodable file contents text json_data w
                Hext Hbody Hsize Hdec Hjson Hkeys) as (content & Hr).
    subst r. rewrite Hr.
    destruct json_data; try discriminate.
    cbn [keys_encodable] in Hkeys. rewrite Hkeys. by split.
Qed.

Lemma upload_json_keys_and_length_witness :
  let r := (Router.upload_json (L := Demo.library)
              (Demo.file "pair.json" Demo.doc_object) initial_world).1 in
  let d := [("a", PyInt 1); ("b", PyInt 2)] in
  data_field "keys" r = Some (PyList (PyStr <$> dict_keys d))
  ∧ data_field "key_count" r = Some (PyInt (len (dict_keys d)))
  ∧ ∀ k, k ∈ dict_keys d ↔ is_Some (dict_get k d).
Proof.
  apply (upload_json_keys_and_length Demo.library
           (Demo.file "pair.json" Demo.doc_object)
           (Demo.encode Demo.doc_object) Demo.doc_object
           (PyDict [("a", PyInt 1); ("b", PyInt 2)]) initial_world).
  - vm_compute. reflexivity.
  - reflexivity.
  - vm_compute. reflexivity.
  - vm_compute. reflexivity.
  - vm_compute. reflexivity.
Defined.

(** C8, as stated, fails for a document that parses into a mapping with
    a lone surrogate as a key: it has one key, and the upload is answered
    with a 500 that reports no key. *)
Lemma upload_json_surrogate_key_is_500 :
  let r := (Router.upload_json (L := Demo.library)
              (Demo.file "odd.json" Demo.doc_surrogate) initial_world).1 in
  json_loads (Library := Demo.library) Demo.doc_surrogate
  = inr (PyDictSurrogate [(PyStrSurrogate [55296], PyInt 1)])
  ∧ http_status r = 500
  ∧ data_field "keys" r = None
  ∧ data_field "key_count" r ≠ Some (PyInt 1).
Proof. by vm_compute. Qed.

(** The two documents of the specification: the object with keys [a] and
    [b] is reported with [key_count] 2 and [keys] [a, b]; the array
    [[1,2,3]] with [array_length] 3. *)
Example upload_json_documents :
  let object := (Router.upload_json (L := Demo.library)
                   (Demo.file "pair.json" Demo.doc_object) initial_world).1 in
  let array := (Router.upload_json (L := Demo.library)
                  (Demo.file "triple.json" Demo.doc_array) initial_world).1 in
  data_field "key_count" object = Some (PyInt 2)
  ∧ data_field "keys" object = Some (PyList [PyStr "a"; PyStr "b"])
  ∧ data_field "array_length" object = None
  ∧ data_field "array_length" array = Some (PyInt 3)
  ∧ data_field "keys" array = None.
Proof. vm_compute. auto 10. Qed.
(* ===================================================================== *)
(** * Batch upload                                                        *)
(* ===================================================================== *)

Section RouterBatch.
Context `{L : Library}.

Import Router.

(** The search of the batch endpoint through [ALLOWED_EXTENSIONS] finds
    the category an extension is registered under. *)
Lemma find_file_type_registered (ext : string) :
  find_file_type ext ALLOWED_EXTENSIONS = dict_get ext registered_extensions.
Proof.
  unfold ALLOWED_EXTENSIONS, registered_extensions.
  cbn [find_file_type str_in existsb dict_get].
  repeat (destruct (String.eqb ext _); [reflexivity|]). reflexivity.
Qed.

(** A registered category is not the empty string, and [MAX_FILE_SIZE]
    has its limit. *)
Lemma registered_category_known (ext category : string) :
  dict_get ext registered_extensions = Some category →
  String.eqb category "" = false
  ∧ MAX_FILE_SIZE !! category
    = Some (default 0 (dict_get category limit_megabytes) * 1024 * 1024).
Proof.
  unfold registered_extensions. cbn [dict_get].
  repeat (destruct (String.eqb ext _);
          [intros [= <-]; split; [reflexivity | vm_compute; reflexivity]|]).
  discriminate.
Qed.

Lemma after_reads_nil (w : World) : after_reads [] w = w.
Proof. destruct w. unfold after_reads. cbn. by rewrite app_nil_r. Qed.

Lemma after_reads_cons (name : string) (names : list string) (w : World) :
  after_reads names (after_reads [name] w) = after_reads (name :: names) w.
Proof. unfold after_reads. cbn. by rewrite <- app_assoc. Qed.

(** An entry of the batch holds texts, a number and a truth value: it can
    be rendered. *)
Lemma batch_entry_encodable (file : UploadFile) (item : pyval) :
  batch_entry file item → utf8_encodable item = true.
Proof.
  unfold batch_entry. destruct (body file) as [e|contents]; [by intros ->|].
  destruct (resolved_category file) as [category|]; [|by intros ->].
  destruct (fits contents category); [by intros -> | by intros [error ->]].
Qed.

Lemma batch_entries_encodable (files : list UploadFile) (items : list pyval) :
  Forall2 batch_entry files items → forallb utf8_encodable items = true.
Proof.
  induction 1 as [|file item files items Hitem _ IH]; [reflexivity|].
  cbn [forallb]. by rewrite (batch_entry_encodable file item Hitem), IH.
Qed.

(** One iteration appends the entry of its file, whatever came before,
    and reads the file. *)
Lemma process_file_appends (results : list pyval) (file : UploadFile)
    (w : World) :
  ∃ item,
    process_file results file w
    = (inr (results ++ [item]), after_reads [filename file] w)
    ∧ batch_entry file item.
Proof.
  unfold process_file, too_large_detail.
  run. fold (after_reads [filename file] w).
  rewrite find_file_type_registered.
  unfold batch_entry, resolved_category, suffix.
  destruct (body file) as [e|contents];
    [eexists; split; reflexivity|].
  destruct (dict_get _ registered_extensions) as [category|] eqn:Hcategory;
    [|cbn [not_file_type]; eexists; split; reflexivity].
  destruct (registered_category_known _ _ Hcategory) as [Hne Hlimit].
  cbn [not_file_type]. rewrite Hne. unfold default at 1, id at 1.
  cbn [from_option]. unfold validate_file_size, fits.
  rewrite Hlimit. unfold default, id. cbn [from_option].
  destruct (len contents <=? _); cbn [negb].
  - eexists. split; reflexivity.
  - run. rewrite Hlimit. eexists. split; [reflexivity|]. by eexists.
Qed.

Lemma for_each_process_file (files : list UploadFile) :
  ∀ (results : list pyval) (w : World),
    ∃ items,
      for_each process_file results files w
      = (inr (results ++ items), after_reads (filename <$> files) w)
      ∧ Forall2 batch_entry files items.
Proof.
  induction files as [|file files IH]; intros results w.
  - exists []. cbn. by rewrite app_nil_r, after_reads_nil.
  - destruct (process_file_appends results file w) as (item & Hrun & Hitem).
    destruct (IH (results ++ [item]) (after_reads [filename file] w))
      as (items & Hrest & Hitems).
    exists (item :: items). cbn [for_each]. unfold mbind, M_bind at 1.
    rewrite Hrun, Hrest. cbn [fmap list_fmap].
    rewrite <- app_assoc, after_reads_cons. by split; [|constructor].
Qed.

Lemma batch_entry_filename (file : UploadFile) (item : pyval) :
  batch_entry file item →
  field "filename" item = Some (PyStr (filename file)).
Proof.
  unfold batch_entry. destruct (body file) as [e|contents]; [by intros ->|].
  destruct (resolved_category file) as [category|]; [|by intros ->].
  destruct (fits contents category); [by intros -> | by intros [error ->]].
Qed.

Lemma batch_entry_success (file : UploadFile) (item : pyval) :
  batch_entry file item →
  field "success" item = Some (PyBool (accepted file)).
Proof.
  unfold batch_entry, accepted.
  destruct (body file) as [e|contents]; [by intros ->|].
  destruct (resolved_category file) as [category|]; [|by intros ->].
  destruct (fits contents category); [by intros -> | by intros [error ->]].
Qed.

Lemma upload_multiple_files_answer (files : list UploadFile) (w : World) :
  (10 <? len files) = false →
  ∃ results,
    upload_multiple_files files w
    = (inr (mkJSONResponse 200
              (PyDict
                 [ ("success", PyBool true);
                   ("message",
                     PyStr ("Procesados " +:+ pretty (len results)
                            +:+ " archivos"));
                   ("timestamp", PyStr (utcnow_isoformat (clock w)));
                   ("data", PyDict [ ("results", PyList results) ]) ])),
       tick (after_reads (filename <$> files) w))
    ∧ Forall2 batch_entry files results.
Proof.
  intros Hcap. unfold upload_multiple_files. rewrite Hcap. run.
  destruct (for_each_process_file files [] w) as (results & Hrun & Hitems).
  rewrite Hrun. cbn [app]. unfold generate_response. run.
  rewrite JSONResponse_init_encodable
    by (cbn [utf8_encodable forallb andb];
        by rewrite (batch_entries_encodable files results Hitems)).
  exists results. by split.
Qed.

End RouterBatch.

(** C5. A batch of more than ten files is refused with a 400 and the world
    is left as it was: no file is read.  A batch of at most ten files is
    answered 200 with one entry per file, in order, and every file is
    read.  The entry of a file is fixed by that file alone: it carries its
    name; for a readable file whose extension is registered under no
    category it is the entry "Tipo de archivo no soportado"; and it is
    marked successful exactly when the file can be read, has a registered
    category and fits the limit of that category. *)
Theorem upload_multiple_files_results (L : Library)
    (files : list UploadFile) (w : World) :
  let out := Router.upload_multiple_files files w in
  if 10 <? len files then
    out = (inl (HTTPException 400 "Máximo 10 archivos por solicitud"), w)
  else
    http_status out.1 = 200
    ∧ reads out.2 = reads w ++ (filename <$> files)
    ∧ ∃ results : list pyval,
        data_field "results" out.1 = Some (PyList results)
        ∧ Forall2 batch_entry files results
        ∧ length results = length files
        ∧ ∀ (i : nat) (file : UploadFile), files !! i = Some file →
            ∃ item, results !! i = Some item
              ∧ field "filename" item = Some (PyStr (filename file))
              ∧ field "success" item = Some (PyBool (accepted file)).
Proof.
  intros out. subst out.
  destruct (10 <? len files) eqn:Hcap.
  - unfold Router.upload_multiple_files. rewrite Hcap. reflexivity.
  - destruct (upload_multiple_files_answer files w Hcap)
      as (results & -> & Hitems).
    split; [reflexivity|]. split; [reflexivity|].
    exists results. split; [reflexivity|]. split; [exact Hitems|].
    split; [symmetry; by eapply Forall2_length|].
    intros i file Hi.
    destruct (Forall2_lookup_l _ _ _ _ _ Hitems Hi) as (item & Hitem & Hentry).
    exists item. split; [exact Hitem|].
    split; [by apply batch_entry_filename | by apply batch_entry_success].
Qed.

Lemma upload_multiple_files_results_witness :
  let files := [ Demo.file "scan.png" "x"; Demo.file "tool.exe" "y";
                 Demo.file "stock.csv" "z" ] in
  let out := Router.upload_multiple_files (L := Demo.library) files
               initial_world in
  http_status out.1 = 200
  ∧ reads out.2 = reads initial_world ++ (filename <$> files)
  ∧ ∃ results : list pyval,
      data_field "results" out.1 = Some (PyList results)
      ∧ Forall2 (batch_entry (H := Demo.library)) files results
      ∧ length results = length files
      ∧ ∀ (i : nat) (file : UploadFile), files !! i = Some file →
          ∃ item, results !! i = Some item
            ∧ field "filename" item = Some (PyStr (filename file))
            ∧ field "success" item
              = Some (PyBool (accepted (H := Demo.library) file)).
Proof.
  exact (upload_multiple_files_results Demo.library
           [ Demo.file "scan.png" "x"; Demo.file "tool.exe" "y";
             Demo.file "stock.csv" "z" ] initial_world).
Defined.

(** The two batches of the specification.  Three files of which the second
    has an extension of no category: three entries, the second one failed
    as unsupported, the others successful.  Eleven files: a 400, and no
    file read. *)
Example upload_multiple_files_batches :
  let three := [ Demo.file "scan.png" "x"; Demo.file "tool.exe" "y";
                 Demo.file "stock.csv" "z" ] in
  let eleven := replicate 11 (Demo.file "scan.png" "x") in
  let out3 := Router.upload_multiple_files (L := Demo.library) three
                initial_world in
  let out11 := Router.upload_multiple_files (L := Demo.library) eleven
                 initial_world in
  data_field "results" out3.1
  = Some (PyList
            [ PyDict [ ("filename", PyStr "scan.png");
                       ("success", PyBool true);
                       ("file_type", PyStr "image");
                       ("size_mb", PyFloat (0 # 100)) ];
              PyDict [ ("filename", PyStr "tool.exe");
                       ("success", PyBool false);
                       ("error", PyStr "Tipo de archivo no soportado") ];
              PyDict [ ("filename", PyStr "stock.csv");
                       ("success", PyBool true);
                       ("file_type", PyStr "csv");
                       ("size_mb", PyFloat (0 # 100)) ] ])
  ∧ accepted (H := Demo.library) (Demo.file "scan.png" "x") = true
  ∧ accepted (H := Demo.library) (Demo.file "tool.exe" "y") = false
  ∧ accepted (H := Demo.library) (Demo.file "stock.csv" "z") = true
  ∧ http_status out11.1 = 400
  ∧ reads out11.2 = [].
Proof. by vm_compute. Qed.

(* ===================================================================== *)
(** * The generative gateway: answers in band                             *)
(* ===================================================================== *)

Section GatewayEnvelope.
Context `{L : Library}.

Import Gemini.

Lemma returns_mret {A} (P : A → Prop) (a : A) : P a → returns P (mret a).
Proof. intros Ha w a' w' [= <- _]. exact Ha. Qed.

Lemma returns_bind {A B} (P : B → Prop) (m : M A) (f : A → M B) :
  (∀ a, returns P (f a)) → returns P (m ≫= f).
Proof.
  intros Hf w b w'. unfold mbind, M_bind.
  destruct (m w) as [[e|a] w1]; [discriminate|]. apply Hf.
Qed.

(** The handler of every guarded method returns the failure envelope of
    the exception it is given, after one reading of the clock. *)
Lemma failure_returns (e : exn) (w : World) :
  failure e w
  = (inr (failure_envelope (str e) (utcnow_isoformat (clock w))), tick w).
Proof. reflexivity. Qed.

(** An exception raised anywhere in the guarded block is answered with
    the failure envelope; the world keeps what the block did before. *)
Lemma guarded_catches (body : M pyval) (w w' : World) (e : exn) :
  body w = (inl e, w') →
  guarded body w
  = (inr (failure_envelope (str e) (utcnow_isoformat (clock w'))), tick w').
Proof.
  intros Hbody. unfold guarded, try_except. rewrite Hbody.
  apply failure_returns.
Qed.

Lemma guarded_passes (body : M pyval) (w w' : World) (v : pyval) :
  body w = (inr v, w') → guarded body w = (inr v, w').
Proof. intros Hbody. unfold guarded, try_except. by rewrite Hbody. Qed.

(** A guarded block never raises: it answers as the block does, or with
    the failure envelope. *)
Lemma guarded_answers (body : M pyval) (w : World) :
  returns is_success_envelope body →
  ∃ v w', guarded body w = (inr v, w')
    ∧ (is_success_envelope v ∨ is_failure_envelope v).
Proof.
  intros Hbody. destruct (body w) as [[e|v] w'] eqn:Hrun.
  - eexists _, _. split; [by apply guarded_catches|].
    right. by eexists _, _.
  - exists v, w'. split; [by apply guarded_passes|].
    left. by eapply Hbody.
Qed.

Lemma success_envelope (fields : list (string * pyval)) (timestamp : string) :
  dict_get "success" fields = Some (PyBool true) →
  dict_get "timestamp" fields = Some (PyStr timestamp) →
  is_success_envelope (PyDict fields).
Proof. intros Hs Ht. split; [exact Hs | by exists timestamp]. Qed.

(** Walks through the binds of a guarded block down to the dictionary it
    returns. *)
Ltac envelope :=
  cbv zeta; repeat (apply returns_bind; intros);
  apply returns_mret; eapply success_envelope; reflexivity.

Lemma clear_chat_history_answers (self : GeminiAPI) (w : World) :
  ∃ v w', clear_chat_history self w = (inr v, w') ∧ is_success_envelope v.
Proof.
  unfold clear_chat_history, get_history, set_history, modify, utcnow,
    mbind, mret, M_bind, M_ret.
  eexists _, _. split; [reflexivity|]. split; [reflexivity | by eexists].
Qed.

Lemma get_chat_history_answers (self : GeminiAPI) (w : World) :
  get_chat_history self w = (inr (message_dict <$> chat_history w), w).
Proof. reflexivity. Qed.

(** What the [try] block of a method returns is a success envelope. *)
Lemma attempt_returns (self : GeminiAPI) (call : gateway_call) :
  answers_with_envelope call = true →
  returns is_success_envelope (attempt self call).
Proof.
  intros Hcall. destruct call; try discriminate; cbn [attempt].
  - unfold analyze_text_try. envelope.
  - unfold chat_try. envelope.
  - intros w v w' Hrun.
    destruct (clear_chat_history_answers self w) as (v0 & w0 & Hrun0 & Hv).
    rewrite Hrun in Hrun0. by simplify_eq.
  - unfold analyze_image_try. envelope.
  - unfold compare_images_try. envelope.
  - unfold analyze_document_try. envelope.
  - unfold extract_structured_data_try. envelope.
  - unfold analyze_sentiment_try. envelope.
  - unfold generate_embeddings_try. envelope.
  - unfold translate_text_try. envelope.
  - unfold summarize_text_try. envelope.
  - unfold generate_creative_content_try. envelope.
  - unfold check_grammar_try. envelope.
  - unfold analyze_tabular_data_try. envelope.
Qed.

(** A method answers as its [try] block does when the block returns, and
    with the failure envelope of the exception when the block raises. *)
Lemma invoke_attempt (self : GeminiAPI) (call : gateway_call) (w : World) :
  answers_with_envelope call = true →
  match attempt self call w with
  | (inl e, w') =>
      invoke self call w
      = (inr (failure_envelope (str e) (utcnow_isoformat (clock w'))),
         tick w')
  | (inr v, w') => invoke self call w = (inr v, w') ∧ is_success_envelope v
  end.
Proof.
  intros Hcall. pose proof (attempt_returns self call Hcall) as Hreturns.
  destruct (attempt self call w) as [[e|v] w'] eqn:Hrun.
  - destruct call; try discriminate; cbn [invoke attempt] in *;
      by apply guarded_catches.
  - split; [|by eapply Hreturns].
    destruct call; try discriminate; cbn [invoke attempt] in *;
      first [by apply guarded_passes | exact Hrun].
Qed.

Lemma invoke_answers (self : GeminiAPI) (call : gateway_call) (w : World) :
  answers_with_envelope call = true →
  ∃ v w', invoke self call w = (inr v, w')
    ∧ (is_success_envelope v ∨ is_failure_envelope v).
Proof.
  intros Hcall. pose proof (invoke_attempt self call w Hcall) as Hrun.
  destruct (attempt self call w) as [[e|v] w'].
  - eexists _, _. split; [exact Hrun|]. right. by eexists _, _.
  - destruct Hrun as [Hrun Hv]. eexists _, _. split; [exact Hrun|]. by left.
Qed.

(** When the remote service refuses every request, the [try] block of a
    method that gets as far as its request raises what the service
    raised, before the clock is read. *)
Lemma attempt_service_down (self : GeminiAPI) (call : gateway_call)
    (e : exn) (w : World) :
  service_down e → reaches_service call →
  ∃ w', attempt self call w = (inl e, w') ∧ clock w' = clock w.
Proof.
  intros [Hgenerate Hembed] Hreach.
  destruct call; cbn [attempt reaches_service] in *; try done.
  - unfold analyze_text_try. cbv zeta.
    destruct (Qeq_bool temperature (7 # 10)) eqn:Htemp; cbn [negb]; gateway.
    + rewrite Hgenerate. by eexists.
    + destruct Hreach as [|Hattr]; [done|]. rewrite Hattr. gateway.
      destruct (select_model model); gateway; rewrite Hgenerate;
        by eexists.
  - unfold chat_try. destruct clear_history; gateway; rewrite Hgenerate;
      by eexists.
  - destruct Hreach as (image_bytes & image & Hbytes & Himage).
    unfold analyze_image_try.
    destruct (String.eqb image_format "base64"); gateway;
      rewrite ?Hbytes; simplify_eq; gateway; rewrite Himage; gateway;
      rewrite Hgenerate; by eexists.
  - destruct Hreach as (image1 & image2 & Himage1 & Himage2).
    unfold compare_images_try. gateway. rewrite Himage1. gateway.
    rewrite Himage2. gateway. rewrite Hgenerate. by eexists.
  - unfold analyze_document_try. cbv zeta. gateway.
    unfold document_prompts at 1. cbn [dict_get String.eqb Ascii.eqb Bool.eqb].
    gateway. rewrite Hgenerate. by eexists.
  - destruct Hreach as [d ->]. unfold extract_structured_data_try, items.
    gateway. rewrite Hgenerate. by eexists.
  - unfold analyze_sentiment_try. gateway. rewrite Hgenerate. by eexists.
  - destruct texts as [|text texts]; [done|].
    assert (∃ w', embed_one task_type [] text w = (inl e, w')
                  ∧ clock w' = clock w) as (w' & Hstep & Hclock).
    { unfold embed_one. gateway. rewrite Hembed. by eexists. }
    unfold generate_embeddings_try. cbn [for_each].
    unfold mbind, M_bind. rewrite Hstep. by eexists.
  - unfold translate_text_try. gateway. rewrite Hgenerate. by eexists.
  - unfold summarize_text_try. gateway. rewrite Hgenerate. by eexists.
  - unfold generate_creative_content_try. cbv zeta.
    unfold GEMINI_MODELS. gateway.
    cbn [dict_get String.eqb Ascii.eqb Bool.eqb]. gateway.
    rewrite Hgenerate. by eexists.
  - unfold check_grammar_try. gateway. rewrite Hgenerate. by eexists.
  - unfold analyze_tabular_data_try. gateway. rewrite Hgenerate. by eexists.
Qed.

(** So the method answers with the failure envelope of that exception. *)
Lemma invoke_service_down (self : GeminiAPI) (call : gateway_call)
    (e : exn) (w : World) :
  answers_with_envelope call = true →
  service_down e → reaches_service call →
  ∃ w', invoke self call w
        = (inr (failure_envelope (str e) (utcnow_isoformat (clock w))), w').
Proof.
  intros Hcall Hdown Hreach.
  destruct (attempt_service_down self call e w Hdown Hreach)
    as (w' & Hrun & Hclock).
  pose proof (invoke_attempt self call w Hcall) as Hinvoke.
  rewrite Hrun in Hinvoke. rewrite Hclock in Hinvoke. by eexists.
Qed.

(** [analyze_text] when the remote call raises: the exception comes back
    as the [error] of the failure envelope, and the request was sent. *)
Lemma analyze_text_remote_failure (self : GeminiAPI) (text model : string)
    (e : exn) (w : World) :
  let call := GenerateContent (model_name (select_model model))
                (temperature_of (select_model model) w) [TextPart text] in
  remote_generate (net w) call = inl e →
  ∃ w', analyze_text self text model (7 # 10) w
        = (inr (failure_envelope (str e) (utcnow_isoformat (clock w))), w')
    ∧ net w' = net w ++ [call].
Proof.
  intros call Hremote. subst call. unfold analyze_text, analyze_text_try.
  eexists. split.
  - erewrite guarded_catches; cycle 1.
    + unfold when, generate_content, send, lift, mbind, mret, M_bind, M_ret.
      change (negb (Qeq_bool (7 # 10) (7 # 10))) with false.
      cbv beta iota zeta. rewrite Hremote. reflexivity.
    + reflexivity.
  - reflexivity.
Qed.

(** An unknown model name is sent to the flash model and then fails the
    lookup of [GEMINI_MODELS]: the [KeyError] is answered in band too. *)
Lemma analyze_text_unknown_model (self : GeminiAPI) (text : string)
    (response : GenResponse) (reply : string) (w : World) :
  remote_generate (net w)
    (GenerateContent (model_name model_flash) (temperature_flash w)
       [TextPart text]) = inr response →
  response_text response = inr reply →
  (analyze_text self text "turbo" (7 # 10) w).1
  = inr (failure_envelope (repr_str "turbo") (utcnow_isoformat (clock w))).
Proof.
  intros Hremote Hreply.
  unfold analyze_text, analyze_text_try, guarded, try_except, when,
    generate_content, send, lift, mbind, mret, M_bind, M_ret.
  change (negb (Qeq_bool (7 # 10) (7 # 10))) with false.
  change (select_model "turbo") with model_flash.
  cbv beta iota zeta. cbn [temperature_of].
  rewrite Hremote, Hreply. reflexivity.
Qed.

End GatewayEnvelope.

(** C3 (as amended).  A method of the gateway always returns to its
    caller.  Every method but [get_chat_history] answers with an
    envelope, and answers as its [try] block ends: when the block raises
    an exception, with exactly [{success: false, error, timestamp}],
    [error] being the text of that exception; when the block returns,
    with what it returns, which has [success] true and a [timestamp].  In
    particular, when the remote service refuses every request, every
    method that gets as far as its request answers with the failure
    envelope of the exception the service raised.  [get_chat_history]
    answers with the bare list of messages. *)
Theorem gateway_methods_answer_in_band (L : Library)
    (self : Gemini.GeminiAPI) (call : gateway_call) (w : World) :
  (∃ v w', invoke self call w = (inr v, w')
     ∧ if answers_with_envelope call
       then is_success_envelope v ∨ is_failure_envelope v
       else v = PyList (Gemini.message_dict <$> chat_history w))
  ∧ (answers_with_envelope call = true →
     match attempt self call w with
     | (inl e, w') =>
         invoke self call w
         = (inr (failure_envelope (str e) (utcnow_isoformat (clock w'))),
            tick w')
     | (inr v, w') =>
         invoke self call w = (inr v, w') ∧ is_success_envelope v
     end)
  ∧ (∀ e : exn,
       answers_with_envelope call = true →
       service_down e → reaches_service call →
       (invoke self call w).1
       = inr (failure_envelope (str e) (utcnow_isoformat (clock w)))).
Proof.
  split; [|split].
  - destruct (answers_with_envelope call) eqn:Hcall.
    + by apply invoke_answers.
    + destruct call; try discriminate. eexists _, _. split; reflexivity.
  - apply invoke_attempt.
  - intros e Hcall Hdown Hreach.
    destruct (invoke_service_down self call e w Hcall Hdown Hreach)
      as [w' ->].
    reflexivity.
Qed.

Lemma gateway_methods_answer_in_band_witness :
  let self := Gemini.mkGeminiAPI "key" in
  let call := CallTranslateText "hola" "English" "auto" in
  let e := PyExn (OtherException "ServiceUnavailable") "503 upstream" in
  (invoke (H := Demo.failing) self call initial_world).1
  = inr (failure_envelope "503 upstream"
           (utcnow_isoformat (Library := Demo.failing) 0))
  ∧ Gemini.translate_text_try (L := Demo.failing) self "hola" "English"
      "auto" initial_world
    = (inl e,
       mkWorld 0 [] [GenerateContent "gemini-1.5-flash-latest" (7 # 10)
                       [TextPart (Gemini.translation_prompt "hola"
                                    "English" "auto")]]
         [] (7 # 10) (7 # 10)).
Proof.
  split; [|reflexivity].
  apply (proj2 (proj2 (gateway_methods_answer_in_band Demo.failing
           (Gemini.mkGeminiAPI "key")
           (CallTranslateText "hola" "English" "auto") initial_world))
         (PyExn (OtherException "ServiceUnavailable") "503 upstream")).
  - reflexivity.
  - split; reflexivity.
  - exact I.
Defined.

(** C3, as stated, fails for [get_chat_history]: after one exchange it
    returns the list of the two messages, which is no envelope. *)
Lemma get_chat_history_is_no_envelope :
  let self := Gemini.mkGeminiAPI "key" in
  ∃ (w : World) (v : pyval),
    (Gemini.chat (L := Demo.library) self "hola" "flash" false
       initial_world).2 = w
    ∧ (invoke (H := Demo.library) self CallGetChatHistory w).1 = inr v
    ∧ (∃ first second, v = PyList [first; second])
    ∧ field "success" v = None
    ∧ field "timestamp" v = None
    ∧ ¬ is_success_envelope v.
Proof.
  eexists _, _. split; [reflexivity|]. split; [vm_compute; reflexivity|].
  split; [by eexists _, _|]. split; [reflexivity|]. split; [reflexivity|].
  intros [Hs _]. discriminate Hs.
Qed.

(* ===================================================================== *)
(** * The AI routes without a credential                                  *)
(* ===================================================================== *)

Section AiRoutesUnavailable.
Context `{L : Library}.

Import AiRoutes.

(** Without a key in the environment the constructor raises [ValueError]
    and the module keeps [None] as its client. *)
Lemma client_at_start_absent (environ : option string) :
  credential_absent environ = true → client_at_start environ = None.
Proof.
  unfold credential_absent, client_at_start, make_client, Gemini.init.
  destruct environ as [k|]; [intros ->|intros _]; reflexivity.
Qed.

Lemma client_at_start_present (k : string) :
  String.eqb k "" = false →
  client_at_start (Some k) = Some (Gemini.mkGeminiAPI k).
Proof.
  intros Hk. unfold client_at_start, make_client, Gemini.init.
  rewrite Hk. reflexivity.
Qed.

(** A route that checks for the gateway stops at the check: it raises the
    503 and leaves the world as it found it. *)
Lemma serve_unavailable (request : ai_request) (w : World) :
  checks_gateway request = true →
  serve None request w
  = (inl (HTTPException 503
            "Servicio de IA no disponible. Configure GOOGLE_API_KEY"), w).
Proof.
  intros Hchecks. destruct request; try discriminate; reflexivity.
Qed.

(** The two information routes answer 200 with or without a client, and
    send nothing. *)
Lemma serve_information (gemini_client : option Gemini.GeminiAPI)
    (request : ai_request) (w : World) :
  checks_gateway request = false →
  http_status (serve gemini_client request w).1 = 200
  ∧ (serve gemini_client request w).2 = tick w.
Proof.
  intros Hchecks. destruct request; try discriminate; by split.
Qed.

(** The routes that do not check for the gateway are [/ai/models] and
    [/ai/status]. *)
Lemma information_routes (request : ai_request) :
  checks_gateway request = false →
  request = ListModels ∨ request = GeminiStatus.
Proof. destruct request; try discriminate; auto. Qed.

End AiRoutesUnavailable.

(** C2 (as amended).  When [GOOGLE_API_KEY] is unset or empty at process
    start, no route under [/ai] sends a request to the generative API;
    every route except [/ai/models] and [/ai/status] raises the 503
    "Servicio de IA no disponible" before doing anything else.  Those two
    information routes answer 200: [/ai/models] with [success], the table
    of the three models and the time, [/ai/status] with [success],
    [gemini_available] false and the time. *)
Theorem ai_routes_without_credential (L : Library) (environ : option string)
    (request : ai_request) (w : World) :
  credential_absent environ = true →
  let out := serve (AiRoutes.client_at_start environ) request w in
  net out.2 = net w
  ∧ if checks_gateway request
    then out = (inl (HTTPException 503
                       "Servicio de IA no disponible. Configure GOOGLE_API_KEY"),
                w)
    else (request = ListModels ∨ request = GeminiStatus)
         ∧ http_status out.1 = 200
         ∧ out.2 = tick w
         ∧ (request = ListModels →
            out.1 = inr (mkJSONResponse 200
              (PyDict
                 [ ("success", PyBool true);
                   ("models",
                     PyDict [ ("pro", PyStr "gemini-1.5-pro-latest");
                              ("flash", PyStr "gemini-1.5-flash-latest");
                              ("vision", PyStr "gemini-1.5-pro-latest") ]);
                   ("timestamp", PyStr (utcnow_isoformat (clock w))) ])))
         ∧ (request = GeminiStatus →
            out.1 = inr (mkJSONResponse 200
              (PyDict
                 [ ("success", PyBool true);
                   ("gemini_available", PyBool false);
                   ("timestamp", PyStr (utcnow_isoformat (clock w))) ]))).
Proof.
  intros Habsent out. subst out.
  rewrite (client_at_start_absent environ Habsent).
  destruct (checks_gateway request) eqn:Hchecks.
  - rewrite serve_unavailable by exact Hchecks. by split.
  - destruct (serve_information None request w Hchecks) as [Hstatus Hworld].
    split; [by rewrite Hworld|].
    split; [by apply information_routes|].
    split; [exact Hstatus|]. split; [exact Hworld|].
    split; intros ->; reflexivity.
Qed.

Lemma ai_routes_without_credential_witness :
  let out := serve (H := Demo.library)
               (AiRoutes.client_at_start None)
               (Chat "hola" "flash" false) initial_world in
  net out.2 = net initial_world
  ∧ out = (inl (HTTPException 503
                  "Servicio de IA no disponible. Configure GOOGLE_API_KEY"),
           initial_world).
Proof.
  apply (ai_routes_without_credential Demo.library None
           (Chat "hola" "flash" false) initial_world).
  reflexivity.
Defined.

(** C2, as stated, fails for [/ai/models]: without a credential it answers
    200 with the model table, not 503. *)
Lemma list_models_without_credential :
  let out := serve (H := Demo.library)
               (AiRoutes.client_at_start None)
               ListModels initial_world in
  path ListModels = "/ai/models"
  ∧ http_status out.1 = 200
  ∧ http_status out.1 ≠ 503
  ∧ (∃ resp, out.1 = inr resp
       ∧ field "success" (content resp) = Some (PyBool true)).
Proof.
  split; [reflexivity|]. split; [reflexivity|]. split; [by vm_compute|].
  eexists. split; reflexivity.
Qed.

(** With a client the same request does reach the remote service. *)
Example chat_with_credential :
  let out := serve (H := Demo.library)
               (AiRoutes.client_at_start (Some "key"))
               (Chat "hola" "flash" false) initial_world in
  http_status out.1 = 200
  ∧ net out.2 = [SendMessage "gemini-1.5-flash-latest" [] "hola"].
Proof. by vm_compute. Qed.

(* ===================================================================== *)
(** * More on the upload routes                                           *)
(* ===================================================================== *)

Section HandlerLogic.
Context `{L : Library}.

Lemma returns_raise {A} (P : A → Prop) (e : exn) : returns P (raise e).
Proof. intros w a w' [=]. Qed.

(** What a computation returns can be used by what follows it. *)
Lemma returns_bind_with {A B} (Q : A → Prop) (P : B → Prop) (m : M A)
    (f : A → M B) :
  returns Q m → (∀ a, Q a → returns P (f a)) → returns P (m ≫= f).
Proof.
  intros Hm Hf w b w'. unfold mbind, M_bind.
  destruct (m w) as [[e|a] w1] eqn:Hrun; [discriminate|].
  apply Hf. eapply Hm, Hrun.
Qed.

(** [if c: m], where [m] always raises, is passed only when [c] is false. *)
Lemma returns_when (c : bool) (m : M unit) :
  returns (λ _, False) m → returns (λ _, c = false) (when c m).
Proof.
  intros Hm. destruct c; cbn [when].
  - intros w a w' Hrun. by destruct (Hm w a w' Hrun).
  - by intros w a w' _.
Qed.

Lemma returns_read (file : UploadFile) :
  returns (λ contents, body file = inr contents) (read file).
Proof. intros w a w'. unfold read. by intros [= -> _]. Qed.

Lemma returns_lift {A} (r : result A) : returns (λ a, r = inr a) (lift r).
Proof. intros w a w'. unfold lift. by intros [= -> _]. Qed.

Lemma returns_try {A} (P : A → Prop) (body : M A) (handler : exn → M A) :
  returns P body → (∀ e, returns P (handler e)) →
  returns P (try_except body handler).
Proof.
  intros Hbody Hhandler w a w'. unfold try_except.
  destruct (body w) as [[e|a'] w1] eqn:Hrun.
  - apply Hhandler.
  - intros [= <- <-]. eapply Hbody, Hrun.
Qed.

Lemma returns_generate_response (P : JSONResponse → Prop) (success : bool)
    (message : string) (data : pyval) :
  truthy data = true →
  (∀ timestamp,
     P (mkJSONResponse 200
          (PyDict [ ("success", PyBool success); ("message", PyStr message);
                    ("timestamp", PyStr timestamp); ("data", data) ]))) →
  returns P (Router.generate_response success message (Some data)).
Proof.
  intros Hdata HP w a w'. unfold Router.generate_response, utcnow.
  unfold mbind, mret, M_bind, M_ret, lift, JSONResponse_init.
  rewrite Hdata. cbv zeta. cbn [dict_set String.eqb Ascii.eqb Bool.eqb].
  match goal with |- context [utf8_encodable ?c] =>
    destruct (utf8_encodable c) end; [|discriminate].
  intros [= <- _]. apply HP.
Qed.

(** A [try] block with handlers leaves only with what a handler raises. *)
Lemma try_except_raises {A} (E : exn → Prop) (body : M A)
    (handler : exn → M A) :
  (∀ e, raises E (handler e)) → raises E (try_except body handler).
Proof.
  intros Hhandler w e w'. unfold try_except.
  destruct (body w) as [[e'|a] w1]; [apply Hhandler | discriminate].
Qed.

Lemma raises_raise {A} (E : exn → Prop) (e : exn) :
  E e → raises E (raise (A := A) e).
Proof. intros He w e' w' [= <- _]. exact He. Qed.

End HandlerLogic.

Section RouterOutcomes.
Context `{L : Library}.

Import Router.

Ltac never_returns :=
  repeat first [ apply returns_raise | apply returns_bind; intros ].

(** Walks through the [try], the two gates and the read of a handler. *)
Ltac gates Hext contents Hbody Hsize :=
  apply returns_try;
    [|intros e;
      try match goal with
          | |- context [is_class ?cls e] => destruct (is_class cls e)
          end;
      apply returns_raise];
  eapply returns_bind_with; [apply returns_when; never_returns|];
  intros _ Hext%negb_false_iff;
  eapply returns_bind_with; [apply returns_read|]; intros contents Hbody;
  eapply returns_bind_with; [apply returns_when; never_returns|];
  intros _ Hsize%negb_false_iff.

Ltac descriptor Hext contents Hbody Hsize :=
  apply returns_generate_response; [reflexivity|];
  intros timestamp; split; [reflexivity|]; split; [reflexivity|];
  split; [exact Hext|]; exists contents;
  split; [exact Hbody|]; split; [exact Hsize|]; split; reflexivity.

(** A response comes only after both gates. *)
Lemma upload_returns (c : category) (file : UploadFile) :
  returns (passed c file) (upload c file).
Proof.
  destruct c; cbn [upload];
    unfold upload_image, upload_video, upload_zip, upload_pdf, upload_excel,
      upload_csv, upload_word, upload_audio, upload_json, upload_xml;
    gates Hext contents Hbody Hsize.
  - (* image *)
    apply returns_bind. intros image.
    descriptor Hext contents Hbody Hsize.
  - (* video *)
    descriptor Hext contents Hbody Hsize.
  - (* zip *)
    apply returns_bind. intros filelist.
    descriptor Hext contents Hbody Hsize.
  - (* pdf *)
    apply returns_bind. intros _.
    descriptor Hext contents Hbody Hsize.
  - (* excel *)
    descriptor Hext contents Hbody Hsize.
  - (* csv *)
    apply returns_bind. intros text_content.
    apply returns_bind. intros rows.
    descriptor Hext contents Hbody Hsize.
  - (* word *)
    descriptor Hext contents Hbody Hsize.
  - (* audio *)
    descriptor Hext contents Hbody Hsize.
  - (* json *)
    apply returns_bind. intros json_data. cbv zeta.
    destruct json_data; descriptor Hext contents Hbody Hsize.
  - (* xml *)
    apply returns_bind. intros root.
    apply returns_bind. intros total_elements.
    descriptor Hext contents Hbody Hsize.
Qed.

(** An exception leaves a handler only through its [except] clauses. *)
Lemma upload_raises (c : category) (file : UploadFile) :
  raises (rejection c) (upload c file).
Proof.
  destruct c; cbn [upload];
    unfold upload_image, upload_video, upload_zip, upload_pdf, upload_excel,
      upload_csv, upload_word, upload_audio, upload_json, upload_xml;
    apply try_except_raises; intros e;
    try match goal with
        | |- context [is_class ?cls e] => destruct (is_class cls e)
        end;
    apply raises_raise; cbn; auto 10.
Qed.

Lemma upload_outcome (c : category) (file : UploadFile) (w : World) :
  match (upload c file w).1 with
  | inr resp => passed c file resp
  | inl e => rejection c e
  end.
Proof.
  destruct (upload c file w) as [[e|resp] w'] eqn:Hrun; cbn [fst].
  - eapply upload_raises, Hrun.
  - eapply upload_returns, Hrun.
Qed.

End RouterOutcomes.

(** X1. A single-file route that returns a response has let the upload
    through both gates: the response is a 200 with [success] true, the
    name has an accepted extension, the payload was read and fits the
    limit, and the descriptor carries that name and, except on the ZIP
    route, the number of bytes as [size_bytes]. *)
Theorem upload_success_passed_gates (L : Library) (c : category)
    (file : UploadFile) (w : World) (resp : JSONResponse) :
  (upload c file w).1 = inr resp →
  status_code_of resp = 200
  ∧ field "success" (content resp) = Some (PyBool true)
  ∧ Router.validate_file_extension (filename file) (key c) = true
  ∧ ∃ contents, body file = inr contents
      ∧ Router.validate_file_size contents (key c) = true
      ∧ field "data" (content resp) ≫= field "filename"
        = Some (PyStr (filename file))
      ∧ field "data" (content resp) ≫= field "size_bytes"
        = match c with
          | Zip => None
          | _ => Some (PyInt (len contents))
          end.
Proof.
  intros Hrun. pose proof (upload_outcome c file w) as Hout.
  rewrite Hrun in Hout. exact Hout.
Qed.

Lemma upload_success_passed_gates_witness :
  let file := Demo.file "memo.docx" "text" in
  ∃ resp,
    (upload (H := Demo.library) Word file initial_world).1 = inr resp
    ∧ status_code_of resp = 200
    ∧ field "success" (content resp) = Some (PyBool true)
    ∧ Router.validate_file_extension (L := Demo.library) (filename file)
        "word" = true
    ∧ ∃ contents, body file = inr contents
        ∧ Router.validate_file_size contents "word" = true
        ∧ field "data" (content resp) ≫= field "filename"
          = Some (PyStr (filename file))
        ∧ field "data" (content resp) ≫= field "size_bytes"
          = Some (PyInt (len contents)).
Proof.
  eexists. split; [vm_compute; reflexivity|].
  apply (upload_success_passed_gates Demo.library Word
           (Demo.file "memo.docx" "text") initial_world).
  vm_compute. reflexivity.
Defined.

(** X2. Whatever is uploaded and whatever the libraries do, a single-file
    route answers 200, 400 or 500 and never 413; a 400 can only come from
    the ZIP, CSV, JSON and XML routes. *)
Theorem upload_status_never_413 (L : Library) (c : category)
    (file : UploadFile) (w : World) :
  let status := http_status (upload c file w).1 in
  (status = 200 ∨ status = 400 ∨ status = 500)
  ∧ status ≠ 413
  ∧ (status = 400 → c = Zip ∨ c = Csv ∨ c = Json ∨ c = Xml).
Proof.
  pose proof (upload_outcome c file w) as Hout. cbv zeta.
  destruct ((upload c file w).1) as [[s d|cls msg]|resp];
    cbn [http_status rejection] in *.
  - destruct Hout as [->|[-> Hc]].
    + split; [by auto|]. split; [lia | lia].
    + split; [by auto|]. split; [lia | done].
  - done.
  - destruct Hout as (-> & _). split; [by auto|]. split; lia.
Qed.

Section RouterInspectors.
Context `{L : Library}.

Import Router.

Lemma content_free_accepts (c : category) (file : UploadFile)
    (contents : list byte) (w : World) :
  content_free c = true →
  validate_file_extension (filename file) (key c) = true →
  body file = inr contents →
  validate_file_size contents (key c) = true →
  http_status (upload c file w).1 = 200.
Proof.
  intros Hc Hext Hbody Hsize.
  destruct c; try discriminate; cbn [upload key] in *;
    unfold upload_video, upload_excel, upload_word, upload_audio,
      generate_response;
    rewrite Hext; run; rewrite Hbody, Hsize; reflexivity.
Qed.

End RouterInspectors.

(** X3. On the video, Excel, Word and audio routes the two gates decide
    alone: the answer is 200 exactly when the name has an accepted
    extension and the payload is read and fits the limit, whatever its
    bytes are. *)
Theorem content_free_routes_accept_iff_gates (L : Library) (c : category)
    (file : UploadFile) (w : World) :
  content_free c = true →
  (http_status (upload c file w).1 = 200
   ↔ Router.validate_file_extension (filename file) (key c) = true
     ∧ ∃ contents, body file = inr contents
         ∧ Router.validate_file_size contents (key c) = true).
Proof.
  intros Hc. split.
  - intros Hstatus. pose proof (upload_outcome c file w) as Hout.
    destruct ((upload c file w).1) as [[s d|cls msg]|resp];
      cbn [http_status rejection] in *.
    + destruct Hout as [->|[-> _]]; lia.
    + done.
    + destruct Hout as (_ & _ & Hext & contents & Hbody & Hsize & _). eauto.
  - intros (Hext & contents & Hbody & Hsize).
    by eapply content_free_accepts.
Qed.

Lemma content_free_routes_accept_iff_gates_witness :
  let file := Demo.file "take.ogg" "noise" in
  http_status (upload (H := Demo.library) Audio file initial_world).1 = 200
  ↔ Router.validate_file_extension (L := Demo.library) (filename file)
      "audio" = true
    ∧ ∃ contents, body file = inr contents
        ∧ Router.validate_file_size contents "audio" = true.
Proof.
  apply (content_free_routes_accept_iff_gates Demo.library Audio
           (Demo.file "take.ogg" "noise") initial_world).
  reflexivity.
Defined.

(* ===================================================================== *)
(** * Inspector failures                                                  *)
(* ===================================================================== *)

Section RouterInspectorFailures.
Context `{L : Library}.

Import Router.

Lemma upload_xml_malformed_status (file : UploadFile) (contents : list byte)
    (text msg : string) (w : World) :
  validate_file_extension (filename file) "xml" = true →
  body file = inr contents →
  validate_file_size contents "xml" = true →
  decode_utf8 contents = inr text →
  ET_fromstring text = inl (PyExn ParseError msg) →
  http_status (upload_xml file w).1 = 500.
Proof.
  intros Hext Hbody Hsize Hdec Hxml. unfold upload_xml.
  rewrite Hext. run. rewrite Hbody, Hsize. run. rewrite Hdec. run.
  rewrite Hxml. reflexivity.
Qed.

End RouterInspectorFailures.

(** X4. A ZIP upload that passes the gates but that [zipfile] refuses with
    [BadZipFile] is answered 400 "Archivo ZIP corrupto o inválido": this
    rejection is raised from the [except] clause and keeps its status. *)
Theorem upload_zip_corrupt_is_400 (L : Library) (file : UploadFile)
    (contents : list byte) (e : exn) (w : World) :
  Router.validate_file_extension (filename file) "zip" = true →
  body file = inr contents →
  Router.validate_file_size contents "zip" = true →
  ZipFile_filelist contents = inl e →
  is_class BadZipFile e = true →
  (Router.upload_zip file w).1
  = inl (HTTPException 400 "Archivo ZIP corrupto o inválido").
Proof.
  intros Hext Hbody Hsize Hzip Hclass. unfold Router.upload_zip.
  rewrite Hext. run. rewrite Hbody, Hsize. run. rewrite Hzip. run.
  by rewrite Hclass.
Qed.

Lemma upload_zip_corrupt_is_400_witness :
  (Router.upload_zip (L := Demo.failing) (Demo.file "backup.zip" "junk")
     initial_world).1
  = inl (HTTPException 400 "Archivo ZIP corrupto o inválido").
Proof.
  apply (upload_zip_corrupt_is_400 Demo.failing
           (Demo.file "backup.zip" "junk") (Demo.encode "junk")
           (PyExn BadZipFile "File is not a zip file") initial_world).
  - vm_compute. reflexivity.
  - reflexivity.
  - vm_compute. reflexivity.
  - reflexivity.
  - reflexivity.
Defined.

(** X5. On the CSV, JSON and XML routes a payload that passes the gates
    but is not UTF-8 is answered 400. *)
Theorem upload_undecodable_text_is_400 (L : Library) (c : category)
    (file : UploadFile) (contents : list byte) (e : exn) (w : World) :
  textual c = true →
  Router.validate_file_extension (filename file) (key c) = true →
  body file = inr contents →
  Router.validate_file_size contents (key c) = true →
  decode_utf8 contents = inl e →
  is_class UnicodeDecodeError e = true →
  http_status (upload c file w).1 = 400.
Proof.
  intros Hc Hext Hbody Hsize Hdec Hclass.
  destruct c; try discriminate; cbn [upload key] in *;
    unfold Router.upload_csv, Router.upload_json, Router.upload_xml;
    rewrite Hext; run; rewrite Hbody, Hsize; run; rewrite Hdec; run.
  - by rewrite Hclass.
  - destruct e as [s d|cls msg]; [discriminate|].
    destruct cls; try discriminate. reflexivity.
  - destruct e as [s d|cls msg]; [discriminate|].
    destruct cls; try discriminate. reflexivity.
Qed.

Lemma upload_undecodable_text_is_400_witness :
  http_status
    (upload (H := Demo.library) Xml
       (mkUploadFile "doc.xml" "text/xml" (inr [xff; xfe])) initial_world).1
  = 400.
Proof.
  apply (upload_undecodable_text_is_400 Demo.library Xml
           (mkUploadFile "doc.xml" "text/xml" (inr [xff; xfe])) [xff; xfe]
           (PyExn UnicodeDecodeError "invalid start byte") initial_world).
  - reflexivity.
  - vm_compute. reflexivity.
  - reflexivity.
  - vm_compute. reflexivity.
  - vm_compute. reflexivity.
  - reflexivity.
Defined.

(** X6. A JSON or XML upload that passes the gates and decodes, but that
    the parser refuses, is answered 500: the 400 "JSON inválido" or "XML
    inválido" is raised inside the handler's [try] and caught by its
    [except Exception]. *)
Theorem upload_malformed_document_is_500 (L : Library) (c : category)
    (file : UploadFile) (contents : list byte) (text : string) (w : World) :
  Router.validate_file_extension (filename file) (key c) = true →
  body file = inr contents →
  Router.validate_file_size contents (key c) = true →
  decode_utf8 contents = inr text →
  (c = Json ∧ ∃ msg, json_loads text = inl (PyExn JSONDecodeError msg))
  ∨ (c = Xml ∧ ∃ msg, ET_fromstring text = inl (PyExn ParseError msg)) →
  http_status (upload c file w).1 = 500.
Proof.
  intros Hext Hbody Hsize Hdec [[-> [msg Hparse]]|[-> [msg Hparse]]].
  - by eapply upload_json_malformed_status.
  - by eapply upload_xml_malformed_status.
Qed.

Lemma upload_malformed_document_is_500_witness :
  http_status
    (upload (H := Demo.library) Json (Demo.file "pair.json" "{")
       initial_world).1 = 500.
Proof.
  apply (upload_malformed_document_is_500 Demo.library Json
           (Demo.file "pair.json" "{") (Demo.encode "{") "{" initial_world).
  - vm_compute. reflexivity.
  - reflexivity.
  - vm_compute. reflexivity.
  - vm_compute. reflexivity.
  - left. split; [reflexivity|]. eexists. vm_compute. reflexivity.
Defined.

(** X7. An image upload that passes the gates but that Pillow cannot open
    is answered 500 with the text of Pillow's exception. *)
Theorem upload_image_unreadable_is_500 (L : Library) (file : UploadFile)
    (contents : list byte) (e : exn) (w : World) :
  Router.validate_file_extension (filename file) "image" = true →
  body file = inr contents →
  Router.validate_file_size contents "image" = true →
  Image_open contents = inl e →
  (Router.upload_image file w).1
  = inl (HTTPException 500 ("Error al procesar imagen: " +:+ str e)).
Proof.
  intros Hext Hbody Hsize Himage. unfold Router.upload_image.
  rewrite Hext. run. rewrite Hbody, Hsize. run. by rewrite Himage.
Qed.

Lemma upload_image_unreadable_is_500_witness :
  (Router.upload_image (L := Demo.library) (Demo.file "scan.png" "junk")
     initial_world).1
  = inl (HTTPException 500
           ("Error al procesar imagen: "
            +:+ str (L := Demo.library)
                  (PyExn (OtherException "UnidentifiedImageError")
                     "cannot identify image file"))).
Proof.
  apply (upload_image_unreadable_is_500 Demo.library
           (Demo.file "scan.png" "junk") (Demo.encode "junk")).
  - vm_compute. reflexivity.
  - reflexivity.
  - vm_compute. reflexivity.
  - reflexivity.
Defined.

(* ===================================================================== *)
(** * Descriptors: edge cases                                             *)
(* ===================================================================== *)

(** X8. A CSV upload that passes the gates, decodes and parses into at
    most one row has an empty preview; [total_rows] is the number of rows
    and [total_columns] the length of the first row, 0 for an empty file. *)
Theorem upload_csv_without_data_rows (L : Library) (file : UploadFile)
    (contents : list byte) (text : string) (rows : list (list string))
    (w : World) :
  Router.validate_file_extension (filename file) "csv" = true →
  body file = inr contents →
  Router.validate_file_size contents "csv" = true →
  decode_utf8 contents = inr text →
  csv_reader (splitlines text) = inr rows →
  (length rows ≤ 1)%nat →
  let r := (Router.upload_csv file w).1 in
  http_status r = 200
  ∧ data_field "total_rows" r = Some (PyInt (len rows))
  ∧ data_field "total_columns" r = Some (PyInt (len (default [] (head rows))))
  ∧ data_field "columns" r = Some (py_row (default [] (head rows)))
  ∧ data_field "preview_rows" r = Some (PyList []).
Proof.
  intros Hext Hbody Hsize Hdec Hcsv Hshort r. subst r.
  unfold Router.upload_csv, Router.generate_response.
  rewrite Hext. run. rewrite Hbody, Hsize. run. rewrite Hdec. run.
  rewrite Hcsv. run.
  destruct rows as [|header [|row rows]]; [| |cbn in Hshort; lia];
    renders; repeat split; reflexivity.
Qed.

Lemma upload_csv_without_data_rows_witness :
  let r := (Router.upload_csv (L := Demo.library)
              (Demo.file "stock.csv" "name,qty") initial_world).1 in
  http_status r = 200
  ∧ data_field "total_rows" r = Some (PyInt (len [["name"; "qty"]]))
  ∧ data_field "total_columns" r
    = Some (PyInt (len (default [] (head [["name"; "qty"]]))))
  ∧ data_field "columns" r
    = Some (py_row (default [] (head [["name"; "qty"]])))
  ∧ data_field "preview_rows" r = Some (PyList []).
Proof.
  apply (upload_csv_without_data_rows Demo.library
           (Demo.file "stock.csv" "name,qty") (Demo.encode "name,qty")
           "name,qty" [["name"; "qty"]] initial_world).
  - vm_compute. reflexivity.
  - reflexivity.
  - vm_compute. reflexivity.
  - vm_compute. reflexivity.
  - vm_compute. reflexivity.
  - cbn. lia.
Defined.

(** X9. A JSON upload that passes the gates, decodes and parses into a
    document whose keys can be rendered is answered 200 and reports the
    type name of its top-level value and [is_valid] true; [keys] and
    [key_count] are present exactly for a mapping, [array_length] exactly
    for a sequence, so a scalar document has none of the three.  A
    document with a key that cannot be rendered (a lone surrogate) is a
    mapping, is answered 500 and reports nothing. *)
Theorem upload_json_fields_by_type (L : Library) (file : UploadFile)
    (contents : list byte) (text : string) (json_data : pyval) (w : World) :
  Router.validate_file_extension (filename file) "json" = true →
  body file = inr contents →
  Router.validate_file_size contents "json" = true →
  decode_utf8 contents = inr text →
  json_loads text = inr json_data →
  let r := (Router.upload_json file w).1 in
  let mapping :=
    (∃ d, json_data = PyDict d) ∨ (∃ d, json_data = PyDictSurrogate d) in
  if keys_encodable json_data
  then http_status r = 200
       ∧ data_field "data_type" r = Some (PyStr (type_name json_data))
       ∧ data_field "is_valid" r = Some (PyBool true)
       ∧ (is_Some (data_field "keys" r) ↔ mapping)
       ∧ (is_Some (data_field "key_count" r) ↔ mapping)
       ∧ (is_Some (data_field "array_length" r) ↔ ∃ l, json_data = PyList l)
  else http_status r = 500
       ∧ mapping
       ∧ type_name json_data = "dict"
       ∧ data_field "data_type" r = None
       ∧ data_field "is_valid" r = None
       ∧ data_field "keys" r = None
       ∧ data_field "key_count" r = None.
Proof.
  intros Hext Hbody Hsize Hdec Hjson r mapping. subst r mapping.
  destruct (keys_encodable json_data) eqn:Hkeys.
  - destruct (upload_json_info file contents text json_data w
                Hext Hbody Hsize Hdec Hjson Hkeys)
      as (resp & Hr & Hstatus & Hdata).
    rewrite Hr. split; [exact Hstatus|].
    unfold data_field. rewrite Hdata.
    destruct json_data; cbn;
      (split; [reflexivity|]); (split; [reflexivity|]);
      repeat split; intros Hs;
      first [ by destruct Hs as [? [=]]
            | by destruct Hs as [[? [=]]|[? [=]]]
            | by eauto ].
  - destruct (upload_json_unencodable file contents text json_data w
                Hext Hbody Hsize Hdec Hjson Hkeys) as (content & Hr).
    rewrite Hr. destruct json_data; try discriminate.
    split; [reflexivity|]. split; [by eauto|]. by repeat split.
Qed.

Lemma upload_json_fields_by_type_witness :
  let r := (Router.upload_json (L := Demo.library)
              (Demo.file "triple.json" Demo.doc_array) initial_world).1 in
  let json_data := PyList [PyInt 1; PyInt 2; PyInt 3] in
  let mapping :=
    (∃ d, json_data = PyDict d) ∨ (∃ d, json_data = PyDictSurrogate d) in
  http_status r = 200
  ∧ data_field "data_type" r = Some (PyStr (type_name json_data))
  ∧ data_field "is_valid" r = Some (PyBool true)
  ∧ (is_Some (data_field "keys" r) ↔ mapping)
  ∧ (is_Some (data_field "key_count" r) ↔ mapping)
  ∧ (is_Some (data_field "array_length" r) ↔ ∃ l, json_data = PyList l).
Proof.
  apply (upload_json_fields_by_type Demo.library
           (Demo.file "triple.json" Demo.doc_array)
           (Demo.encode Demo.doc_array) Demo.doc_array
           (PyList [PyInt 1; PyInt 2; PyInt 3]) initial_world).
  - vm_compute. reflexivity.
  - reflexivity.
  - vm_compute. reflexivity.
  - vm_compute. reflexivity.
  - vm_compute. reflexivity.
Defined.

(** The document with a lone surrogate as its one key is such a mapping. *)
Example upload_json_surrogate_reports_nothing :
  let r := (Router.upload_json (L := Demo.library)
              (Demo.file "odd.json" Demo.doc_surrogate) initial_world).1 in
  http_status r = 500 ∧ data_field "data_type" r = None.
Proof. by vm_compute. Qed.

(* ===================================================================== *)
(** * The reported size and the registry                                  *)
(* ===================================================================== *)

Section SizeInMegabytes.
Local Open Scope Q_scope.

Lemma round_half_even_small (x : Q) :
  0 <= x → x < 1 # 2 → round_half_even x = 0%Z.
Proof.
  intros Hlo Hhi. unfold round_half_even.
  assert (Hfloor : Qfloor x = 0%Z).
  { pose proof (Qfloor_le x) as Hf1. pose proof (Qlt_floor x) as Hf2.
    rewrite inject_Z_plus in Hf2. change (inject_Z 1) with 1 in Hf2.
    assert (H1 : (Qfloor x < 1)%Z).
    { rewrite Zlt_Qlt. change (inject_Z 1) with 1. lra. }
    assert (H2 : (-1 < Qfloor x)%Z).
    { rewrite Zlt_Qlt. change (inject_Z (-1)) with (-1 # 1). lra. }
    lia. }
  rewrite Hfloor. change (inject_Z 0) with 0.
  assert (Hcmp : Qcompare (x - 0) (1 # 2) = Lt).
  { apply (proj1 (Qlt_alt _ _)). lra. }
  by rewrite Hcmp.
Qed.

Lemma round_half_even_nonneg (x : Q) : 0 <= x → (0 <= round_half_even x)%Z.
Proof.
  intros Hx. destruct (round_half_even_bounds x) as [Hlo _].
  assert (H : (-1 < round_half_even x)%Z); [|lia].
  rewrite Zlt_Qlt. change (inject_Z (-1)) with (-1 # 1). lra.
Qed.

Lemma truediv_nonneg (a : Z) (b : positive) :
  (0 <= a)%Z → 0 <= truediv a (Z.pos b).
Proof.
  intros Ha. unfold truediv. apply Qle_shift_div_l.
  - reflexivity.
  - rewrite Qmult_0_l. change 0 with (inject_Z 0). by rewrite <- Zle_Qle.
Qed.

End SizeInMegabytes.

(** X10. The size in megabytes reported for a payload is never negative,
    lies within 0.005 of [len / 2^20], and is 0 for every payload of at
    most 5242 bytes. *)
Theorem size_mb_rounding (contents : list byte) :
  (0 <= Router.size_mb contents)%Q
  ∧ (truediv (len contents) (1024 * 1024) - (1 # 200)
     <= Router.size_mb contents)%Q
  ∧ (Router.size_mb contents
     <= truediv (len contents) (1024 * 1024) + (1 # 200))%Q
  ∧ (len contents <= 5242 → (Router.size_mb contents == 0)%Q).
Proof.
  assert (Hlen : 0 <= len contents) by (unfold len; lia).
  pose proof (truediv_nonneg (len contents) (1024 * 1024) Hlen) as Hdiv.
  change (Z.pos (1024 * 1024)) with (1024 * 1024) in Hdiv.
  unfold Router.size_mb. split; [|split; [|split]].
  - unfold round2, Qle. cbn [Qnum Qden].
    assert (0 <= round_half_even
                   (truediv (len contents) (1024 * 1024) * inject_Z 100)).
    { apply round_half_even_nonneg.
      change (inject_Z 100) with (100 # 1). lra. }
    lia.
  - apply round2_bounds.
  - apply round2_bounds.
  - intros Hsmall. unfold round2.
    rewrite round_half_even_small; [reflexivity| |].
    + change (inject_Z 100) with (100 # 1). lra.
    + unfold truediv. change (inject_Z (1024 * 1024)) with (1048576 # 1).
      change (inject_Z 100) with (100 # 1).
      assert (Hq : (inject_Z (len contents) <= 5242 # 1)%Q).
      { change (5242 # 1)%Q with (inject_Z 5242). by rewrite <- Zle_Qle. }
      unfold Qdiv. change (/ (1048576 # 1))%Q with (1 # 1048576)%Q. lra.
Qed.

(** X11. [GET /files/info] always answers 200 after one reading of the
    clock: every category of [ALLOWED_EXTENSIONS] has a limit in
    [MAX_FILE_SIZE], so no lookup fails; the categories are listed in the
    order of the table, each with its extension list and its limit divided
    by [1024 * 1024]. *)
Theorem get_upload_info_lists_registry (L : Library) (w : World) :
  ∃ resp entries,
    Router.get_upload_info w = (inr resp, tick w)
    ∧ status_code_of resp = 200
    ∧ field "data" (content resp) ≫= field "supported_types"
      = Some (PyDict entries)
    ∧ dict_keys entries = dict_keys Router.ALLOWED_EXTENSIONS
    ∧ ∀ c : category,
        ∃ exts limit,
          dict_get (key c) Router.ALLOWED_EXTENSIONS = Some exts
          ∧ Router.MAX_FILE_SIZE !! key c = Some limit
          ∧ dict_get (key c) entries
            = Some (PyDict [ ("extensions", PyList (PyStr <$> exts));
                             ("max_size_mb",
                               PyFloat (truediv limit (1024 * 1024))) ]).
Proof.
  unfold Router.get_upload_info, Router.generate_response,
    Router.ALLOWED_EXTENSIONS.
  cbn [for_each]. run. eexists _, _.
  split; [reflexivity|]. split; [reflexivity|]. split; [reflexivity|].
  split; [reflexivity|].
  intros c; destruct c; eexists _, _; (split; [reflexivity|]);
    (split; [vm_compute; reflexivity|]); reflexivity.
Qed.

(* ===================================================================== *)
(** * The extension gate                                                  *)
(* ===================================================================== *)

Section ExtensionGate.

Import Router.

Lemma lower_ascii_idem (a : ascii) : lower_ascii (lower_ascii a) = lower_ascii a.
Proof. destruct a as [[] [] [] [] [] [] [] []]; reflexivity. Qed.

Lemma lower_ascii_dot (a : ascii) :
  Ascii.eqb (lower_ascii a) "." = Ascii.eqb a ".".
Proof. destruct a as [[] [] [] [] [] [] [] []]; reflexivity. Qed.

Lemma lower_ascii_slash (a : ascii) :
  Ascii.eqb (lower_ascii a) "/" = Ascii.eqb a "/".
Proof. destruct a as [[] [] [] [] [] [] [] []]; reflexivity. Qed.

Lemma ascii_lower_idem (s : string) :
  ascii_lower (ascii_lower s) = ascii_lower s.
Proof.
  induction s as [|a s IH]; [reflexivity|].
  cbn [ascii_lower]. by rewrite lower_ascii_idem, IH.
Qed.

Lemma length_ascii_lower (s : string) :
  String.length (ascii_lower s) = String.length s.
Proof. induction s as [|a s IH]; [reflexivity|]. cbn. by rewrite IH. Qed.

Lemma substring_ascii_lower (n m : nat) (s : string) :
  substring n m (ascii_lower s) = ascii_lower (substring n m s).
Proof.
  revert n m. induction s as [|a s IH]; intros n m.
  - by destruct n, m.
  - destruct n as [|n]; cbn [ascii_lower substring].
    + destruct m as [|m]; [reflexivity|]. cbn [ascii_lower]. by rewrite IH.
    + apply IH.
Qed.

Lemma rfind_from_ascii_lower (c : ascii) (s : string) (i last : Z) :
  (∀ a, Ascii.eqb (lower_ascii a) c = Ascii.eqb a c) →
  rfind_from c (ascii_lower s) i last = rfind_from c s i last.
Proof.
  intros Hc. revert i last. induction s as [|a s IH]; intros i last.
  - reflexivity.
  - cbn [ascii_lower rfind_from]. by rewrite Hc, IH.
Qed.

Lemma eqb_ascii_lower_dot (s : string) :
  String.eqb (ascii_lower s) "." = String.eqb s ".".
Proof.
  destruct s as [|a s]; [reflexivity|]. cbn [ascii_lower String.eqb].
  rewrite lower_ascii_dot. by destruct s.
Qed.

Lemma splitext_loop_ascii_lower (p : string) (dotIndex : Z) (n : nat)
    (i : Z) :
  splitext_loop (ascii_lower p) dotIndex n i
  = prod_map ascii_lower ascii_lower (splitext_loop p dotIndex n i).
Proof.
  revert i. induction n as [|n IH]; intros i; cbn [splitext_loop].
  - reflexivity.
  - rewrite substring_ascii_lower, eqb_ascii_lower_dot.
    destruct (negb _); [|apply IH].
    unfold str_take, str_drop.
    by rewrite !substring_ascii_lower, length_ascii_lower.
Qed.

(** Lower-casing an ASCII path commutes with splitting off its
    extension. *)
Lemma splitext_ascii_lower (p : string) :
  splitext (ascii_lower p)
  = prod_map ascii_lower ascii_lower (splitext p).
Proof.
  unfold splitext, rfind.
  rewrite !rfind_from_ascii_lower
    by (apply lower_ascii_slash || apply lower_ascii_dot).
  destruct (_ <? _); [apply splitext_loop_ascii_lower | reflexivity].
Qed.

Lemma gate_extension_ascii_lower (filename : string) :
  ascii_lower (splitext (ascii_lower filename)).2
  = ascii_lower (splitext filename).2.
Proof. rewrite splitext_ascii_lower. cbn. apply ascii_lower_idem. Qed.

(** A piece of an ASCII text is ASCII, and so is the extension of an
    ASCII path. *)
Lemma is_ascii_substring (n m : nat) (s : string) :
  is_ascii s = true → is_ascii (substring n m s) = true.
Proof.
  revert n m. induction s as [|a s IH]; intros n m Hs.
  - by destruct n, m.
  - cbn [is_ascii] in Hs. apply andb_true_iff in Hs as [Ha Hs].
    destruct n as [|n]; cbn [substring].
    + destruct m as [|m]; [reflexivity|]. cbn [is_ascii].
      by rewrite Ha, IH.
    + by apply IH.
Qed.

Lemma splitext_loop_ascii (p : string) (dotIndex : Z) (n : nat) (i : Z) :
  is_ascii p = true → is_ascii (splitext_loop p dotIndex n i).2 = true.
Proof.
  intros Hp. revert i. induction n as [|n IH]; intros i; cbn [splitext_loop].
  - reflexivity.
  - destruct (negb _); [|apply IH].
    unfold str_drop. cbn [snd]. by apply is_ascii_substring.
Qed.

Lemma splitext_ascii (p : string) :
  is_ascii p = true → is_ascii (splitext p).2 = true.
Proof.
  intros Hp. unfold splitext.
  destruct (_ <? _); [by apply splitext_loop_ascii | reflexivity].
Qed.

(** The extension lists are disjoint and made of lower-case suffixes: the
    category found by extension is the only one whose list has it. *)
Lemma find_file_type_iff (ext file_type : string) :
  find_file_type ext ALLOWED_EXTENSIONS = Some file_type
  ↔ str_in ext (default [] (dict_get file_type ALLOWED_EXTENSIONS)) = true.
Proof.
  split.
  - intros Hfind. unfold ALLOWED_EXTENSIONS in Hfind.
    cbn [find_file_type] in Hfind.
    repeat match type of Hfind with
           | (if ?b then _ else _) = _ =>
               let Hin := fresh "Hin" in
               destruct b eqn:Hin; [injection Hfind as <-; exact Hin|]
           end.
    discriminate.
  - intros Hin. unfold ALLOWED_EXTENSIONS in Hin. cbn [dict_get] in Hin.
    repeat match type of Hin with
           | context [String.eqb file_type ?k] =>
               destruct (String.eqb_spec file_type k) as [Hk|_];
               [ subst file_type; unfold default, id in Hin;
                 cbn [from_option str_in existsb] in Hin;
                 repeat match type of Hin with
                        | context [String.eqb ext ?x] =>
                            destruct (String.eqb_spec ext x) as [Hx|_];
                            [subst ext; reflexivity|]
                        end;
                 cbn in Hin; discriminate Hin |]
           end.
    cbn in Hin. discriminate Hin.
Qed.

End ExtensionGate.

Section ExtensionGateVerdicts.
Context `{L : Library}.

Import Router.

(** On an ASCII name the gate looks at the lower-cased extension of the
    lower-cased name. *)
Lemma validate_file_extension_ascii (name file_type : string) :
  is_ascii name = true →
  validate_file_extension name file_type
  = str_in (ascii_lower (splitext (ascii_lower name)).2)
      (default [] (dict_get file_type ALLOWED_EXTENSIONS)).
Proof.
  intros Hname. unfold validate_file_extension, lower. cbv zeta.
  by rewrite (splitext_ascii name Hname), gate_extension_ascii_lower.
Qed.

Lemma lower_ascii_text (s : string) :
  is_ascii s = true → lower s = ascii_lower s.
Proof. intros Hs. unfold lower. by rewrite Hs. Qed.

(** The category a file of the batch is filed under is one of the ten. *)
Lemma batch_category_key (file : UploadFile) (file_type : string) :
  batch_category file = Some file_type → ∃ c, file_type = key c.
Proof.
  intros Hcat. unfold batch_category, ALLOWED_EXTENSIONS in Hcat.
  cbn [find_file_type] in Hcat.
  repeat (destruct (str_in _ _) in Hcat;
          [ injection Hcat as <-;
            first [ by exists Image | by exists Video | by exists Zip
                  | by exists Pdf | by exists Excel | by exists Csv
                  | by exists Word | by exists Audio | by exists Json
                  | by exists Xml ] |]).
  discriminate.
Qed.

Lemma limit_of_category (c : category) :
  MAX_FILE_SIZE !! key c
  = Some (default 0 (dict_get (key c) limit_megabytes) * 1024 * 1024).
Proof. destruct c; vm_compute; reflexivity. Qed.

(** A file is accepted exactly when it is read and passes the two gates
    of one of the ten single-file routes. *)
Lemma accepted_iff_gates (file : UploadFile) :
  accepted file = true
  ↔ ∃ (c : category) (contents : list byte),
      body file = inr contents
      ∧ validate_file_extension (filename file) (key c) = true
      ∧ validate_file_size contents (key c) = true.
Proof.
  unfold accepted, resolved_category, suffix.
  rewrite <- find_file_type_registered. fold (batch_category file).
  split.
  - destruct (body file) as [e|contents]; [discriminate|].
    destruct (batch_category file) as [file_type|] eqn:Hcat; [|discriminate].
    destruct (batch_category_key file file_type Hcat) as [c ->].
    intros Hfits. exists c, contents. split; [reflexivity|]. split.
    + unfold validate_file_extension. cbv zeta. by apply find_file_type_iff.
    + unfold validate_file_size. rewrite limit_of_category. exact Hfits.
  - intros (c & contents & -> & Hext & Hsize).
    unfold validate_file_extension in Hext. cbv zeta in Hext.
    apply find_file_type_iff in Hext. unfold batch_category. rewrite Hext.
    unfold validate_file_size in Hsize. rewrite limit_of_category in Hsize.
    exact Hsize.
Qed.

(** What the entry of a file tells: its name, and whether it passed. *)
Lemma batch_entry_gates (file : UploadFile) (item : pyval) :
  batch_entry file item →
  field "filename" item = Some (PyStr (filename file))
  ∧ (field "success" item = Some (PyBool true)
     ∨ field "success" item = Some (PyBool false))
  ∧ (field "success" item = Some (PyBool true)
     ↔ ∃ (c : category) (contents : list byte),
         body file = inr contents
         ∧ validate_file_extension (filename file) (key c) = true
         ∧ validate_file_size contents (key c) = true).
Proof.
  intros Hentry. split; [by apply batch_entry_filename|].
  rewrite (batch_entry_success file item Hentry), <- accepted_iff_gates.
  split; [destruct (accepted file); by auto|].
  split; [by intros [= ->] | by intros ->].
Qed.

(** One iteration looks at the name of the file and at the length of its
    payload only. *)
Lemma process_file_same_shape (results : list pyval)
    (file1 file2 : UploadFile) (w : World) :
  same_shape file1 file2 →
  process_file results file2 w = process_file results file1 w.
Proof.
  intros [Hname Hbody]. unfold process_file, too_large_detail,
    validate_file_size, item_ok, size_mb, len.
  run. rewrite Hname.
  destruct (body file1) as [e1|contents1], (body file2) as [e2|contents2];
    try done.
  - by subst.
  - by rewrite Hbody.
Qed.

Lemma for_each_process_file_same_shape (files1 files2 : list UploadFile) :
  Forall2 same_shape files1 files2 →
  ∀ (results : list pyval) (w : World),
    for_each process_file results files2 w
    = for_each process_file results files1 w.
Proof.
  induction 1 as [|file1 file2 files1 files2 Hfile _ IH]; intros results w;
    [reflexivity|].
  cbn [for_each]. unfold mbind, M_bind.
  rewrite (process_file_same_shape results file1 file2 w Hfile).
  destruct (process_file results file1 w) as [[e|results'] w1];
    [reflexivity | apply IH].
Qed.

End ExtensionGateVerdicts.

(** X12. Two ASCII file names that differ only in the case of their
    letters get the same verdict from the extension gate, for every
    category. *)
Theorem validate_file_extension_ignores_case (L : Library)
    (name1 name2 file_type : string) :
  is_ascii name1 = true → is_ascii name2 = true →
  lower name1 = lower name2 →
  Router.validate_file_extension name1 file_type
  = Router.validate_file_extension name2 file_type.
Proof.
  intros Hname1 Hname2 Hsame.
  rewrite !lower_ascii_text in Hsame by done.
  rewrite !validate_file_extension_ascii by done. by rewrite Hsame.
Qed.

Lemma validate_file_extension_ignores_case_witness :
  Router.validate_file_extension (L := Demo.library) "Holiday.Photo.JPeG"
    "image"
  = Router.validate_file_extension (L := Demo.library) "holiday.photo.jpeg"
      "image".
Proof.
  apply (validate_file_extension_ignores_case Demo.library
           "Holiday.Photo.JPeG" "holiday.photo.jpeg" "image");
    reflexivity.
Defined.

(** X13. The extension gate refuses a name without a suffix for every
    category, and every name for a category that is not in
    [ALLOWED_EXTENSIONS]. *)
Theorem validate_file_extension_refuses (L : Library)
    (filename file_type : string) :
  (splitext filename).2 = EmptyString
  ∨ dict_get file_type Router.ALLOWED_EXTENSIONS = None →
  Router.validate_file_extension filename file_type = false.
Proof.
  intros [Hext|Htype].
  - unfold Router.validate_file_extension, lower. rewrite Hext.
    unfold Router.ALLOWED_EXTENSIONS. cbn [is_ascii ascii_lower dict_get].
    repeat (destruct (String.eqb file_type _); [reflexivity|]).
    reflexivity.
  - unfold Router.validate_file_extension. by rewrite Htype.
Qed.

Lemma validate_file_extension_refuses_witness :
  Router.validate_file_extension (L := Demo.library) ".gitignore" "image"
  = false
  ∧ Router.validate_file_extension (L := Demo.library) "photo.jpg" "picture"
    = false.
Proof.
  split.
  - apply (validate_file_extension_refuses Demo.library ".gitignore"
             "image").
    left. reflexivity.
  - apply (validate_file_extension_refuses Demo.library "photo.jpg"
             "picture").
    right. reflexivity.
Defined.

(** X14. The batch endpoint files an upload under a category exactly when
    that category's extension gate accepts its name; since the extension
    lists are disjoint, at most one category does. *)
Theorem batch_category_iff_extension_gate (L : Library) (file : UploadFile)
    (file_type : string) :
  batch_category file = Some file_type
  ↔ Router.validate_file_extension (filename file) file_type = true.
Proof.
  unfold batch_category, Router.validate_file_extension. cbv zeta.
  apply find_file_type_iff.
Qed.

(** X15. The batch endpoint, on a batch of at most ten files, answers
    with one entry per file, in order, and marks the entry of a file
    successful exactly when the file is read and passes both gates of one
    of the ten single-file routes; it never looks at the content: a batch
    of files with the same names and payloads of the same lengths gets
    the same answer. *)
Theorem batch_accepts_iff_gates (L : Library) (files : list UploadFile)
    (w : World) :
  (10 <? len files) = false →
  (∃ results,
     data_field "results" (Router.upload_multiple_files files w).1
     = Some (PyList results)
     ∧ Forall2
         (λ file item,
            field "filename" item = Some (PyStr (filename file))
            ∧ (field "success" item = Some (PyBool true)
               ∨ field "success" item = Some (PyBool false))
            ∧ (field "success" item = Some (PyBool true)
               ↔ ∃ (c : category) (contents : list byte),
                   body file = inr contents
                   ∧ Router.validate_file_extension (filename file) (key c)
                     = true
                   ∧ Router.validate_file_size contents (key c) = true))
         files results)
  ∧ (∀ (results : list pyval) (file : UploadFile) (w0 : World),
       ∃ item,
         Router.process_file results file w0
         = (inr (results ++ [item]), after_reads [filename file] w0)
         ∧ (field "success" item = Some (PyBool true)
            ↔ ∃ (c : category) (contents : list byte),
                body file = inr contents
                ∧ Router.validate_file_extension (filename file) (key c)
                  = true
                ∧ Router.validate_file_size contents (key c) = true))
  ∧ ∀ files', Forall2 same_shape files files' →
      Router.upload_multiple_files files' w
      = Router.upload_multiple_files files w.
Proof.
  intros Hcap. split; [|split].
  - destruct (upload_multiple_files_answer files w Hcap)
      as (results & -> & Hitems).
    exists results. split; [reflexivity|].
    eapply Forall2_impl; [exact Hitems|].
    intros file item Hentry. by apply batch_entry_gates.
  - intros results file w0.
    destruct (process_file_appends results file w0)
      as (item & Hrun & Hentry).
    exists item. split; [exact Hrun|]. by apply batch_entry_gates.
  - intros files' Hshape. unfold Router.upload_multiple_files.
    assert (len files' = len files) as ->
      by (unfold len; by rewrite (Forall2_length _ _ _ Hshape)).
    unfold mbind, M_bind.
    destruct (when _ _ w) as [[e|[]] w1]; [reflexivity|].
    by rewrite (for_each_process_file_same_shape files files' Hshape).
Qed.

Lemma batch_accepts_iff_gates_witness :
  let files := [ Demo.file "scan.png" "x"; Demo.file "tool.exe" "y" ] in
  let gates (file : UploadFile) :=
    ∃ (c : category) (contents : list byte),
      body file = inr contents
      ∧ Router.validate_file_extension (L := Demo.library) (filename file)
          (key c) = true
      ∧ Router.validate_file_size contents (key c) = true in
  (∃ results,
     data_field "results"
       (Router.upload_multiple_files (L := Demo.library) files
          initial_world).1
     = Some (PyList results)
     ∧ Forall2
         (λ file item,
            field "filename" item = Some (PyStr (filename file))
            ∧ (field "success" item = Some (PyBool true)
               ∨ field "success" item = Some (PyBool false))
            ∧ (field "success" item = Some (PyBool true) ↔ gates file))
         files results)
  ∧ (∀ (results : list pyval) (file : UploadFile) (w0 : World),
       ∃ item,
         Router.process_file (L := Demo.library) results file w0
         = (inr (results ++ [item]), after_reads [filename file] w0)
         ∧ (field "success" item = Some (PyBool true) ↔ gates file))
  ∧ ∀ files', Forall2 same_shape files files' →
      Router.upload_multiple_files (L := Demo.library) files' initial_world
      = Router.upload_multiple_files (L := Demo.library) files initial_world.
Proof.
  apply (batch_accepts_iff_gates Demo.library
           [ Demo.file "scan.png" "x"; Demo.file "tool.exe" "y" ]
           initial_world).
  reflexivity.
Defined.

(** Two batches that differ in every byte of their payloads get the same
    answer. *)
Example batch_ignores_content :
  Router.upload_multiple_files (L := Demo.library)
    [ Demo.file "scan.png" "abc"; Demo.file "pair.json" "{" ] initial_world
  = Router.upload_multiple_files (L := Demo.library)
      [ Demo.file "scan.png" "xyz"; Demo.file "pair.json" "}" ]
      initial_world.
Proof. by vm_compute. Qed.

(* ===================================================================== *)
(** * The conversation buffer                                             *)
(* ===================================================================== *)


(** X16. A chat call whose request is answered, whose reply text can be
    read and whose model name is in [GEMINI_MODELS] sends one request with
    the conversation so far (the empty one after [clear_history]), appends
    the user message and then the reply to the conversation, and reports
    the new length. *)
Theorem chat_appends_exchange (L : Library) (self : Gemini.GeminiAPI)
    (message model : string) (clear_history : bool) (w : World)
    (response : GenResponse) (reply name : string) :
  remote_generate (net w) (chat_request message model clear_history w)
  = inr response →
  response_text response = inr reply →
  dict_get model Gemini.GEMINI_MODELS = Some name →
  let out := Gemini.chat self message model clear_history w in
  chat_history out.2
  = chat_base clear_history w
    ++ [ mkChatMessage "user" message (utcnow_isoformat (clock w));
         mkChatMessage "model" reply (utcnow_isoformat (S (clock w))) ]
  ∧ net out.2 = net w ++ [chat_request message model clear_history w]
  ∧ ∃ envelope, out.1 = inr envelope
      ∧ field "success" envelope = Some (PyBool true)
      ∧ field "response" envelope = Some (PyStr reply)
      ∧ field "history_length" envelope
        = Some (PyInt (len (chat_base clear_history w) + 2))
      ∧ field "model_used" envelope = Some (PyStr name).
Proof.
  intros Hremote Hreply Hmodel out. subst out.
  unfold chat_request, chat_base in *. unfold Gemini.chat, Gemini.chat_try.
  destruct clear_history; gateway; rewrite Hremote; gateway; rewrite Hreply; gateway; rewrite Hmodel;
    gateway;
    (split; [by rewrite <- ?app_assoc|]); (split; [reflexivity|]);
    eexists; (split; [reflexivity|]); cbn;
    repeat split; try reflexivity;
    do 2 f_equal; unfold len; rewrite ?length_app; cbn; lia.
Qed.

Lemma chat_appends_exchange_witness :
  let self := Gemini.mkGeminiAPI "key" in
  let out := Gemini.chat (L := Demo.library) self "hola" "flash" false
               initial_world in
  chat_history out.2
  = chat_base false initial_world
    ++ [ mkChatMessage "user" "hola"
           (utcnow_isoformat (Library := Demo.library) 0);
         mkChatMessage "model" "hola"
           (utcnow_isoformat (Library := Demo.library) 1) ]
  ∧ net out.2
    = net initial_world ++ [chat_request "hola" "flash" false initial_world]
  ∧ ∃ envelope, out.1 = inr envelope
      ∧ field "success" envelope = Some (PyBool true)
      ∧ field "response" envelope = Some (PyStr "hola")
      ∧ field "history_length" envelope
        = Some (PyInt (len (chat_base false initial_world) + 2))
      ∧ field "model_used" envelope = Some (PyStr "gemini-1.5-flash-latest").
Proof.
  apply (chat_appends_exchange Demo.library (Gemini.mkGeminiAPI "key")
           "hola" "flash" false initial_world
           (mkGenResponse (inr "hola") None) "hola"
           "gemini-1.5-flash-latest"); reflexivity.
Defined.

(** X17. A chat call whose request fails answers with the failure
    envelope of that exception and appends nothing; a [clear_history]
    asked for with the call has emptied the conversation all the same. *)
Theorem chat_remote_failure_keeps_history (L : Library)
    (self : Gemini.GeminiAPI) (message model : string) (clear_history : bool)
    (w : World) (e : exn) :
  remote_generate (net w) (chat_request message model clear_history w)
  = inl e →
  let out := Gemini.chat self message model clear_history w in
  out.1 = inr (failure_envelope (str e) (utcnow_isoformat (clock w)))
  ∧ chat_history out.2 = chat_base clear_history w
  ∧ net out.2 = net w ++ [chat_request message model clear_history w].
Proof.
  intros Hremote out. subst out.
  unfold chat_request, chat_base in *. unfold Gemini.chat, Gemini.chat_try.
  destruct clear_history; gateway; rewrite Hremote; gateway; by repeat split.
Qed.

Lemma chat_remote_failure_keeps_history_witness :
  let self := Gemini.mkGeminiAPI "key" in
  let e := PyExn (OtherException "ServiceUnavailable") "503 upstream" in
  let out := Gemini.chat (L := Demo.failing) self "hola" "pro" true
               initial_world in
  out.1 = inr (failure_envelope (str (L := Demo.failing) e)
                 (utcnow_isoformat (Library := Demo.failing) 0))
  ∧ chat_history out.2 = chat_base true initial_world
  ∧ net out.2
    = net initial_world ++ [chat_request "hola" "pro" true initial_world].
Proof.
  apply (chat_remote_failure_keeps_history Demo.failing
           (Gemini.mkGeminiAPI "key") "hola" "pro" true initial_world).
  reflexivity.
Defined.

(** X18. A chat call that is answered but whose reply text cannot be read
    (a blocked candidate) answers with the failure envelope and leaves the
    user message in the conversation without a reply. *)
Theorem chat_blocked_reply_leaves_user_message (L : Library)
    (self : Gemini.GeminiAPI) (message model : string) (clear_history : bool)
    (w : World) (response : GenResponse) (e : exn) :
  remote_generate (net w) (chat_request message model clear_history w)
  = inr response →
  response_text response = inl e →
  let out := Gemini.chat self message model clear_history w in
  out.1 = inr (failure_envelope (str e) (utcnow_isoformat (S (clock w))))
  ∧ chat_history out.2
    = chat_base clear_history w
      ++ [mkChatMessage "user" message (utcnow_isoformat (clock w))].
Proof.
  intros Hremote Hreply out. subst out.
  unfold chat_request, chat_base in *. unfold Gemini.chat, Gemini.chat_try.
  destruct clear_history; gateway; rewrite Hremote; gateway; rewrite Hreply; gateway; by split.
Qed.

Lemma chat_blocked_reply_leaves_user_message_witness :
  let self := Gemini.mkGeminiAPI "key" in
  let e := PyExn ValueError "response.text requires a valid Part" in
  let out := Gemini.chat (L := Demo.blocked) self "hola" "flash" false
               initial_world in
  out.1 = inr (failure_envelope (str (L := Demo.blocked) e)
                 (utcnow_isoformat (Library := Demo.blocked)
                    (S (clock initial_world))))
  ∧ chat_history out.2
    = chat_base false initial_world
      ++ [mkChatMessage "user" "hola"
            (utcnow_isoformat (Library := Demo.blocked)
               (clock initial_world))].
Proof.
  apply (chat_blocked_reply_leaves_user_message Demo.blocked
           (Gemini.mkGeminiAPI "key") "hola" "flash" false initial_world
           (mkGenResponse
              (inl (PyExn ValueError "response.text requires a valid Part"))
              None));
    reflexivity.
Defined.

(** X19. [clear_chat_history] reports how many messages the conversation
    held and empties it: [get_chat_history] called next returns the empty
    list.  No request is sent. *)
Theorem clear_chat_history_empties (L : Library) (self : Gemini.GeminiAPI)
    (w : World) :
  let cleared := Gemini.clear_chat_history self w in
  (∃ envelope, cleared.1 = inr envelope
     ∧ field "success" envelope = Some (PyBool true)
     ∧ field "messages_cleared" envelope
       = Some (PyInt (len (chat_history w))))
  ∧ chat_history cleared.2 = []
  ∧ net cleared.2 = net w
  ∧ (Gemini.get_chat_history self cleared.2).1 = inr [].
Proof.
  cbv zeta. unfold Gemini.clear_chat_history, Gemini.get_chat_history.
  gateway. split; [|by repeat split].
  eexists. split; [reflexivity|]. by split.
Qed.

(* ===================================================================== *)
(** * Gateway methods: missing keys, fallbacks and what is sent           *)
(* ===================================================================== *)

Section GatewayFacts.
Context `{L : Library}.

Import Gemini.

Lemma select_model_unknown (model : string) :
  dict_get model GEMINI_MODELS = None → select_model model = model_flash.
Proof.
  unfold GEMINI_MODELS, select_model. cbn [dict_get].
  by destruct (String.eqb model "pro").
Qed.

End GatewayFacts.

(** X20. [analyze_text] with a model name that is not a key of
    [GEMINI_MODELS]: the request is still sent, to the flash model, and
    the call then fails on [GEMINI_MODELS[model]]; the answer is the
    failure envelope of that [KeyError], whose text is the [repr] of the
    name, and the reply is lost. *)
Theorem analyze_text_missing_model (L : Library) (self : Gemini.GeminiAPI)
    (text model : string) (w : World) (response : GenResponse)
    (reply : string) :
  dict_get model Gemini.GEMINI_MODELS = None →
  remote_generate (net w)
    (GenerateContent "gemini-1.5-flash-latest" (temperature_flash w)
       [TextPart text]) = inr response →
  response_text response = inr reply →
  let out := Gemini.analyze_text self text model (7 # 10) w in
  out.1 = inr (failure_envelope (repr_str model)
                 (utcnow_isoformat (clock w)))
  ∧ net out.2
    = net w ++ [GenerateContent "gemini-1.5-flash-latest"
                  (temperature_flash w) [TextPart text]].
Proof.
  intros Hmodel Hremote Hreply out. subst out.
  unfold Gemini.analyze_text, Gemini.analyze_text_try.
  rewrite (select_model_unknown model Hmodel).
  change (negb (Qeq_bool (7 # 10) (7 # 10))) with false.
  gateway. cbn [Gemini.temperature_of Gemini.model_name].
  rewrite Hremote. gateway. rewrite Hreply. gateway. rewrite Hmodel.
  by split.
Qed.

Lemma analyze_text_missing_model_witness :
  let self := Gemini.mkGeminiAPI "key" in
  let out := Gemini.analyze_text (L := Demo.library) self "hola" "turbo"
               (7 # 10) initial_world in
  out.1 = inr (failure_envelope (repr_str (L := Demo.library) "turbo")
                 (utcnow_isoformat (Library := Demo.library)
                    (clock initial_world)))
  ∧ net out.2
    = net initial_world
      ++ [GenerateContent "gemini-1.5-flash-latest"
            (temperature_flash initial_world) [TextPart "hola"]].
Proof.
  apply (analyze_text_missing_model Demo.library (Gemini.mkGeminiAPI "key")
           "hola" "turbo" initial_world
           (mkGenResponse (inr "hola") (Some (1, 1))) "hola"); reflexivity.
Defined.

(** The [repr] of a name: in single quotes, unless the name has a single
    quote and no double quote. *)
Example repr_str_names (L : Library) :
  repr_str "turbo" = "'turbo'"
  ∧ repr_str "it's" = String (ascii_of_nat 34)
                        ("it's" +:+ String (ascii_of_nat 34) EmptyString).
Proof. by split. Qed.

(** X21. [analyze_text] with a temperature other than 0.7, when the
    assignment to [_generation_config.temperature] raises, as it does on
    the dictionary the client library keeps there: the answer is the
    failure envelope of that exception, no request is sent, and the
    configuration of both models is left as it was. *)
Theorem analyze_text_temperature_rejected (L : Library)
    (self : Gemini.GeminiAPI) (text model : string) (temperature : Q)
    (w : World) (e : exn) :
  set_temperature_attr = inl e →
  Qeq_bool temperature (7 # 10) = false →
  let out := Gemini.analyze_text self text model temperature w in
  out = (inr (failure_envelope (str e) (utcnow_isoformat (clock w))), tick w)
  ∧ net out.2 = net w
  ∧ temperature_pro out.2 = temperature_pro w
  ∧ temperature_flash out.2 = temperature_flash w.
Proof.
  intros Hattr Htemp out. subst out.
  unfold Gemini.analyze_text, Gemini.analyze_text_try.
  rewrite Htemp. cbn [negb]. gateway. rewrite Hattr. by repeat split.
Qed.

Lemma analyze_text_temperature_rejected_witness :
  let self := Gemini.mkGeminiAPI "key" in
  let out := Gemini.analyze_text (L := Demo.library) self "hola" "pro"
               (1 # 5) initial_world in
  out = (inr (failure_envelope
                "'dict' object has no attribute 'temperature'"
                (utcnow_isoformat (Library := Demo.library)
                   (clock initial_world))),
         tick initial_world)
  ∧ net out.2 = net initial_world
  ∧ temperature_pro out.2 = temperature_pro initial_world
  ∧ temperature_flash out.2 = temperature_flash initial_world.
Proof.
  apply (analyze_text_temperature_rejected Demo.library
           (Gemini.mkGeminiAPI "key") "hola" "pro" (1 # 5) initial_world
           (PyExn (OtherException "AttributeError")
              "'dict' object has no attribute 'temperature'"));
    reflexivity.
Defined.

(** X22. [analyze_document] with an analysis type that is none of
    [summary], [key_points], [sentiment] and [entities] sends the summary
    prompt, while the envelope of a successful call repeats the type it
    was given. *)
Theorem analyze_document_falls_back_to_summary (L : Library)
    (self : Gemini.GeminiAPI) (document_text analysis_type : string)
    (w : World) :
  dict_get analysis_type (Gemini.document_prompts document_text) = None →
  let out := Gemini.analyze_document self document_text analysis_type w in
  net out.2
  = net w
    ++ [GenerateContent "gemini-1.5-pro-latest" (temperature_pro w)
          [TextPart ("Resume el siguiente documento de forma concisa:"
                     +:+ nl +:+ nl +:+ document_text)]]
  ∧ ∀ envelope, out.1 = inr envelope →
      field "success" envelope = Some (PyBool true) →
      field "analysis_type" envelope = Some (PyStr analysis_type).
Proof.
  intros Htype out. subst out.
  unfold Gemini.analyze_document, Gemini.analyze_document_try. cbv zeta.
  rewrite Htype. unfold default, id. cbn [from_option].
  unfold Gemini.document_prompts. gateway.
  cbn [dict_get String.eqb Ascii.eqb Bool.eqb Gemini.temperature_of
       Gemini.model_name].
  destruct (remote_generate _ _) as [e|response]; gateway.
  - split; [reflexivity|]. intros envelope [= <-]. discriminate.
  - destruct (response_text response) as [e|result]; gateway.
    + split; [reflexivity|]. intros envelope [= <-]. discriminate.
    + split; [reflexivity|]. by intros envelope [= <-] _.
Qed.

Lemma analyze_document_falls_back_to_summary_witness :
  let self := Gemini.mkGeminiAPI "key" in
  let out := Gemini.analyze_document (L := Demo.library) self "acta" "haiku"
               initial_world in
  net out.2
  = net initial_world
    ++ [GenerateContent "gemini-1.5-pro-latest"
          (temperature_pro initial_world)
          [TextPart ("Resume el siguiente documento de forma concisa:"
                     +:+ nl +:+ nl +:+ "acta")]]
  ∧ ∀ envelope, out.1 = inr envelope →
      field "success" envelope = Some (PyBool true) →
      field "analysis_type" envelope = Some (PyStr "haiku").
Proof.
  apply (analyze_document_falls_back_to_summary Demo.library
           (Gemini.mkGeminiAPI "key") "acta" "haiku" initial_world).
  reflexivity.
Defined.

(** X23. [extract_structured_data] with a schema that is not a dictionary
    fails on [schema.items()] before anything is sent: the answer is a
    failure envelope and no request is made. *)
Theorem extract_structured_data_needs_mapping (L : Library)
    (self : Gemini.GeminiAPI) (text : string) (schema : pyval) (w : World) :
  (∀ d, schema ≠ PyDict d) →
  let out := Gemini.extract_structured_data self text schema w in
  is_failure_envelope_of out.1 ∧ net out.2 = net w.
Proof.
  intros Hschema out. subst out. unfold Gemini.extract_structured_data,
    Gemini.extract_structured_data_try.
  destruct schema; try (by exfalso; eapply Hschema);
    unfold Gemini.items; gateway;
    (split; [eexists; split; [reflexivity | by eexists _, _] | reflexivity]).
Qed.

Lemma extract_structured_data_needs_mapping_witness :
  let self := Gemini.mkGeminiAPI "key" in
  let out := Gemini.extract_structured_data (L := Demo.library) self "acta"
               (PyList [PyStr "fecha"]) initial_world in
  is_failure_envelope_of out.1 ∧ net out.2 = net initial_world.
Proof.
  apply (extract_structured_data_needs_mapping Demo.library
           (Gemini.mkGeminiAPI "key") "acta" (PyList [PyStr "fecha"])
           initial_world).
  intros d. discriminate.
Defined.

(** X24. [extract_structured_data] when the reply of the model is not
    JSON: the call still succeeds, and [extracted_data] is the reply
    itself under the key [raw_response]. *)
Theorem extract_structured_data_raw_fallback (L : Library)
    (self : Gemini.GeminiAPI) (text : string) (fields : list (string * pyval))
    (w : World) (response : GenResponse) (reply msg : string) :
  let prompt :=
    Gemini.extraction_prompt
      (join nl ((λ kv, "- " +:+ kv.1 +:+ ": " +:+ py_format kv.2) <$> fields))
      text in
  remote_generate (net w)
    (GenerateContent "gemini-1.5-pro-latest" (temperature_pro w)
       [TextPart prompt]) = inr response →
  response_text response = inr reply →
  json_loads (str_replace "```" EmptyString
                (str_replace "```json" EmptyString (str_strip reply)))
  = inl (PyExn JSONDecodeError msg) →
  ∃ envelope,
    (Gemini.extract_structured_data self text (PyDict fields) w).1
    = inr envelope
    ∧ field "success" envelope = Some (PyBool true)
    ∧ field "extracted_data" envelope
      = Some (PyDict [("raw_response", PyStr reply)])
    ∧ field "schema_used" envelope = Some (PyDict fields).
Proof.
  intros prompt Hremote Hreply Hjson. subst prompt.
  unfold Gemini.extract_structured_data, Gemini.extract_structured_data_try,
    Gemini.items. gateway.
  cbn [Gemini.temperature_of Gemini.model_name].
  rewrite Hremote. gateway. rewrite Hreply. gateway. rewrite Hjson. gateway.
  cbn [is_class fst].
  eexists. split; [reflexivity|]. by repeat split.
Qed.

Lemma extract_structured_data_raw_fallback_witness :
  let self := Gemini.mkGeminiAPI "key" in
  let fields := [("fecha", PyStr "dd/mm/aaaa")] in
  let reply :=
    Gemini.extraction_prompt
      (join nl ((λ kv, "- " +:+ kv.1 +:+ ": "
                       +:+ py_format (Library := Demo.library) kv.2)
                <$> fields))
      "acta" in
  ∃ envelope,
    (Gemini.extract_structured_data (L := Demo.library) self "acta"
       (PyDict fields) initial_world).1
    = inr envelope
    ∧ field "success" envelope = Some (PyBool true)
    ∧ field "extracted_data" envelope
      = Some (PyDict [("raw_response", PyStr reply)])
    ∧ field "schema_used" envelope = Some (PyDict fields).
Proof.
  eapply (extract_structured_data_raw_fallback Demo.library
            (Gemini.mkGeminiAPI "key") "acta" [("fecha", PyStr "dd/mm/aaaa")]
            initial_world); reflexivity.
Defined.

(** X25. [analyze_image] on bytes Pillow cannot open answers with the
    failure envelope of Pillow's exception and sends nothing. *)
Theorem analyze_image_unreadable_sends_nothing (L : Library)
    (self : Gemini.GeminiAPI) (image_data : list byte) (prompt : string)
    (w : World) (e : exn) :
  Image_open image_data = inl e →
  Gemini.analyze_image self image_data prompt "bytes" w
  = (inr (failure_envelope (str e) (utcnow_isoformat (clock w))), tick w).
Proof.
  intros Himage. unfold Gemini.analyze_image, Gemini.analyze_image_try.
  change (String.eqb "bytes" "base64") with false. gateway.
  rewrite Himage. reflexivity.
Qed.

Lemma analyze_image_unreadable_sends_nothing_witness :
  let e := PyExn (OtherException "UnidentifiedImageError")
             "cannot identify image file" in
  Gemini.analyze_image (L := Demo.library) (Gemini.mkGeminiAPI "key")
    [x25; x50] "describe" "bytes" initial_world
  = (inr (failure_envelope (str (L := Demo.library) e)
            (utcnow_isoformat (Library := Demo.library)
               (clock initial_world))),
     tick initial_world).
Proof.
  apply (analyze_image_unreadable_sends_nothing Demo.library
           (Gemini.mkGeminiAPI "key") [x25; x50] "describe" initial_world).
  reflexivity.
Defined.

(* ===================================================================== *)
(** * Embeddings, and the AI routes with a client                         *)
(* ===================================================================== *)

Section Embeddings.
Context `{L : Library}.

(** One iteration whose request is answered. *)
Lemma embed_one_answered (task_type text : string) (acc : list pyval)
    (w : World) (v : list Q) :
  remote_embed (net w) (embed_request task_type text) = inr v →
  Gemini.embed_one task_type acc text w
  = (inr (acc ++ [PyDict [ ("text", PyStr (Gemini.text_preview text));
                           ("embedding", PyList (PyFloat <$> v));
                           ("dimensions", PyInt (len v)) ]]),
     mkWorld (clock w) (reads w) (net w ++ [embed_request task_type text])
       (chat_history w) (temperature_pro w) (temperature_flash w)).
Proof.
  intros Hv. unfold embed_request in *.
  unfold Gemini.embed_one, Gemini.send, mbind, mret, M_bind, M_ret.
  by rewrite Hv.
Qed.

(** The loop of [generate_embeddings] while the service answers: one
    request per text, in order, and one entry per text. *)
Lemma for_each_embed_one (task_type : string) (texts : list string) :
  ∀ (acc : list pyval) (w : World),
    (∀ log text, text ∈ texts →
       ∃ v, remote_embed log (embed_request task_type text) = inr v) →
    ∃ items,
      for_each (Gemini.embed_one task_type) acc texts w
      = (inr (acc ++ items),
         mkWorld (clock w) (reads w)
           (net w ++ (embed_request task_type <$> texts)) (chat_history w)
           (temperature_pro w) (temperature_flash w))
      ∧ Forall2
          (λ item text,
             field "text" item = Some (PyStr (Gemini.text_preview text)))
          items texts.
Proof.
  induction texts as [|text texts IH]; intros acc w Hok.
  - exists []. rewrite !app_nil_r. destruct w. by split.
  - destruct (Hok (net w) text) as [v Hv]; [constructor|].
    cbn [for_each]. unfold mbind, M_bind.
    rewrite (embed_one_answered task_type text acc w v Hv).
    edestruct IH as (items & -> & Hitems).
    { intros log text' Hin. apply Hok. by constructor. }
    eexists (_ :: items). cbn [net clock reads chat_history temperature_pro
                               temperature_flash fmap list_fmap].
    rewrite <- !app_assoc. split; [reflexivity|]. by constructor.
Qed.

End Embeddings.

(** X26. [generate_embeddings] while the embedding service answers: one
    request is sent per text, in the order of the texts and with the task
    type given, and the envelope holds one entry per text, each with the
    preview of its text. *)
Theorem generate_embeddings_one_request_per_text (L : Library)
    (self : Gemini.GeminiAPI) (texts : list string) (task_type : string)
    (w : World) :
  (∀ log text, text ∈ texts →
     ∃ v, remote_embed log (embed_request task_type text) = inr v) →
  let out := Gemini.generate_embeddings self texts task_type w in
  net out.2 = net w ++ (embed_request task_type <$> texts)
  ∧ ∃ envelope embeddings,
      out.1 = inr envelope
      ∧ field "success" envelope = Some (PyBool true)
      ∧ field "embeddings" envelope = Some (PyList embeddings)
      ∧ field "total_texts" envelope = Some (PyInt (len texts))
      ∧ length embeddings = length texts
      ∧ Forall2
          (λ item text,
             field "text" item = Some (PyStr (Gemini.text_preview text)))
          embeddings texts.
Proof.
  intros Hok out. subst out.
  destruct (for_each_embed_one task_type texts [] w Hok)
    as (items & Hloop & Hitems).
  unfold Gemini.generate_embeddings, Gemini.generate_embeddings_try,
    Gemini.guarded, try_except, utcnow.
  unfold mbind, mret, M_bind, M_ret. cbv beta iota zeta. rewrite Hloop.
  cbv beta iota zeta. cbn [fst snd net app].
  split; [reflexivity|]. eexists _, items.
  split; [reflexivity|]. repeat split; try done.
  by eapply Forall2_length.
Qed.

Lemma generate_embeddings_one_request_per_text_witness :
  let self := Gemini.mkGeminiAPI "key" in
  let texts := ["uno"; "dos"] in
  let out := Gemini.generate_embeddings (L := Demo.library) self texts
               "retrieval_document" initial_world in
  net out.2
  = net initial_world ++ (embed_request "retrieval_document" <$> texts)
  ∧ ∃ envelope embeddings,
      out.1 = inr envelope
      ∧ field "success" envelope = Some (PyBool true)
      ∧ field "embeddings" envelope = Some (PyList embeddings)
      ∧ field "total_texts" envelope = Some (PyInt (len texts))
      ∧ length embeddings = length texts
      ∧ Forall2
          (λ item text,
             field "text" item
             = Some (PyStr (Gemini.text_preview text)))
          embeddings texts.
Proof.
  apply (generate_embeddings_one_request_per_text Demo.library
           (Gemini.mkGeminiAPI "key") ["uno"; "dos"] "retrieval_document"
           initial_world).
  intros log text _. eexists. reflexivity.
Defined.

(** The preview counts characters, not bytes: a text of 101 two-byte
    characters is cut after the hundredth, one of 60 is kept whole. *)
Example text_preview_counts_characters :
  let e := String (ascii_of_nat 195) (String (ascii_of_nat 169) "") in
  Gemini.text_preview (Demo.repeat_string 101 e)
  = Demo.repeat_string 100 e +:+ "..."
  ∧ String.length (Demo.repeat_string 60 e) = 120%nat
  ∧ Gemini.text_preview (Demo.repeat_string 60 e) = Demo.repeat_string 60 e.
Proof. by vm_compute. Qed.

Section FormRoutes.
Context `{L : Library}.

Lemma encodable_floats (v : list Q) :
  forallb utf8_encodable (PyFloat <$> v) = true.
Proof. induction v as [|x v IH]; [reflexivity | exact IH]. Qed.

(** The entries of [generate_embeddings] hold texts and numbers. *)
Lemma for_each_embed_one_encodable (task_type : string)
    (texts : list string) :
  ∀ acc : list pyval,
    forallb utf8_encodable acc = true →
    returns (λ embeddings, forallb utf8_encodable embeddings = true)
      (for_each (Gemini.embed_one task_type) acc texts).
Proof.
  induction texts as [|text texts IH]; intros acc Hacc; cbn [for_each].
  - by apply returns_mret.
  - eapply returns_bind_with; [|exact IH].
    unfold Gemini.embed_one. apply returns_bind. intros embedding.
    apply returns_mret. rewrite forallb_app, Hacc.
    cbn [forallb utf8_encodable andb]. fold (fmap PyFloat embedding).
    by rewrite encodable_floats.
Qed.

Ltac plain_envelope :=
  cbv zeta; repeat (apply returns_bind; intros);
  apply returns_mret; reflexivity.

(** What the [try] block of a method called with form fields returns
    holds texts and numbers only: it can be rendered. *)
Lemma attempt_encodable (self : Gemini.GeminiAPI) (request : ai_request)
    (call : gateway_call) :
  forwarded request = Some call →
  returns (λ v, utf8_encodable v = true) (attempt self call).
Proof.
  intros Hcall.
  destruct request; try discriminate; injection Hcall as <-;
    cbn [attempt];
    unfold Gemini.analyze_text_try, Gemini.chat_try,
      Gemini.clear_chat_history, Gemini.analyze_sentiment_try,
      Gemini.generate_embeddings_try, Gemini.translate_text_try,
      Gemini.summarize_text_try, Gemini.generate_creative_content_try,
      Gemini.check_grammar_try;
    try plain_envelope.
  - cbv zeta. repeat (apply returns_bind; intros). apply returns_mret.
    unfold Gemini.tokens. cbn [utf8_encodable forallb andb].
    by destruct (usage_metadata _).
  - eapply returns_bind_with;
      [by apply for_each_embed_one_encodable|].
    intros embeddings Hembeddings. apply returns_bind. intros timestamp.
    apply returns_mret. cbn [utf8_encodable forallb andb].
    by rewrite Hembeddings.
Qed.

Lemma forwarded_answers_with_envelope (request : ai_request)
    (call : gateway_call) :
  forwarded request = Some call → answers_with_envelope call = true.
Proof. destruct request; try discriminate; by intros [= <-]. Qed.

Lemma forwarded_form_only (request : ai_request) :
  form_only request = true → ∃ call, forwarded request = Some call.
Proof. destruct request; try discriminate; by eexists. Qed.

(** Such a route calls the method and renders what it answers. *)
Lemma serve_forwarded (c : Gemini.GeminiAPI) (request : ai_request)
    (call : gateway_call) (w : World) :
  forwarded request = Some call →
  serve (Some c) request w
  = (result ← invoke c call; lift (JSONResponse_init result)) w.
Proof.
  destruct request; try discriminate; intros [= <-]; reflexivity.
Qed.

(** The envelope of a method called with form fields can be rendered. *)
Lemma invoke_encodable (c : Gemini.GeminiAPI) (request : ai_request)
    (call : gateway_call) (w w' : World) (envelope : pyval) :
  forwarded request = Some call →
  invoke c call w = (inr envelope, w') →
  utf8_encodable envelope = true.
Proof.
  intros Hcall Hrun.
  pose proof (invoke_attempt c call w
                (forwarded_answers_with_envelope request call Hcall))
    as Hinvoke.
  destruct (attempt c call w) as [[e|v] w1] eqn:Hattempt.
  - rewrite Hinvoke in Hrun. by injection Hrun as <- _.
  - destruct Hinvoke as [Hinvoke _]. rewrite Hinvoke in Hrun.
    injection Hrun as <- _.
    eapply (attempt_encodable c request call Hcall), Hattempt.
Qed.

End FormRoutes.

(** X27. With a client, a route that only passes form fields to the
    gateway never raises: whatever the remote service does, the answer is
    a 200 whose body is the envelope the gateway method answered with, and
    the world is as the method left it.  A call whose [try] block raised
    reaches the caller as a 200 with [success] false and the text of the
    exception; in particular every such route does so when the remote
    service refuses the request. *)
Theorem form_only_routes_answer_200 (L : Library) (c : Gemini.GeminiAPI)
    (request : ai_request) (w : World) :
  form_only request = true →
  ∃ call envelope w',
    forwarded request = Some call
    ∧ invoke c call w = (inr envelope, w')
    ∧ serve (Some c) request w = (inr (mkJSONResponse 200 envelope), w')
    ∧ (is_success_envelope envelope ∨ is_failure_envelope envelope)
    ∧ (∀ e w1, attempt c call w = (inl e, w1) →
         envelope = failure_envelope (str e) (utcnow_isoformat (clock w1))
         ∧ field "success" envelope = Some (PyBool false)
         ∧ field "error" envelope = Some (PyStr (str e)))
    ∧ (∀ v w1, attempt c call w = (inr v, w1) →
         envelope = v ∧ field "success" envelope = Some (PyBool true))
    ∧ (∀ e, service_down e → reaches_service call →
         envelope = failure_envelope (str e) (utcnow_isoformat (clock w))
         ∧ field "success" envelope = Some (PyBool false)).
Proof.
  intros Hform. destruct (forwarded_form_only request Hform) as [call Hcall].
  pose proof (forwarded_answers_with_envelope request call Hcall) as Hanswers.
  destruct (invoke_answers c call w Hanswers) as (envelope & w' & Hrun & Henv).
  exists call, envelope, w'. split; [exact Hcall|]. split; [exact Hrun|].
  split.
  { rewrite (serve_forwarded c request call w Hcall).
    unfold mbind, M_bind, lift. rewrite Hrun.
    by rewrite (JSONResponse_init_encodable envelope
                  (invoke_encodable c request call w w' envelope Hcall Hrun)). }
  split; [exact Henv|].
  pose proof (invoke_attempt c call w Hanswers) as Hinvoke.
  split; [|split].
  - intros e w1 Hattempt. rewrite Hattempt, Hrun in Hinvoke.
    injection Hinvoke as -> _. by repeat split.
  - intros v w1 Hattempt. rewrite Hattempt, Hrun in Hinvoke.
    destruct Hinvoke as [[= -> _] [Hsuccess _]]. by split.
  - intros e Hdown Hreach.
    destruct (invoke_service_down c call e w Hanswers Hdown Hreach)
      as [w1 Hfail].
    rewrite Hrun in Hfail. injection Hfail as -> _. by split.
Qed.

Lemma form_only_routes_answer_200_witness :
  let c := Gemini.mkGeminiAPI "key" in
  let request := Translate "hola" "English" "auto" in
  ∃ call envelope w',
    forwarded request = Some call
    ∧ invoke (H := Demo.failing) c call initial_world = (inr envelope, w')
    ∧ serve (H := Demo.failing) (Some c) request initial_world
      = (inr (mkJSONResponse 200 envelope), w')
    ∧ (is_success_envelope envelope ∨ is_failure_envelope envelope)
    ∧ (∀ e w1, attempt (H := Demo.failing) c call initial_world
               = (inl e, w1) →
         envelope = failure_envelope (str (L := Demo.failing) e)
                      (utcnow_isoformat (Library := Demo.failing) (clock w1))
         ∧ field "success" envelope = Some (PyBool false)
         ∧ field "error" envelope
           = Some (PyStr (str (L := Demo.failing) e)))
    ∧ (∀ v w1, attempt (H := Demo.failing) c call initial_world
               = (inr v, w1) →
         envelope = v ∧ field "success" envelope = Some (PyBool true))
    ∧ (∀ e, service_down (H := Demo.failing) e →
         reaches_service (H := Demo.failing) call →
         envelope = failure_envelope (str (L := Demo.failing) e)
                      (utcnow_isoformat (Library := Demo.failing)
                         (clock initial_world))
         ∧ field "success" envelope = Some (PyBool false)).
Proof.
  apply (form_only_routes_answer_200 Demo.failing (Gemini.mkGeminiAPI "key")
           (Translate "hola" "English" "auto") initial_world).
  reflexivity.
Defined.

(** The same request against a service that refuses it, computed. *)
Example translate_against_failing_service :
  (serve (H := Demo.failing) (Some (Gemini.mkGeminiAPI "key"))
     (Translate "hola" "English" "auto") initial_world).1
  = inr (mkJSONResponse 200
           (PyDict [ ("success", PyBool false);
                     ("error", PyStr "503 upstream");
                     ("timestamp",
                       PyStr (utcnow_isoformat (Library := Demo.failing)
                                0)) ])).
Proof. reflexivity. Qed.

(** X28. [/health] and [/ai/status] both report whether the client was
    created when the process started: with [GOOGLE_API_KEY] unset or
    empty, [gemini_ai] is [unavailable] and [gemini_available] is false;
    with any other value they are [operational] and true.  Both answer
    without the gateway. *)
Theorem health_check_reflects_credential (L : Library)
    (environ : option string) (w : World) :
  let gemini_client := AiRoutes.client_at_start environ in
  ∃ report services status,
    Main.health_check gemini_client w = (inr report, tick w)
    ∧ field "services" report = Some services
    ∧ field "gemini_ai" services
      = Some (PyStr (if credential_absent environ then "unavailable"
                     else "operational"))
    ∧ AiRoutes.gemini_status gemini_client w = (inr status, tick w)
    ∧ status_code_of status = 200
    ∧ field "gemini_available" (content status)
      = Some (PyBool (negb (credential_absent environ))).
Proof.
  cbv zeta. destruct (credential_absent environ) eqn:Hkey.
  - rewrite (client_at_start_absent environ Hkey).
    eexists _, _, _. repeat split; reflexivity.
  - destruct environ as [k|]; [|discriminate].
    rewrite (client_at_start_present k Hkey).
    eexists _, _, _. repeat split; reflexivity.
Qed.

(** X29. The two image routes of the AI router refuse a file whose content
    type does not start with [image/] with a 400 that reaches the caller
    as such: the file is not read and nothing is sent. *)
Theorem ai_image_routes_refuse_other_content (L : Library)
    (c : Gemini.GeminiAPI) (file : UploadFile) (prompt : string) (w : World) :
  str_startswith (content_type file) "image/" = false →
  let refusal := HTTPException 400 "El archivo debe ser una imagen" in
  AiRoutes.analyze_image_endpoint (Some c) file prompt w = (inl refusal, w)
  ∧ AiRoutes.combined_image_analysis (Some c) file prompt w
    = (inl refusal, w)
  ∧ http_status (AiRoutes.analyze_image_endpoint (Some c) file prompt w).1
    = 400.
Proof.
  intros Htype refusal. subst refusal.
  unfold AiRoutes.analyze_image_endpoint, AiRoutes.combined_image_analysis,
    AiRoutes.check_gemini_available.
  unfold when, raise, mbind, mret, M_bind, M_ret. rewrite Htype.
  cbn [negb]. cbv beta iota zeta. by repeat split.
Qed.

Lemma ai_image_routes_refuse_other_content_witness :
  let c := Gemini.mkGeminiAPI "key" in
  let file := Demo.file "notes.txt" "hola" in
  let refusal := HTTPException 400 "El archivo debe ser una imagen" in
  AiRoutes.analyze_image_endpoint (L := Demo.library) (Some c) file
    "describe" initial_world = (inl refusal, initial_world)
  ∧ AiRoutes.combined_image_analysis (L := Demo.library) (Some c) file
      "describe" initial_world = (inl refusal, initial_world)
  ∧ http_status
      (AiRoutes.analyze_image_endpoint (L := Demo.library) (Some c) file
         "describe" initial_world).1 = 400.
Proof.
  apply (ai_image_routes_refuse_other_content Demo.library
           (Gemini.mkGeminiAPI "key") (Demo.file "notes.txt" "hola")
           "describe" initial_world).
  reflexivity.
Defined.

(** X30. An upload declared as an image that Pillow cannot open: the route
    [/ai/analyze-image] answers 200 with the failure envelope of the
    gateway, the route [/ai/combined/image-analysis] opens the image
    itself, outside any [try], and lets Pillow's exception escape.
    Neither sends a request. *)
Theorem ai_image_routes_differ_on_unreadable_image (L : Library)
    (c : Gemini.GeminiAPI) (file : UploadFile) (prompt : string) (w : World)
    (contents : list byte) (e : exn) :
  str_startswith (content_type file) "image/" = true →
  body file = inr contents →
  Image_open contents = inl e →
  let plain := AiRoutes.analyze_image_endpoint (Some c) file prompt w in
  let combined := AiRoutes.combined_image_analysis (Some c) file prompt w in
  plain.1
  = inr (AiRoutes.json_response
           (failure_envelope (str e) (utcnow_isoformat (clock w))))
  ∧ combined.1 = inl e
  ∧ net plain.2 = net w
  ∧ net combined.2 = net w.
Proof.
  intros Htype Hbody Himage plain combined. subst plain combined.
  unfold AiRoutes.analyze_image_endpoint, AiRoutes.combined_image_analysis,
    AiRoutes.check_gemini_available, AiRoutes.client, Gemini.analyze_image,
    Gemini.analyze_image_try, JSONResponse_init, read.
  change (String.eqb "bytes" "base64") with false.
  gateway. rewrite Htype. cbn [negb]. gateway. rewrite Hbody. gateway.
  rewrite Himage. gateway. cbn [utf8_encodable forallb andb].
  by repeat split.
Qed.

Lemma ai_image_routes_differ_on_unreadable_image_witness :
  let c := Gemini.mkGeminiAPI "key" in
  let file := mkUploadFile "scan.png" "image/png" (inr [x25; x50]) in
  let e := PyExn (OtherException "UnidentifiedImageError")
             "cannot identify image file" in
  let plain := AiRoutes.analyze_image_endpoint (L := Demo.library) (Some c)
                 file "describe" initial_world in
  let combined := AiRoutes.combined_image_analysis (L := Demo.library)
                    (Some c) file "describe" initial_world in
  plain.1
  = inr (AiRoutes.json_response
           (failure_envelope (str (L := Demo.library) e)
              (utcnow_isoformat (Library := Demo.library)
                 (clock initial_world))))
  ∧ combined.1 = inl e
  ∧ net plain.2 = net initial_world
  ∧ net combined.2 = net initial_world.
Proof.
  apply (ai_image_routes_differ_on_unreadable_image Demo.library
           (Gemini.mkGeminiAPI "key")
           (mkUploadFile "scan.png" "image/png" (inr [x25; x50])) "describe"
           initial_world [x25; x50]); reflexivity.
Defined.
